(** * site-crawler: a shallow embedding of the crawler and its analyzers

    The development follows the layout of the repository:

    - [Py]                   the few Python notions the code relies on
                             (exceptions, [str] methods, [re] patterns, dict
                             values);
    - [Url]                  [urllib.parse]: [urlsplit], [urlparse] and
                             [urljoin], which may raise;
    - [RobotsParser]         [src/utils/robots_parser.py], with the flags
                             of the library's [RobotFileParser];
    - [PerformanceAnalyzer]  [src/analyzers/performance_analyzer.py];
    - [SEOAnalyzer]          [src/analyzers/seo_analyzer.py];
    - [ContentAnalyzer]      [src/analyzers/content_analyzer.py];
    - [SEOCrawler]           [src/seo_crawler.py], as a machine whose threads
                             run [analyze_page] one statement at a time.

    Definitions come first, the statements about them second. *)

From Stdlib Require Import ZArith QArith Lia Lqa List String Ascii Bool DecimalString.
From stdpp Require Import base gmap strings list.

Open Scope string_scope.
Set Warnings "-register-all".

(* ================================================================== *)
(** * Part I: the embedding *)
(* ================================================================== *)

(** ** Python notions *)

Module Py.

(** The outcome of a call: the value returned, or the exception raised,
    carried by its message ([str(e)]). *)
Inductive result (A : Type) : Type :=
| Ok (a : A)
| Raise (e : string).
Arguments Ok {A} a.
Arguments Raise {A} e.

Definition bind {A B : Type} (m : result A) (k : A -> result B) : result B :=
  match m with
  | Ok a => k a
  | Raise e => Raise e
  end.

(** [try: body / except Exception as e: handler e]. *)
Definition try_except {A : Type} (body : result A) (handler : string -> result A)
  : result A :=
  match body with
  | Ok a => Ok a
  | Raise e => handler e
  end.

Definition raises {A : Type} (m : result A) : Prop := exists e, m = Raise e.

(** Values that end up in the JSON report. A dict keeps its insertion order. *)
Inductive value : Type :=
| VNone
| VBool (b : bool)
| VInt (n : Z)
| VFloat (q : Q)
| VStr (s : string)
| VList (l : list value)
| VDict (d : list (string * value)).


(** [d[k]] for a key that is present. *)
Fixpoint dict_get (d : list (string * value)) (k : string) : option value :=
  match d with
  | [] => None
  | (k', v) :: d' => if String.eqb k k' then Some v else dict_get d' k
  end.

(** *** [str] methods *)

(** [s.startswith(p)]. *)
Fixpoint startswith (s p : string) : bool :=
  match p, s with
  | EmptyString, _ => true
  | String _ _, EmptyString => false
  | String a p', String b s' => Ascii.eqb a b && startswith s' p'
  end.

(** [sub in s]. *)
Fixpoint contains (sub s : string) : bool :=
  startswith s sub ||
  match s with
  | EmptyString => false
  | String _ s' => contains sub s'
  end.

(** [s.endswith(p)]. *)
Fixpoint endswith (s p : string) : bool :=
  String.eqb s p ||
  match s with
  | EmptyString => false
  | String _ s' => endswith s' p
  end.

(** [c in chars] for a single character [c]. *)
Fixpoint char_in (c : ascii) (chars : string) : bool :=
  match chars with
  | EmptyString => false
  | String a chars' => Ascii.eqb c a || char_in c chars'
  end.

Definition is_upper (c : ascii) : bool :=
  (65 <=? nat_of_ascii c)%nat && (nat_of_ascii c <=? 90)%nat.
Definition is_lower (c : ascii) : bool :=
  (97 <=? nat_of_ascii c)%nat && (nat_of_ascii c <=? 122)%nat.
Definition is_digit (c : ascii) : bool :=
  (48 <=? nat_of_ascii c)%nat && (nat_of_ascii c <=? 57)%nat.
Definition is_alpha (c : ascii) : bool := is_upper c || is_lower c.

Definition lower_char (c : ascii) : ascii :=
  if is_upper c then ascii_of_nat (nat_of_ascii c + 32) else c.

(** [s.lower()], on ASCII text. *)
Fixpoint lower (s : string) : string :=
  match s with
  | EmptyString => EmptyString
  | String c s' => String (lower_char c) (lower s')
  end.

(** [s.split(sep)] for a one-character separator: never empty. *)
Fixpoint split_on (sep : ascii) (s : string) : list string :=
  match s with
  | EmptyString => [EmptyString]
  | String c s' =>
      if Ascii.eqb c sep then EmptyString :: split_on sep s'
      else match split_on sep s' with
           | [] => [String c EmptyString]
           | w :: ws => String c w :: ws
           end
  end.

(** [sep.join(parts)]. *)
Fixpoint join (sep : string) (parts : list string) : string :=
  match parts with
  | [] => EmptyString
  | [w] => w
  | w :: ws => w ++ sep ++ join sep ws
  end.

(** [s.split(sep, 1)] when [sep in s]: the text before the first separator
    and the text after it. *)
Fixpoint cut (sep : ascii) (s : string) : option (string * string) :=
  match s with
  | EmptyString => None
  | String c s' =>
      if Ascii.eqb c sep then Some (EmptyString, s')
      else match cut sep s' with
           | Some (a, b) => Some (String c a, b)
           | None => None
           end
  end.

(** [len(s)] for a text held in UTF-8: the number of characters, which is
    the number of bytes that do not continue a character (those outside
    128-191). *)
Fixpoint len (s : string) : nat :=
  match s with
  | EmptyString => 0
  | String c s' =>
      let n := nat_of_ascii c in
      if (128 <=? n)%nat && (n <=? 191)%nat then len s' else S (len s')
  end.

(** [str(n)] for a non-negative int. *)
Definition str_of_nat (n : nat) : string :=
  match n with
  | O => "0"
  | _ => NilEmpty.string_of_uint (Nat.to_uint n)
  end.

(** *** [re] patterns used by the analyzers (ASCII text) *)

(** A character matched by [\w]. *)
Definition is_word_char (c : ascii) : bool :=
  is_alpha c || is_digit c || Ascii.eqb c "_"%char.

(** [re.findall(r'\b\w+\b', text)]: the maximal runs of word characters.
    [cur] is the run being read. *)
Fixpoint findall_words_from (cur : string) (text : string) : list string :=
  match text with
  | EmptyString => match cur with EmptyString => [] | _ => [cur] end
  | String c text' =>
      if is_word_char c then findall_words_from (cur ++ String c EmptyString) text'
      else match cur with
           | EmptyString => findall_words_from EmptyString text'
           | _ => cur :: findall_words_from EmptyString text'
           end
  end.

Definition findall_words (text : string) : list string :=
  findall_words_from EmptyString text.

(** A character matched by [[.!?]]. *)
Definition is_terminator (c : ascii) : bool := char_in c ".!?".

(** [re.split(r'[.!?]+', text)]: the pieces between maximal runs of
    terminators, the empty pieces before a leading run and after a trailing
    run included. [cur] is the piece being read, [in_run] tells that the
    previous character was a terminator. *)
Fixpoint split_terminators_from (cur : string) (in_run : bool) (text : string)
  : list string :=
  match text with
  | EmptyString => [cur]
  | String c text' =>
      if is_terminator c then
        if in_run then split_terminators_from EmptyString true text'
        else cur :: split_terminators_from EmptyString true text'
      else split_terminators_from (cur ++ String c EmptyString) false text'
  end.

Definition split_terminators (text : string) : list string :=
  split_terminators_from EmptyString false text.

(** *** Floats *)

(** Floats are modelled by rationals and their arithmetic by exact
    arithmetic. The constants the code compares a float with (1.0, 2.5,
    3.0, 4.0, 6.0, ...) are binary fractions, so [x < y] and [x <= y]
    against them are the comparisons of the rationals the floats denote. *)
Definition ltb (x y : Q) : bool :=
  match (x ?= y)%Q with Lt => true | _ => false end.
Definition leb (x y : Q) : bool :=
  match (x ?= y)%Q with Gt => false | _ => true end.

(** [round(x, 2)], on rationals: the nearest multiple of 1/100, ties to
    the even one. *)
Definition round2 (x : Q) : Q :=
  let n := (Qnum x * 100)%Z in
  let d := Zpos (Qden x) in
  let q := (n / d)%Z in
  let r := (n mod d)%Z in
  let up :=
    match (2 * r ?= d)%Z with
    | Lt => false
    | Gt => true
    | Eq => Z.odd q
    end in
  ((if up then q + 1 else q)%Z # 100)%Q.

(** *** Division *)

(** [a / b] on ints: the quotient as a float, or [ZeroDivisionError]. *)
Definition true_div (a b : Z) : result Q :=
  if (b =? 0)%Z then Raise "division by zero"
  else Ok (inject_Z a / inject_Z b)%Q.

(** *** Whitespace *)

(** [c.isspace()] on ASCII: tab, line feed, vertical tab, form feed,
    carriage return, the four separators 28-31 and the space. *)
Definition is_space (c : ascii) : bool :=
  let n := nat_of_ascii c in
  ((9 <=? n)%nat && (n <=? 13)%nat) || ((28 <=? n)%nat && (n <=? 32)%nat).

(** [s.split()]: the maximal runs of characters that are not whitespace.
    [cur] is the run being read. *)
Fixpoint split_whitespace_from (cur : string) (s : string) : list string :=
  match s with
  | EmptyString => match cur with EmptyString => [] | _ => [cur] end
  | String c s' =>
      if is_space c then
        match cur with
        | EmptyString => split_whitespace_from EmptyString s'
        | _ => cur :: split_whitespace_from EmptyString s'
        end
      else split_whitespace_from (cur ++ String c EmptyString) s'
  end.

Definition split_whitespace (s : string) : list string :=
  split_whitespace_from EmptyString s.

(** *** Dicts with string keys, in insertion order *)

(** [d[k] = v]: a key that is present keeps its place. *)
Fixpoint setitem {A : Type} (d : list (string * A)) (k : string) (v : A)
  : list (string * A) :=
  match d with
  | [] => [(k, v)]
  | (k', v') :: d' =>
      if String.eqb k' k then (k', v) :: d' else (k', v') :: setitem d' k v
  end.

(** [d.get(k)]. *)
Fixpoint lookup {A : Type} (d : list (string * A)) (k : string) : option A :=
  match d with
  | [] => None
  | (k', v) :: d' => if String.eqb k' k then Some v else lookup d' k
  end.

(** [k in d]. *)
Definition has_key {A : Type} (d : list (string * A)) (k : string) : bool :=
  match lookup d k with Some _ => true | None => false end.

(** [s.lstrip()], [s.rstrip()] and [s.strip()]. *)
Fixpoint lstrip (s : string) : string :=
  match s with
  | EmptyString => EmptyString
  | String c s' => if is_space c then lstrip s' else s
  end.

Fixpoint rstrip (s : string) : string :=
  match s with
  | EmptyString => EmptyString
  | String c s' =>
      match rstrip s' with
      | EmptyString => if is_space c then EmptyString else String c EmptyString
      | r => String c r
      end
  end.

Definition strip (s : string) : string := rstrip (lstrip s).

(** A character that ends a line for [splitlines]: line feed, vertical
    tab, form feed, carriage return and the separators 28-30 (ASCII). *)
Definition is_line_break (c : ascii) : bool :=
  let n := nat_of_ascii c in
  ((10 <=? n)%nat && (n <=? 13)%nat) || ((28 <=? n)%nat && (n <=? 30)%nat).

(** [s.splitlines()]: the lines without their ends; a carriage return
    followed by a line feed ends one line; no empty line after the last
    line end. [cur] is the line being read. *)
Fixpoint splitlines_from (cur : string) (s : string) : list string :=
  match s with
  | EmptyString => match cur with EmptyString => [] | _ => [cur] end
  | String c s' =>
      if is_line_break c then
        cur :: match c, s' with
               | "013"%char, String "010"%char s'' => splitlines_from EmptyString s''
               | _, _ => splitlines_from EmptyString s'
               end
      else splitlines_from (cur ++ String c EmptyString) s'
  end.

Definition splitlines (s : string) : list string :=
  splitlines_from EmptyString s.

(** [s.split('  ')]: the pieces between the pairs of blanks found from
    left to right. [cur] is the piece being read. *)
Fixpoint split_double_space_from (cur : string) (s : string) : list string :=
  match s with
  | EmptyString => [cur]
  | String c s' =>
      match c, s' with
      | " "%char, String " "%char s'' =>
          cur :: split_double_space_from EmptyString s''
      | _, _ => split_double_space_from (cur ++ String c EmptyString) s'
      end
  end.

Definition split_double_space (s : string) : list string :=
  split_double_space_from EmptyString s.

End Py.

(** ** [urllib.parse]

    [urlsplit], [urlparse], [urlunparse] and [urljoin] of CPython 3.11
    with the fixes of 3.11.4 (leading control characters and blanks are
    stripped from a URL, a bracketed host must be an address), on [str]
    arguments held as UTF-8 text. Every character the functions look for
    is an ASCII character, so they cut a text where the library cuts it.
    Two checks of [urlsplit] consult other modules of the library and are
    taken as given, see [Lib]. *)

Module Url.

(** What [ipaddress.ip_address] makes of a host. *)
Inductive IPVersion : Type := IPv4 | IPv6.

(** What [urlsplit] calls of other modules:
    - [nfkc]: [unicodedata.normalize('NFKC', s)];
    - [ip_address]: the class of the object [ipaddress.ip_address(s)]
      returns, or the [ValueError] it raises. *)
Record Lib : Type := mkLib {
  nfkc : string -> string;
  ip_address : string -> Py.result IPVersion
}.

Record SplitResult : Type := mkSplit {
  scheme : string;
  netloc : string;
  path : string;
  query : string;
  fragment : string
}.

Record ParseResult : Type := mkParse {
  p_scheme : string;
  p_netloc : string;
  p_path : string;
  p_params : string;
  p_query : string;
  p_fragment : string
}.

Definition uses_relative : list string :=
  [""; "ftp"; "http"; "gopher"; "nntp"; "imap"; "wais"; "file"; "https";
   "shttp"; "mms"; "prospero"; "rtsp"; "rtspu"; "sftp"; "svn"; "svn+ssh";
   "ws"; "wss"].

Definition uses_netloc : list string :=
  [""; "ftp"; "http"; "gopher"; "nntp"; "telnet"; "imap"; "wais"; "file";
   "mms"; "https"; "shttp"; "snews"; "prospero"; "rtsp"; "rtspu"; "rsync";
   "svn"; "svn+ssh"; "sftp"; "nfs"; "git"; "git+ssh"; "ws"; "wss"].

Definition uses_params : list string :=
  [""; "ftp"; "hdl"; "prospero"; "http"; "imap"; "https"; "shttp"; "rtsp";
   "rtspu"; "sip"; "sips"; "mms"; "sftp"; "tel"].

Definition mem (s : string) (l : list string) : bool := existsb (String.eqb s) l.

Definition scheme_char (c : ascii) : bool :=
  Py.is_alpha c || Py.is_digit c || Py.char_in c "+-.".

Fixpoint all_chars (p : ascii -> bool) (s : string) : bool :=
  match s with
  | EmptyString => true
  | String c s' => p c && all_chars p s'
  end.

Definition nonempty (s : string) : bool :=
  match s with EmptyString => false | _ => true end.

(** A character of [_WHATWG_C0_CONTROL_OR_SPACE]: the codes 0 to 32. *)
Definition c0_or_space (c : ascii) : bool := (nat_of_ascii c <=? 32)%nat.

(** [s.lstrip(_WHATWG_C0_CONTROL_OR_SPACE)]. *)
Fixpoint lstrip_c0 (s : string) : string :=
  match s with
  | EmptyString => EmptyString
  | String c s' => if c0_or_space c then lstrip_c0 s' else s
  end.

Fixpoint rstrip_c0 (s : string) : string :=
  match s with
  | EmptyString => EmptyString
  | String c s' =>
      match rstrip_c0 s' with
      | EmptyString => if c0_or_space c then EmptyString else String c EmptyString
      | r => String c r
      end
  end.

(** [s.strip(_WHATWG_C0_CONTROL_OR_SPACE)]. *)
Definition strip_c0 (s : string) : string := rstrip_c0 (lstrip_c0 s).

(** A character of [_UNSAFE_URL_BYTES_TO_REMOVE]: tab, carriage return,
    line feed. *)
Definition unsafe_char (c : ascii) : bool :=
  let n := nat_of_ascii c in
  (n =? 9)%nat || (n =? 13)%nat || (n =? 10)%nat.

(** The loop that replaces each of them by nothing. *)
Fixpoint remove_unsafe (s : string) : string :=
  match s with
  | EmptyString => EmptyString
  | String c s' => if unsafe_char c then remove_unsafe s' else String c (remove_unsafe s')
  end.

(** [s.replace(c, '')]. *)
Fixpoint remove_char (c : ascii) (s : string) : string :=
  match s with
  | EmptyString => EmptyString
  | String a s' => if Ascii.eqb a c then remove_char c s' else String a (remove_char c s')
  end.

(** [s.isascii()]. *)
Definition isascii (s : string) : bool :=
  all_chars (fun c => (nat_of_ascii c <? 128)%nat) s.

(** [s.partition(sep)] for a one-character separator: the text before the
    first separator, whether there is one, and the text after it. *)
Definition partition (sep : ascii) (s : string) : string * bool * string :=
  match Py.cut sep s with
  | Some (a, b) => (a, true, b)
  | None => (s, false, EmptyString)
  end.

(** [s.rpartition(sep)[2]]: the text after the last [sep] of [s]; [s]
    when it holds none. *)
Fixpoint after_last (sep : ascii) (s : string) : string :=
  match s with
  | EmptyString => EmptyString
  | String c s' =>
      if Py.char_in sep s' then after_last sep s'
      else if Ascii.eqb c sep then s' else s
  end.

(** The scheme test of [urlsplit]: a leading [scheme:] is split off when
    it starts with an ASCII letter and holds scheme characters only. *)
Definition split_scheme (default : string) (url : string) : string * string :=
  match Py.cut ":" url with
  | Some (String c0 rest0, rest) =>
      if Py.is_alpha c0 && all_chars scheme_char (String c0 rest0)
      then (Py.lower (String c0 rest0), rest)
      else (default, url)
  | _ => (default, url)
  end.

(** [_splitnetloc(url, 2)] after a leading [//]: the authority ends at the
    first of [/], [?] and [#]. *)
Fixpoint splitnetloc (s : string) : string * string :=
  match s with
  | EmptyString => (EmptyString, EmptyString)
  | String c s' =>
      if Py.char_in c "/?#" then (EmptyString, s)
      else let '(n, r) := splitnetloc s' in (String c n, r)
  end.

Definition is_hex (c : ascii) : bool :=
  Py.is_digit c || Py.char_in c "abcdefABCDEF".

(** [re.match(r"\Av[a-fA-F0-9]+\..+\Z", hostname)] for a host that starts
    with [v] and holds no line feed: hexadecimal digits, a full stop, and
    at least one more character. *)
Definition ipvfuture (hostname : string) : bool :=
  match hostname with
  | String "v" rest =>
      match Py.cut "." rest with
      | Some (digits, tail) =>
          nonempty digits && all_chars is_hex digits && nonempty tail
      | None => false
      end
  | _ => false
  end.

Section Library.

Variable lib : Lib.

Definition _check_bracketed_host (hostname : string) : Py.result unit :=
  if Py.startswith hostname "v" then
    if negb (ipvfuture hostname)
    then Py.Raise "IPvFuture address is invalid"
    else Py.Ok tt
  else
    Py.bind (ip_address lib hostname) (fun ip =>
    match ip with
    | IPv4 => Py.Raise "An IPv4 address cannot be in brackets"
    | IPv6 => Py.Ok tt
    end).

Definition _check_bracketed_netloc (netloc : string) : Py.result unit :=
  let hostname_and_port := after_last "@" netloc in
  let '(before_bracket, have_open_br, bracketed) :=
    partition "[" hostname_and_port in
  if have_open_br then
    if nonempty before_bracket then Py.Raise "Invalid IPv6 URL"
    else
      let '(hostname, _, port) := partition "]" bracketed in
      if nonempty port && negb (Py.startswith port ":")
      then Py.Raise "Invalid IPv6 URL"
      else _check_bracketed_host hostname
  else
    let '(hostname, _, _) := partition ":" hostname_and_port in
    _check_bracketed_host hostname.

Definition _checknetloc (netloc : string) : Py.result unit :=
  if negb (nonempty netloc) || isascii netloc then Py.Ok tt
  else
    let n := remove_char "@" netloc in
    let n := remove_char ":" n in
    let n := remove_char "#" n in
    let n := remove_char "?" n in
    let netloc2 := nfkc lib n in
    if String.eqb n netloc2 then Py.Ok tt
    else if existsb (fun c => Py.char_in c netloc2) ["/"; "?"; "#"; "@"; ":"]%char
    then Py.Raise ("netloc '" ++ netloc
                   ++ "' contains invalid characters under NFKC normalization")
    else Py.Ok tt.

(** The two tests [urlsplit] makes on the authority it has split off:
    brackets go in pairs, and a bracketed host is an address. *)
Definition check_brackets (netloc : string) : Py.result unit :=
  if (Py.char_in "[" netloc && negb (Py.char_in "]" netloc))
     || (Py.char_in "]" netloc && negb (Py.char_in "[" netloc))
  then Py.Raise "Invalid IPv6 URL"
  else if Py.char_in "[" netloc && Py.char_in "]" netloc
  then _check_bracketed_netloc netloc
  else Py.Ok tt.

(** [urlsplit(url, scheme)]. *)
Definition urlsplit (url : string) (default_scheme : string)
  : Py.result SplitResult :=
  let url := lstrip_c0 url in
  let default_scheme := strip_c0 default_scheme in
  let url := remove_unsafe url in
  let default_scheme := remove_unsafe default_scheme in
  let '(sch, url1) := split_scheme default_scheme url in
  Py.bind
    (match url1 with
     | String "/" (String "/" rest) =>
         let '(net, url2) := splitnetloc rest in
         Py.bind (check_brackets net) (fun _ => Py.Ok (net, url2))
     | _ => Py.Ok (EmptyString, url1)
     end) (fun '(net, url2) =>
  let '(url3, frag) :=
    match Py.cut "#" url2 with
    | Some (a, b) => (a, b)
    | None => (url2, EmptyString)
    end in
  let '(url4, qry) :=
    match Py.cut "?" url3 with
    | Some (a, b) => (a, b)
    | None => (url3, EmptyString)
    end in
  Py.bind (_checknetloc net) (fun _ =>
  Py.Ok (mkSplit sch net url4 qry frag))).

(** [url.find(';', url.rfind('/'))] and the cut there, for a [url] that
    holds a [/]: the first [;] after the last [/]. *)
Definition _splitparams (url : string) : string * string :=
  if Py.char_in "/" url then
    let tail := after_last "/" url in
    match Py.cut ";" tail with
    | Some (a, b) =>
        (String.substring 0 (String.length url - String.length tail) url ++ a, b)
    | None => (url, EmptyString)
    end
  else
    match Py.cut ";" url with
    | Some (a, b) => (a, b)
    | None => (String.substring 0 (String.length url - 1) url, url)
    end.

(** [urlparse(url, scheme)]. *)
Definition urlparse (url : string) (default_scheme : string)
  : Py.result ParseResult :=
  Py.bind (urlsplit url default_scheme) (fun r =>
  let '(url', params) :=
    if mem (scheme r) uses_params && Py.char_in ";" (path r)
    then _splitparams (path r)
    else (path r, EmptyString) in
  Py.Ok (mkParse (scheme r) (netloc r) url' params (query r) (fragment r))).

(** [urlparse(url).netloc]. *)
Definition urlparse_netloc (url : string) : Py.result string :=
  Py.bind (urlparse url EmptyString) (fun r => Py.Ok (p_netloc r)).

End Library.

Definition urlunsplit (r : SplitResult) : string :=
  let url := path r in
  let url :=
    if nonempty (netloc r)
       || (nonempty (scheme r) && mem (scheme r) uses_netloc
           && negb (Py.startswith url "//"))
    then "//" ++ netloc r
         ++ (if nonempty url && negb (Py.startswith url "/") then "/" ++ url else url)
    else url in
  let url := if nonempty (scheme r) then scheme r ++ ":" ++ url else url in
  let url := if nonempty (query r) then url ++ "?" ++ query r else url in
  if nonempty (fragment r) then url ++ "#" ++ fragment r else url.

Definition urlunparse (r : ParseResult) : string :=
  let url :=
    if nonempty (p_params r) then p_path r ++ ";" ++ p_params r else p_path r in
  urlunsplit (mkSplit (p_scheme r) (p_netloc r) url (p_query r) (p_fragment r)).

(** [del base_parts[-1]] when the last item is not empty. *)
Definition drop_last_if_nonempty (l : list string) : list string :=
  match last l with
  | Some EmptyString => l
  | Some _ => removelast l
  | None => l
  end.

(** [segments[1:-1] = filter(None, segments[1:-1])]. *)
Definition filter_inner (l : list string) : list string :=
  match l with
  | [] => []
  | [a] => [a]
  | a :: rest =>
      (a :: List.filter nonempty (removelast rest) ++ [List.last rest EmptyString])%list
  end.

(** The loop that resolves [.] and [..]; [resolved] is kept reversed. *)
Fixpoint resolve_dots (rev_resolved : list string) (segments : list string)
  : list string :=
  match segments with
  | [] => rev rev_resolved
  | seg :: segments' =>
      if String.eqb seg ".." then resolve_dots (tl rev_resolved) segments'
      else if String.eqb seg "." then resolve_dots rev_resolved segments'
      else resolve_dots (seg :: rev_resolved) segments'
  end.

(** [urljoin(base, url)]. *)
Definition urljoin (lib : Lib) (base url : string) : Py.result string :=
  if negb (nonempty base) then Py.Ok url
  else if negb (nonempty url) then Py.Ok base
  else
    Py.bind (urlparse lib base EmptyString) (fun b =>
    Py.bind (urlparse lib url (p_scheme b)) (fun u =>
    if negb (String.eqb (p_scheme u) (p_scheme b))
       || negb (mem (p_scheme u) uses_relative)
    then Py.Ok url
    else if mem (p_scheme u) uses_netloc && nonempty (p_netloc u)
    then Py.Ok (urlunparse u)
    else
      let net := if mem (p_scheme u) uses_netloc then p_netloc b else p_netloc u in
      if negb (nonempty (p_path u)) && negb (nonempty (p_params u))
      then Py.Ok (urlunparse
                    (mkParse (p_scheme u) net (p_path b) (p_params b)
                       (if nonempty (p_query u) then p_query u else p_query b)
                       (p_fragment u)))
      else
        let base_parts := drop_last_if_nonempty (Py.split_on "/" (p_path b)) in
        let segments :=
          if Py.startswith (p_path u) "/" then Py.split_on "/" (p_path u)
          else filter_inner (base_parts ++ Py.split_on "/" (p_path u))%list in
        let resolved := resolve_dots [] segments in
        let resolved :=
          if mem (List.last segments EmptyString) ["."; ".."]
          then (resolved ++ [EmptyString])%list else resolved in
        let joined := Py.join "/" resolved in
        Py.Ok (urlunparse
                 (mkParse (p_scheme u) net (if nonempty joined then joined else "/")
                    (p_params u) (p_query u) (p_fragment u))))).

End Url.

(** ** The parsed page *)

(** [bs4] is a library; the parser ([BeautifulSoup(content, 'lxml')]) is
    taken as given. What the repository does with the tree it returns is
    modelled here: searching it, reading text and attributes, and removing
    tags from it. *)
Module Bs4.

(** A node of the tree: a string, a comment (or another string that
    [get_text] leaves out), or a tag with its name, attributes and
    children. A tag is a Python object: [id] tells one tag from another
    with the same name, attributes and children. The soup itself is the
    tag that holds the whole document. *)
Inductive node : Type :=
| Text (s : string)
| Comment (s : string)
| Tag (id : nat) (name : string) (attrs : gmap string string)
      (contents : list node).

Definition name_of (n : node) : string :=
  match n with
  | Tag _ name _ _ => name
  | _ => EmptyString
  end.

Definition attrs_of (n : node) : gmap string string :=
  match n with
  | Tag _ _ attrs _ => attrs
  | _ => ∅
  end.

(** The identity of a tag. *)
Definition id_of (n : node) : option nat :=
  match n with
  | Tag i _ _ _ => Some i
  | _ => None
  end.

Definition contents_of (n : node) : list node :=
  match n with
  | Tag _ _ _ contents => contents
  | _ => []
  end.

(** The tag [n] and the tags under it, in document order. *)
Fixpoint tags (n : node) : list node :=
  match n with
  | Tag _ _ _ contents => n :: flat_map tags contents
  | _ => []
  end.

(** The tags under [soup]: what [find_all] searches. *)
Definition descendants (soup : node) : list node :=
  flat_map tags (contents_of soup).

(** [soup.find_all(names)], also written [soup(names)]. *)
Definition find_all (names : list string) (soup : node) : list node :=
  List.filter (fun tag => Url.mem (name_of tag) names) (descendants soup).

(** [soup.find_all(name, attr=True)]. *)
Definition find_all_with (name attr : string) (soup : node) : list node :=
  List.filter
    (fun tag => match attrs_of tag !! attr with Some _ => true | None => false end)
    (find_all [name] soup).

(** [soup.find_all(name, attr=value)] for an attribute that holds a list
    of values, such as [rel]: one of the values is [value]. *)
Definition find_all_having (name attr value : string) (soup : node) : list node :=
  List.filter
    (fun tag =>
       match attrs_of tag !! attr with
       | Some v => Url.mem value (Py.split_whitespace v)
       | None => false
       end)
    (find_all [name] soup).

(** [soup.find(name)]. *)
Definition find (name : string) (soup : node) : option node :=
  head (find_all [name] soup).

(** [tag.get_text()]: the strings under the tag, one after the other. *)
Fixpoint get_text (n : node) : string :=
  match n with
  | Text s => s
  | Comment _ => EmptyString
  | Tag _ _ _ contents => String.concat EmptyString (map get_text contents)
  end.

(** [tag.string]: the string of a tag that holds one string, or one tag
    that does. *)
Fixpoint string_of (n : node) : option string :=
  match n with
  | Text s => Some s
  | Comment s => Some s
  | Tag _ _ _ contents =>
      match contents with
      | [child] => string_of child
      | _ => None
      end
  end.

Definition has_id (i : nat) (n : node) : bool :=
  match n with
  | Tag j _ _ _ => Nat.eqb i j
  | _ => false
  end.

(** The tree without the tag [i] and what is under it. *)
Fixpoint remove (i : nat) (n : node) : node :=
  match n with
  | Tag j name attrs contents =>
      Tag j name attrs
        (List.filter (fun c => negb (has_id i c)) (map (remove i) contents))
  | _ => n
  end.

(** [tag.decompose()], as seen from the soup: the tag is taken out of the
    tree; a tag that is not in the tree any more leaves it as it is. *)
Definition decompose (tag : node) (soup : node) : node :=
  match tag with
  | Tag i _ _ _ => remove i soup
  | _ => soup
  end.

End Bs4.

(** ** [src/utils/robots_parser.py] *)

Module RobotsParser.

Section Library.

(** [urllib.robotparser.RobotFileParser] is a library class. Its flags and
    the tests [read] and [can_fetch] make on them are modelled; the
    network and the entries of a robots.txt are taken as given:
    - [Policy]: the entries [parse] stores ([entries] and
      [default_entry]);
    - [urlopen url]: what [urllib.request.urlopen(url)] and the lines of
      [read] after it come to: an [HTTPError] with its status code, the
      entries parsed from the body, or another exception raised on the way
      (a [URLError], a timeout, a body that is not UTF-8);
    - [match_entries]: the part of [can_fetch] that searches the entries
      for the user agent and the URL, or the exception it raised. *)
Variable Policy : Type.
Variable lib : Url.Lib.

Inductive Answer : Type :=
| HTTPError (code : Z)
| Parsed (entries : Policy).

Variable urlopen : string -> Py.result Answer.
Variable match_entries : Policy -> string -> string -> Py.result bool.

(** The fields of a [RobotFileParser] that its answers depend on.
    [parsed = None] stands for [last_checked == 0]: nothing was parsed;
    [parsed = Some entries] for the state [parse] leaves, in which
    [last_checked] is the time of the call. *)
Record RobotFileParser : Type := mkRobotFileParser {
  disallow_all : bool;
  allow_all : bool;
  parsed : option Policy
}.

(** [RobotFileParser()]. *)
Definition new : RobotFileParser := mkRobotFileParser false false None.

(** [set_url(url)] parses the URL for its host and path, which nothing
    reads afterwards. *)
Definition set_url (url : string) : Py.result unit :=
  Py.bind (Url.urlparse lib url EmptyString) (fun _ => Py.Ok tt).

(** [read()]: an [HTTPError] is caught and sets a flag, or nothing. *)
Definition read (p : RobotFileParser) (url : string) : Py.result RobotFileParser :=
  Py.bind (urlopen url) (fun answer =>
  match answer with
  | HTTPError code =>
      if (code =? 401)%Z || (code =? 403)%Z
      then Py.Ok (mkRobotFileParser true (allow_all p) (parsed p))
      else if (400 <=? code)%Z && (code <? 500)%Z
      then Py.Ok (mkRobotFileParser (disallow_all p) true (parsed p))
      else Py.Ok p
  | Parsed entries =>
      Py.Ok (mkRobotFileParser (disallow_all p) (allow_all p) (Some entries))
  end).

(** The library's [can_fetch(useragent, url)]. *)
Definition lib_can_fetch (p : RobotFileParser) (useragent url : string)
  : Py.result bool :=
  if disallow_all p then Py.Ok false
  else if allow_all p then Py.Ok true
  else match parsed p with
       | None => Py.Ok false
       | Some entries => match_entries entries useragent url
       end.

(** The object's fields; [parser = None] is [self.parser = None]. *)
Record t : Type := mk {
  base_url : string;
  parser : option RobotFileParser
}.

(** [initialize_parser]: the value left in [self.parser], which was
    [RobotFileParser()] before. *)
Definition initialize_parser (base_url : string)
  : Py.result (option RobotFileParser) :=
  Py.try_except
    (Py.bind (Url.urljoin lib base_url "/robots.txt") (fun robots_url =>
     Py.bind (set_url robots_url) (fun _ =>
     Py.bind (read new robots_url) (fun p => Py.Ok (Some p)))))
    (fun _ => Py.Ok None).

(** [RobotsParser(base_url)]. *)
Definition init (base_url : string) : Py.result t :=
  Py.bind (initialize_parser base_url) (fun p => Py.Ok (mk base_url p)).

(** [can_fetch(url, user_agent)]; the default user agent is ["*"]. *)
Definition can_fetch (self : t) (url : string) (user_agent : string)
  : Py.result bool :=
  match parser self with
  | None => Py.Ok true
  | Some p =>
      Py.try_except (lib_can_fetch p user_agent url) (fun _ => Py.Ok true)
  end.

End Library.

Arguments HTTPError {Policy} code.
Arguments Parsed {Policy} entries.
Arguments mkRobotFileParser {Policy} disallow_all allow_all parsed.
Arguments disallow_all {Policy} r.
Arguments allow_all {Policy} r.
Arguments parsed {Policy} r.
Arguments new {Policy}.
Arguments read {Policy} urlopen p url.
Arguments lib_can_fetch {Policy} match_entries p useragent url.
Arguments mk {Policy} base_url parser.
Arguments base_url {Policy} t.
Arguments parser {Policy} t.
Arguments initialize_parser {Policy} lib urlopen base_url.
Arguments init {Policy} lib urlopen base_url.
Arguments can_fetch {Policy} match_entries self url user_agent.

(** [get_crawl_delay(user_agent)]; [lib_crawl_delay] is the library's
    [crawl_delay(user_agent)], [None] when the entries name no delay for
    the agent. *)
Definition get_crawl_delay {Policy : Type}
  (lib_crawl_delay : RobotFileParser Policy -> string -> Py.result (option Q))
  (self : t Policy) (user_agent : string) : Py.result (option Q) :=
  match parser self with
  | None => Py.Ok None
  | Some p =>
      Py.try_except (lib_crawl_delay p user_agent) (fun _ => Py.Ok None)
  end.

End RobotsParser.

(** ** [src/analyzers/performance_analyzer.py] *)

Module PerformanceAnalyzer.

(** The dict [analyze_load_time] returns. *)
Record LoadTime : Type := mkLoadTime {
  load_time_seconds : Q;
  load_time_acceptable : bool;
  performance_score : Q
}.

Definition _calculate_performance_score (load_time : Q) : Q :=
  if Py.leb load_time 1.0 then 1.0
  else if Py.leb load_time 2.5 then 0.8
  else if Py.leb load_time 4.0 then 0.6
  else if Py.leb load_time 6.0 then 0.4
  else 0.2.

Definition analyze_load_time (load_time : Q) : LoadTime :=
  {| load_time_seconds := load_time;
     load_time_acceptable := Py.ltb load_time 3.0;
     performance_score := _calculate_performance_score load_time |}.

(** [self.size_thresholds]. *)
Definition size_threshold_html : Z := 100 * 1024.
Definition size_threshold_total : Z := 3 * 1024 * 1024.

(** [sum(sizes)]. *)
Definition sum (sizes : list Z) : Z := fold_left Z.add sizes 0%Z.

(** [len(content.encode('utf-8'))]: a string of the model is the sequence
    of its bytes. *)
Definition encoded_length (content : string) : Z :=
  Z.of_nat (String.length content).

(** The dicts [_estimate_total_page_size] and [analyze_page_size] return. *)
Record TotalSize : Type := mkTotalSize {
  total_size_bytes : Z;
  resource_breakdown : list (string * list Z);
  total_size_acceptable : bool
}.

Record PageSize : Type := mkPageSize {
  html_size_bytes : Z;
  html_size_acceptable : bool;
  estimated_total_size : TotalSize
}.

(** The dict [analyze] returns. *)
Record Performance : Type := mkPerformance {
  load_time : LoadTime;
  page_size : PageSize
}.

Section PageSize.

(** The parser, taken as given: [BeautifulSoup(content, 'lxml')] and the
    tags found by [soup.find_all('img')], [soup.find_all('script', src=True)]
    and [soup.find_all('link', rel='stylesheet')]. *)
Variable Soup : Type.
Variable Tag : Type.
Variable BeautifulSoup : string -> Soup.
Variable find_all_img : Soup -> list Tag.
Variable find_all_script_src : Soup -> list Tag.
Variable find_all_stylesheet : Soup -> list Tag.

Definition _estimate_image_sizes (soup : Soup) : list Z :=
  map (fun _ => 100 * 1024)%Z (find_all_img soup).

Definition _estimate_script_sizes (soup : Soup) : list Z :=
  map (fun _ => 50 * 1024)%Z (find_all_script_src soup).

Definition _estimate_style_sizes (soup : Soup) : list Z :=
  map (fun _ => 30 * 1024)%Z (find_all_stylesheet soup).

Definition _estimate_total_page_size (content : string) : TotalSize :=
  let soup := BeautifulSoup content in
  let resources :=
    [("images", _estimate_image_sizes soup);
     ("scripts", _estimate_script_sizes soup);
     ("styles", _estimate_style_sizes soup)] in
  let total_size := sum (map (fun kv => sum (snd kv)) resources) in
  let html_size := encoded_length content in
  let total_size := (total_size + html_size)%Z in
  {| total_size_bytes := total_size;
     resource_breakdown := resources;
     total_size_acceptable := (total_size <=? size_threshold_total)%Z |}.

Definition analyze_page_size (content : string) : PageSize :=
  let html_size := encoded_length content in
  {| html_size_bytes := html_size;
     html_size_acceptable := (html_size <=? size_threshold_html)%Z;
     estimated_total_size := _estimate_total_page_size content |}.

Definition analyze (load_time : Q) (content : string) : Performance :=
  {| load_time := analyze_load_time load_time;
     page_size := analyze_page_size content |}.

End PageSize.

Arguments _estimate_image_sizes {Soup Tag} find_all_img soup.
Arguments _estimate_script_sizes {Soup Tag} find_all_script_src soup.
Arguments _estimate_style_sizes {Soup Tag} find_all_stylesheet soup.
Arguments _estimate_total_page_size {Soup Tag} BeautifulSoup find_all_img
  find_all_script_src find_all_stylesheet content.
Arguments analyze_page_size {Soup Tag} BeautifulSoup find_all_img
  find_all_script_src find_all_stylesheet content.
Arguments analyze {Soup Tag} BeautifulSoup find_all_img find_all_script_src
  find_all_stylesheet load_time content.

(** [analyze(load_time, content)] with the page parsed by [parse]. *)
Definition analyze_soup (parse : string -> Bs4.node) (load_time : Q)
  (content : string) : Performance :=
  analyze parse (Bs4.find_all ["img"]) (Bs4.find_all_with "script" "src")
    (Bs4.find_all_having "link" "rel" "stylesheet") load_time content.

(** The dict of [analyze] as it goes into the report. *)
Definition to_value (r : Performance) : Py.value :=
  let total := estimated_total_size (page_size r) in
  Py.VDict
    [("load_time",
      Py.VDict
        [("load_time_seconds", Py.VFloat (load_time_seconds (load_time r)));
         ("load_time_acceptable", Py.VBool (load_time_acceptable (load_time r)));
         ("performance_score", Py.VFloat (performance_score (load_time r)))]);
     ("page_size",
      Py.VDict
        [("html_size_bytes", Py.VInt (html_size_bytes (page_size r)));
         ("html_size_acceptable", Py.VBool (html_size_acceptable (page_size r)));
         ("estimated_total_size",
          Py.VDict
            [("total_size_bytes", Py.VInt (total_size_bytes total));
             ("resource_breakdown",
              Py.VDict (map (fun kv => (fst kv, Py.VList (map Py.VInt (snd kv))))
                          (resource_breakdown total)));
             ("total_size_acceptable",
              Py.VBool (total_size_acceptable total))])])].

End PerformanceAnalyzer.

(** ** [src/analyzers/seo_analyzer.py] *)

Module SEOAnalyzer.

(** [headings[key]]: a missing key raises [KeyError]. *)
Definition getitem (headings : gmap string nat) (key : string) : Py.result nat :=
  match headings !! key with
  | Some n => Py.Ok n
  | None => Py.Raise ("KeyError: " ++ key)
  end.

(** [f'h{i}']. *)
Definition h (i : nat) : string := "h" ++ Py.str_of_nat i.

(** The body of the loop of [_check_heading_structure], on the loop's
    variables [last_level] and [issues]. *)
Definition skipped_level_body (headings : gmap string nat)
  (st : nat * list string) (i : nat) : Py.result (nat * list string) :=
  let '(last_level, issues) := st in
  Py.bind (getitem headings (h i)) (fun hi =>
  Py.bind
    (if (0 <? hi)%nat then
       Py.bind (getitem headings (h last_level)) (fun hl =>
       Py.Ok (if (hl =? 0)%nat
              then (issues ++ [("Skipped heading level: " ++ h last_level
                                  ++ " to " ++ h i)%string])%list
              else issues))
     else Py.Ok issues) (fun issues' =>
  Py.Ok (if (0 <? hi)%nat then i else last_level, issues'))).

(** [for i in levels: body]. *)
Fixpoint for_levels (headings : gmap string nat) (st : nat * list string)
  (levels : list nat) : Py.result (nat * list string) :=
  match levels with
  | [] => Py.Ok st
  | i :: levels' =>
      Py.bind (skipped_level_body headings st i) (fun st' =>
      for_levels headings st' levels')
  end.

Definition _check_heading_structure (headings : gmap string nat)
  : Py.result (list string) :=
  Py.bind (getitem headings "h1") (fun h1 =>
  let issues :=
    if (h1 =? 0)%nat then ["Missing H1 tag"]
    else if (1 <? h1)%nat then ["Multiple H1 tags"]
    else [] in
  Py.bind (for_levels headings (1%nat, issues) (seq 2 5)) (fun st =>
  Py.Ok (snd st))).

(** The dict [analyze_headings] returns. *)
Record Headings : Type := mkHeadings {
  heading_count : gmap string nat;
  has_h1 : bool;
  multiple_h1 : bool;
  heading_structure_issues : list string
}.

(** [analyze_headings(soup)]; [tag_count tag] is [len(soup.find_all(tag))]. *)
Definition analyze_headings (tag_count : string -> nat) : Py.result Headings :=
  let headings : gmap string nat :=
    fold_left (fun d i => <[h i := tag_count (h i)]> d) (seq 1 6) ∅ in
  Py.bind (getitem headings "h1") (fun h1 =>
  Py.bind (_check_heading_structure headings) (fun issues =>
  Py.Ok {| heading_count := headings;
           has_h1 := (0 <? h1)%nat;
           multiple_h1 := (1 <? h1)%nat;
           heading_structure_issues := issues |})).

(** The dict [analyze_links] returns. *)
Record Links : Type := mkLinks {
  total_links : nat;
  internal_links : nat;
  external_links : nat;
  broken_links : list string
}.

(** The body of the loop of [analyze_links], on the two lists it fills. *)
Definition census_body (current_url : string)
  (acc : list string * list string) (href : string) : list string * list string :=
  let '(internal, external) := acc in
  if Py.startswith href "#" || negb (Url.nonempty href) then acc
  else if Py.startswith href "http" && negb (Py.contains current_url href)
  then (internal, (external ++ [href])%list)
  else ((internal ++ [href])%list, external).

(** [analyze_links(soup, current_url)]; [hrefs] are the [href] values of
    [soup.find_all('a', href=True)], in document order. *)
Definition analyze_links (hrefs : list string) (current_url : string) : Links :=
  let '(internal, external) := fold_left (census_body current_url) hrefs ([], []) in
  {| total_links := length hrefs;
     internal_links := length internal;
     external_links := length external;
     broken_links := [] |}.

(** [self.important_meta_tags]. *)
Definition important_meta_tags : list string :=
  ["description"; "keywords"; "robots"; "viewport"; "og:title"; "og:description"].

(** [tag.attrs]: the attributes of a tag, names to values. *)
Definition Attrs : Type := gmap string string.

(** [tag.get(key, default)]. *)
Definition get (tag : Attrs) (key default : string) : string :=
  match tag !! key with
  | Some v => v
  | None => default
  end.

(** [tag[key]]: a missing attribute raises [KeyError], whose [str] is the
    key in quotes. *)
Definition tag_getitem (tag : Attrs) (key : string) : Py.result string :=
  match tag !! key with
  | Some v => Py.Ok v
  | None => Py.Raise ("'" ++ key ++ "'")
  end.

(** The dict [analyze_meta_tags] returns. *)
Record MetaTags : Type := mkMetaTags {
  meta_tags_present : list (string * string);
  missing_important_tags : list string
}.

(** The body of the loop of [analyze_meta_tags], on the dict it fills. *)
Definition meta_body (meta_tags : list (string * string)) (tag : Attrs)
  : list (string * string) :=
  let name := get tag "name" (get tag "property" "") in
  let content := get tag "content" "" in
  if Url.nonempty name
     && existsb (String.eqb (Py.lower name)) important_meta_tags
  then Py.setitem meta_tags (Py.lower name) content
  else meta_tags.

(** [analyze_meta_tags(soup)]; [metas] are the tags of
    [soup.find_all('meta')], in document order. *)
Definition analyze_meta_tags (metas : list Attrs) : MetaTags :=
  let meta_tags := fold_left meta_body metas [] in
  {| meta_tags_present := meta_tags;
     missing_important_tags :=
       List.filter (fun tag => negb (Py.has_key meta_tags tag))
         important_meta_tags |}.

(** [not img.get('alt')]: the attribute is missing or empty. *)
Definition without_alt (img : Attrs) : bool :=
  match img !! "alt" with
  | Some alt => negb (Url.nonempty alt)
  | None => true
  end.

(** [[img['src'] for img in images if not img.get('alt')]]. *)
Fixpoint srcs_without_alt (images : list Attrs) : Py.result (list string) :=
  match images with
  | [] => Py.Ok []
  | img :: images' =>
      if without_alt img then
        Py.bind (tag_getitem img "src") (fun src =>
        Py.bind (srcs_without_alt images') (fun rest =>
        Py.Ok (src :: rest)))
      else srcs_without_alt images'
  end.

(** The dict [analyze_images] returns. *)
Record Images : Type := mkImages {
  total_images : nat;
  images_without_alt : nat;
  image_alt_ratio : Q
}.

(** [analyze_images(soup)]; [images] are the tags of
    [soup.find_all('img')]. *)
Definition analyze_images (images : list Attrs) : Py.result Images :=
  Py.bind (srcs_without_alt images) (fun images_without_alt =>
  Py.Ok {| total_images := length images;
           images_without_alt := length images_without_alt;
           image_alt_ratio :=
             match images with
             | [] => 1.0%Q
             | _ => (inject_Z (Z.of_nat (length images)
                               - Z.of_nat (length images_without_alt))
                     / inject_Z (Z.of_nat (length images)))%Q
             end |}).

(** The dict [analyze_title] returns. *)
Record Title : Type := mkTitle {
  has_title : bool;
  title_length : nat;
  title_optimal_length : bool
}.

(** [analyze_title(soup)]; [title_tag] is [soup.find('title')] and
    [string_of tag] is [tag.string]. A tag is true, whatever it holds. *)
Definition analyze_title {Tag : Type} (string_of : Tag -> option string)
  (title_tag : option Tag) : Title :=
  let title_text :=
    match title_tag with
    | Some tag => string_of tag
    | None => None
    end in
  match title_text with
  | Some (String _ _ as text) =>
      {| has_title := true;
         title_length := Py.len text;
         title_optimal_length :=
           (50 <=? Py.len text)%nat && (Py.len text <=? 60)%nat |}
  | _ =>
      {| has_title := false; title_length := 0; title_optimal_length := false |}
  end.

(** The dict [analyze] returns. *)
Record SEO : Type := mkSEO {
  meta_tags : MetaTags;
  headings : Headings;
  images : Images;
  links : Links;
  title : Title
}.

Section Analyze.

(** The parser, taken as given: the tags each [find_all] returns. *)
Variable Soup : Type.
Variable Tag : Type.
Variable find_all_meta : Soup -> list Attrs.
Variable count_tags : Soup -> string -> nat.
Variable find_all_img : Soup -> list Attrs.
Variable find_all_a_href : Soup -> list string.
Variable find_title : Soup -> option Tag.
Variable string_of : Tag -> option string.

Definition analyze (soup : Soup) (url : string) : Py.result SEO :=
  let meta_tags := analyze_meta_tags (find_all_meta soup) in
  Py.bind (analyze_headings (count_tags soup)) (fun headings =>
  Py.bind (analyze_images (find_all_img soup)) (fun images =>
  let links := analyze_links (find_all_a_href soup) url in
  let title := analyze_title string_of (find_title soup) in
  Py.Ok {| meta_tags := meta_tags;
           headings := headings;
           images := images;
           links := links;
           title := title |})).

End Analyze.

Arguments analyze {Soup Tag} find_all_meta count_tags find_all_img
  find_all_a_href find_title string_of soup url.

(** [[link['href'] for link in soup.find_all('a', href=True)]]. *)
Definition anchor_hrefs (soup : Bs4.node) : list string :=
  omap (fun tag => Bs4.attrs_of tag !! "href") (Bs4.find_all_with "a" "href" soup).

(** [analyze(soup, url)] on a parsed page. *)
Definition analyze_soup (soup : Bs4.node) (url : string) : Py.result SEO :=
  analyze
    (fun soup => map Bs4.attrs_of (Bs4.find_all ["meta"] soup))
    (fun soup tag => length (Bs4.find_all [tag] soup))
    (fun soup => map Bs4.attrs_of (Bs4.find_all ["img"] soup))
    anchor_hrefs
    (Bs4.find "title") Bs4.string_of soup url.

(** The dict of [analyze] as it goes into the report. The heading counts
    are written in the order the loop of [analyze_headings] sets them. *)
Definition to_value (r : SEO) : Py.value :=
  let int n := Py.VInt (Z.of_nat n) in
  Py.VDict
    [("meta_tags",
      Py.VDict
        [("meta_tags_present",
          Py.VDict (map (fun kv => (fst kv, Py.VStr (snd kv)))
                      (meta_tags_present (meta_tags r))));
         ("missing_important_tags",
          Py.VList (map Py.VStr (missing_important_tags (meta_tags r))))]);
     ("headings",
      Py.VDict
        [("heading_count",
          Py.VDict (omap (fun i => match heading_count (headings r) !! h i with
                                   | Some n => Some (h i, int n)
                                   | None => None
                                   end) (seq 1 6)));
         ("has_h1", Py.VBool (has_h1 (headings r)));
         ("multiple_h1", Py.VBool (multiple_h1 (headings r)));
         ("heading_structure_issues",
          Py.VList (map Py.VStr (heading_structure_issues (headings r))))]);
     ("images",
      Py.VDict
        [("total_images", int (total_images (images r)));
         ("images_without_alt", int (images_without_alt (images r)));
         ("image_alt_ratio", Py.VFloat (image_alt_ratio (images r)))]);
     ("links",
      Py.VDict
        [("total_links", int (total_links (links r)));
         ("internal_links", int (internal_links (links r)));
         ("external_links", int (external_links (links r)));
         ("broken_links", Py.VList (map Py.VStr (broken_links (links r))))]);
     ("title",
      Py.VDict
        [("has_title", Py.VBool (has_title (title r)));
         ("title_length", int (title_length (title r)));
         ("title_optimal_length", Py.VBool (title_optimal_length (title r)))])].

End SEOAnalyzer.

(** ** [src/analyzers/content_analyzer.py] *)

Module ContentAnalyzer.

Definition _split_into_sentences (text : string) : list string :=
  Py.split_terminators text.

Definition _split_into_words (text : string) : list string :=
  Py.findall_words text.

Definition vowels : string := "aeiouy".

(** The loop [for index in range(1, len(word))]; [prev] is
    [word[index - 1]] and [rest] is [word[index:]]. *)
Fixpoint count_groups (prev : ascii) (rest : string) (count : Z) : Z :=
  match rest with
  | EmptyString => count
  | String c rest' =>
      count_groups c rest'
        (if Py.char_in c vowels && negb (Py.char_in prev vowels)
         then count + 1 else count)%Z
  end.

(** [_count_syllables(word)]; [word[0]] of an empty word raises. *)
Definition _count_syllables (word : string) : Py.result Z :=
  match Py.lower word with
  | EmptyString => Py.Raise "string index out of range"
  | String c0 rest as w =>
      let count := (if Py.char_in c0 vowels then 1 else 0)%Z in
      let count := count_groups c0 rest count in
      let count := (if Py.endswith w "e" then count - 1 else count)%Z in
      let count := (if count =? 0 then 1 else count)%Z in
      Py.Ok count
  end.

(** [sum(self._count_syllables(word) for word in words)]. *)
Fixpoint sum_syllables (words : list string) : Py.result Z :=
  match words with
  | [] => Py.Ok 0%Z
  | w :: words' =>
      Py.bind (_count_syllables w) (fun n =>
      Py.bind (sum_syllables words') (fun m => Py.Ok (n + m)%Z))
  end.

Definition _get_readability_level (flesch_score : Q) : string :=
  if Py.leb 90 flesch_score then "Very Easy"
  else if Py.leb 80 flesch_score then "Easy"
  else if Py.leb 70 flesch_score then "Fairly Easy"
  else if Py.leb 60 flesch_score then "Standard"
  else if Py.leb 50 flesch_score then "Fairly Difficult"
  else if Py.leb 30 flesch_score then "Difficult"
  else "Very Difficult".

(** [len(l)] as a float. *)
Definition len {A : Type} (l : list A) : Q := inject_Z (Z.of_nat (length l)).

Definition avg_sentence_length_of (words sentences : list string) : Q :=
  match sentences with
  | [] => 0
  | _ => len words / len sentences
  end.

Definition avg_syllables_per_word_of (syllables : Z) (words : list string) : Q :=
  match words with
  | [] => 0
  | _ => inject_Z syllables / len words
  end.

(** The Flesch Reading Ease formula of line 47. *)
Definition flesch (avg_sentence_length avg_syllables_per_word : Q) : Q :=
  206.835 - 1.015 * avg_sentence_length - 84.6 * avg_syllables_per_word.

(** The dict [analyze_readability] returns. *)
Record Readability : Type := mkReadability {
  flesch_reading_ease : Q;
  avg_sentence_length : Q;
  avg_syllables_per_word : Q;
  readability_level : string
}.

Definition analyze_readability (text : string) : Py.result Readability :=
  let sentences := _split_into_sentences text in
  let words := _split_into_words text in
  Py.bind (sum_syllables words) (fun syllables =>
  let asl := avg_sentence_length_of words sentences in
  let asw := avg_syllables_per_word_of syllables words in
  let flesch_score := flesch asl asw in
  Py.Ok {| flesch_reading_ease := Py.round2 flesch_score;
           avg_sentence_length := Py.round2 asl;
           avg_syllables_per_word := Py.round2 asw;
           readability_level := _get_readability_level flesch_score |}).

(** [self.min_word_count], [self.max_keyword_density], [self.stop_words]. *)
Definition min_word_count : Z := 300.
Definition max_keyword_density : Q := 0.03%Q.
Definition stop_words : list string :=
  ["the"; "be"; "to"; "of"; "and"; "a"; "in"; "that"; "have";
   "i"; "it"; "for"; "not"; "on"; "with"; "he"; "as"; "you";
   "do"; "at"; "this"; "but"; "his"; "by"; "from"; "they";
   "we"; "say"; "her"; "she"; "or"; "an"; "will"; "my"; "one";
   "all"; "would"; "there"; "their"; "what"; "so"; "up"; "out";
   "if"; "about"; "who"; "get"; "which"; "go"; "me"].

(** [word in self.stop_words]. *)
Definition is_stop_word (word : string) : bool :=
  existsb (String.eqb word) stop_words.

(** [Counter(words)]: a dict from word to count, in the order the words
    first occur. [counter_add] is [counter[word] += 1]. *)
Fixpoint counter_add (word : string) (counter : list (string * Z))
  : list (string * Z) :=
  match counter with
  | [] => [(word, 1%Z)]
  | (k, n) :: counter' =>
      if String.eqb k word then (k, (n + 1)%Z) :: counter'
      else (k, n) :: counter_add word counter'
  end.

(** [counter[word]], zero for a missing key. *)
Fixpoint counter_get (word : string) (counter : list (string * Z)) : Z :=
  match counter with
  | [] => 0
  | (k, n) :: counter' =>
      if String.eqb k word then n else counter_get word counter'
  end.

Definition Counter (words : list string) : list (string * Z) :=
  fold_left (fun counter word => counter_add word counter) words [].

(** [sorted(items, key=itemgetter(1), reverse=True)]: by count, largest
    first; the sort is stable, so equal counts keep the order of the
    items. [insert_by_count] puts an item in front of a list that is
    sorted already and holds the items that came after it. *)
Fixpoint insert_by_count (x : string * Z) (sorted : list (string * Z))
  : list (string * Z) :=
  match sorted with
  | [] => [x]
  | y :: sorted' =>
      if (snd x <? snd y)%Z then y :: insert_by_count x sorted'
      else x :: sorted
  end.

Definition sorted_by_count (items : list (string * Z)) : list (string * Z) :=
  fold_right insert_by_count [] items.

(** [counter.most_common(n)], which is [heapq.nlargest(n, counter.items(),
    key=itemgetter(1))]: the first [n] items of the stable sort. *)
Definition most_common (n : nat) (counter : list (string * Z))
  : list (string * Z) :=
  take n (sorted_by_count counter).

(** The dict comprehension [{word: count/total_words for word, count in
    top_keywords}]; the words of [top_keywords] are distinct, so the dict
    has one item for each, in the same order. *)
Fixpoint densities_of (top_keywords : list (string * Z)) (total_words : Z)
  : Py.result (list (string * Q)) :=
  match top_keywords with
  | [] => Py.Ok []
  | (word, count) :: top_keywords' =>
      Py.bind (Py.true_div count total_words) (fun density =>
      Py.bind (densities_of top_keywords' total_words) (fun rest =>
      Py.Ok ((word, density) :: rest)))
  end.

(** The dict [analyze_keyword_density] returns. *)
Record KeywordAnalysis : Type := mkKeywordAnalysis {
  top_keywords : list (string * Z);
  keyword_densities : list (string * Q);
  keyword_density_issues : list string
}.

(** The words counted: those of the lowercased text that are no stop
    words (lines 58-60). *)
Definition keyword_words (text : string) : list string :=
  List.filter (fun word => negb (is_stop_word word))
    (_split_into_words (Py.lower text)).

(** [density > self.max_keyword_density] compares two floats; the model
    compares the rationals [count/total_words] and 3/100. *)
Definition analyze_keyword_density (text : string) : Py.result KeywordAnalysis :=
  let words := keyword_words text in
  let word_freq := Counter words in
  let total_words := Z.of_nat (length words) in
  let top_keywords := most_common 10 word_freq in
  Py.bind (densities_of top_keywords total_words) (fun keyword_densities =>
  Py.Ok {| top_keywords := top_keywords;
           keyword_densities := keyword_densities;
           keyword_density_issues :=
             map fst (List.filter
                        (fun item => Py.ltb max_keyword_density (snd item))
                        keyword_densities) |}).

(** The dict [analyze_content_structure] returns. *)
Record ContentStructure : Type := mkContentStructure {
  paragraph_count : nat;
  list_count : nat;
  avg_paragraph_length : Q;
  has_lists : bool;
  structure_score : Q
}.

Section Structure.

(** The parser, taken as given: [soup.find_all('p')],
    [soup.find_all(['ul', 'ol'])] and [p.get_text()]. *)
Variable Soup : Type.
Variable Tag : Type.
Variable find_all_p : Soup -> list Tag.
Variable find_all_ul_ol : Soup -> list Tag.
Variable get_text : Tag -> string.

(** [sum(len(p.get_text().split()) for p in paragraphs)]. *)
Fixpoint sum_paragraph_words (paragraphs : list Tag) : Z :=
  match paragraphs with
  | [] => 0
  | p :: paragraphs' =>
      (Z.of_nat (length (Py.split_whitespace (get_text p)))
       + sum_paragraph_words paragraphs')%Z
  end.

(** [sum(...) / len(paragraphs) if paragraphs else 0]. *)
Definition avg_length_of (paragraphs : list Tag) : Q :=
  match paragraphs with
  | [] => 0
  | _ => inject_Z (sum_paragraph_words paragraphs) / len paragraphs
  end.

Definition _calculate_structure_score (paragraphs lists : list Tag) : Q :=
  let score := 0.0%Q in
  let score :=
    (if (5 <=? length paragraphs)%nat && (length paragraphs <=? 15)%nat
     then score + 0.4
     else if (0 <? length paragraphs)%nat then score + 0.2
     else score)%Q in
  let score :=
    match lists with
    | [] => score
    | _ => (score + 0.3)%Q
    end in
  let avg_length := avg_length_of paragraphs in
  let score :=
    (if Py.leb 50 avg_length && Py.leb avg_length 200 then score + 0.3
     else if Py.ltb 0 avg_length then score + 0.1
     else score)%Q in
  score.

Definition analyze_content_structure (soup : Soup) : ContentStructure :=
  let paragraphs := find_all_p soup in
  let lists := find_all_ul_ol soup in
  {| paragraph_count := length paragraphs;
     list_count := length lists;
     avg_paragraph_length := avg_length_of paragraphs;
     has_lists := match lists with [] => false | _ => true end;
     structure_score := _calculate_structure_score paragraphs lists |}.

End Structure.

Arguments sum_paragraph_words {Tag} get_text paragraphs.
Arguments avg_length_of {Tag} get_text paragraphs.
Arguments _calculate_structure_score {Tag} get_text paragraphs lists.
Arguments analyze_content_structure {Soup Tag} find_all_p find_all_ul_ol
  get_text soup.

(** The tags line 22 takes out of the soup. *)
Definition removed_tags : list string :=
  ["script"; "style"; "nav"; "header"; "footer"].

(** [extract_text_content(soup)]: the text, and the soup as the loop of
    line 22 leaves it. The soup is the caller's object: what is removed
    here is gone for every later reader of it. *)
Definition extract_text_content (soup : Bs4.node) : string * Bs4.node :=
  let soup :=
    fold_left (fun soup script => Bs4.decompose script soup)
      (Bs4.find_all removed_tags soup) soup in
  let text := Bs4.get_text soup in
  let lines := map Py.strip (Py.splitlines text) in
  let chunks := map Py.strip (flat_map Py.split_double_space lines) in
  let text := Py.join " " (List.filter Url.nonempty chunks) in
  (text, soup).

(** The dict [analyze] returns. *)
Record Content : Type := mkContent {
  readability : Readability;
  keyword_analysis : KeywordAnalysis;
  content_structure : ContentStructure;
  word_count : nat;
  sufficient_content : bool
}.

(** [analyze(soup)]: the dict or the exception raised, and the soup as the
    call leaves it. *)
Definition analyze (soup : Bs4.node) : Py.result Content * Bs4.node :=
  let '(text_content, soup) := extract_text_content soup in
  (Py.bind (analyze_readability text_content) (fun readability =>
   Py.bind (analyze_keyword_density text_content) (fun keyword_analysis =>
   let content_structure :=
     analyze_content_structure (Bs4.find_all ["p"]) (Bs4.find_all ["ul"; "ol"])
       Bs4.get_text soup in
   let word_count := length (_split_into_words text_content) in
   Py.Ok {| readability := readability;
            keyword_analysis := keyword_analysis;
            content_structure := content_structure;
            word_count := word_count;
            sufficient_content := (min_word_count <=? Z.of_nat word_count)%Z |})),
   soup).

(** The dict of [analyze] as it goes into the report. The two averages
    that are the int [0] of their [else] branch, and not a float, are
    written as such: the syllables per word of a text without words (with
    words the average is at least 1), and the paragraph length of a page
    without paragraphs. *)
Definition to_value (r : Content) : Py.value :=
  let int n := Py.VInt (Z.of_nat n) in
  Py.VDict
    [("readability",
      Py.VDict
        [("flesch_reading_ease",
          Py.VFloat (flesch_reading_ease (readability r)));
         ("avg_sentence_length",
          Py.VFloat (avg_sentence_length (readability r)));
         ("avg_syllables_per_word",
          if Qeq_bool (avg_syllables_per_word (readability r)) 0
          then Py.VInt 0
          else Py.VFloat (avg_syllables_per_word (readability r)));
         ("readability_level", Py.VStr (readability_level (readability r)))]);
     ("keyword_analysis",
      Py.VDict
        [("top_keywords",
          Py.VList (map (fun kv => Py.VList [Py.VStr (fst kv); Py.VInt (snd kv)])
                      (top_keywords (keyword_analysis r))));
         ("keyword_densities",
          Py.VDict (map (fun kv => (fst kv, Py.VFloat (snd kv)))
                      (keyword_densities (keyword_analysis r))));
         ("keyword_density_issues",
          Py.VList (map Py.VStr (keyword_density_issues (keyword_analysis r))))]);
     ("content_structure",
      Py.VDict
        [("paragraph_count", int (paragraph_count (content_structure r)));
         ("list_count", int (list_count (content_structure r)));
         ("avg_paragraph_length",
          match paragraph_count (content_structure r) with
          | O => Py.VInt 0
          | _ => Py.VFloat (avg_paragraph_length (content_structure r))
          end);
         ("has_lists", Py.VBool (has_lists (content_structure r)));
         ("structure_score", Py.VFloat (structure_score (content_structure r)))]);
     ("word_count", int (word_count r));
     ("sufficient_content", Py.VBool (sufficient_content r))].

End ContentAnalyzer.

(** ** [src/seo_crawler.py] *)

Module SEOCrawler.

Import Py.

(** The result dicts of [analyze_page]. *)
Definition page_record (url : string) (depth : Z) (seo perf content : value)
  (links : list string) : list (string * value) :=
  [("url", VStr url); ("depth", VInt depth); ("seo_metrics", seo);
   ("performance_metrics", perf); ("content_metrics", content);
   ("links", VList (map VStr links))].

Definition error_record (url e : string) : list (string * value) :=
  [("url", VStr url); ("error", VStr e)].

(** Where a call of [analyze_page] stands. The numbers are the lines of
    [seo_crawler.py] about to be run. *)
Inductive pc : Type :=
| Queued     (* submitted to the parent's executor, no worker has taken it *)
| L68        (* the depth and visited guard *)
| L71        (* the robots guard *)
| L75        (* self.visited_urls.add(url) *)
| L78        (* fetch, parse, analyze, extract links, build result *)
| L100 (result : list (string * value)) (todo : list string)
             (* the comprehension of lines 100-103, [todo] still to visit *)
| L105 (result : list (string * value))
             (* leaving the with block: shutdown(wait=True), then return *)
| Returned (r : list (string * value))
| Raised (e : string).

(** One call of [analyze_page(url, depth)]: the root call made by [crawl],
    or a task submitted by the call [parent]. *)
Record Thread : Type := mkThread {
  t_url : string;
  t_depth : Z;
  t_parent : option nat;
  t_pc : pc
}.

(** The crawler's mutable state, the calls in flight (a call is named by
    its position in [threads]), and the calls of [get_page_content] made so
    far with the depth of the caller. *)
Record State : Type := mkState {
  visited_urls : gset string;
  threads : list Thread;
  fetch_log : list (string * Z)
}.

Definition set_pc (t : Thread) (p : pc) : Thread :=
  {| t_url := t_url t; t_depth := t_depth t; t_parent := t_parent t; t_pc := p |}.

Definition is_queued (p : pc) : bool :=
  match p with Queued => true | _ => false end.

Definition finished (p : pc) : bool :=
  match p with Returned _ | Raised _ => true | _ => false end.

(** A task a worker is running. *)
Definition active (p : pc) : bool := negb (is_queued p) && negb (finished p).

Definition child_of (parent : nat) (t : Thread) : bool :=
  match t_parent t with
  | Some q => Nat.eqb parent q
  | None => false
  end.

(** [ThreadPoolExecutor(max_workers=5)]. *)
Definition max_workers : nat := 5.

(** A queued task is taken by a worker of its executor when the tasks
    submitted before it have been taken (the work queue is first in, first
    out) and fewer than [max_workers] tasks of the executor are running. *)
Definition may_start (i : nat) (t : Thread) (ths : list Thread) : bool :=
  match t_parent t with
  | None => false
  | Some p =>
      forallb (fun u => negb (child_of p u && is_queued (t_pc u))) (take i ths)
      && (length (List.filter (fun u => child_of p u && active (t_pc u)) ths)
          <? max_workers)%nat
  end.

(** Every task submitted by call [i] has finished. *)
Definition children_done (i : nat) (ths : list Thread) : bool :=
  forallb (fun u => negb (child_of i u) || finished (t_pc u)) ths.

Section Crawler.

(** The types of the libraries' objects: loaded robots rules (see
    [RobotsParser]) and parsed pages. *)
Variable Policy : Type.
Variable Soup : Type.

(** The response [requests.get] returns: its status code and its text. *)
Record Response : Type := mkResponse {
  status_code : Z;
  text : string
}.

(** What the crawler calls and does not define, taken as given:
    - [url_lib]: what [urllib.parse] calls of other modules, see [Url.Lib];
    - [urlopen], [match_entries]: the network and the entries behind the
      library's [RobotFileParser], see [RobotsParser];
    - [validators_url]: [bool(validators.url(url))];
    - [requests_get]: the response of line 52, whatever its status, and
      the time measured around the call, or the exception raised on the
      way (a connection error, a timeout, a URL that [requests] refuses);
    - [BeautifulSoup]: [BeautifulSoup(content, 'lxml')];
    - [find_all_a_href]: the [href] values of
      [soup.find_all('a', href=True)], in document order;
    - [seo_analyze], [performance_analyze], [content_analyze]: the dict
      each analyzer's [analyze] returns, or the exception it raised. *)
Record World : Type := mkWorld {
  url_lib : Url.Lib;
  urlopen : string -> result (RobotsParser.Answer Policy);
  match_entries : Policy -> string -> string -> result bool;
  validators_url : string -> bool;
  requests_get : string -> result (Response * Q);
  BeautifulSoup : string -> Soup;
  find_all_a_href : Soup -> list string;
  seo_analyze : Soup -> string -> result value;
  performance_analyze : Q -> string -> result value;
  content_analyze : Soup -> result value
}.

Variable W : World.

(** The fields of the crawler set by [__init__] and read afterwards. *)
Record t : Type := mk {
  base_url : string;
  depth : Z;
  ignore_robots : bool;
  robots_parser : RobotsParser.t Policy
}.

(** [SEOCrawler(base_url, depth, timeout, ignore_robots)]: line 40 loads
    robots.txt; the other lines set fields, among them an empty
    [visited_urls], and make the analyzers and the user agent. *)
Definition init (base_url : string) (depth : Z) (ignore_robots : bool)
  : result t :=
  bind (RobotsParser.init (url_lib W) (urlopen W) base_url) (fun robots_parser =>
  Ok (mk base_url depth ignore_robots robots_parser)).

Variable self : t.

Definition is_valid_url (url : string) : result bool :=
  if negb (validators_url W url) then Ok false
  else
    bind (Url.urlparse_netloc (url_lib W) url) (fun netloc =>
    bind (Url.urlparse_netloc (url_lib W) (base_url self)) (fun base_netloc =>
    Ok (String.eqb netloc base_netloc))).

(** [get_page_content(url)]: the status of the response is not looked at. *)
Definition get_page_content (url : string) : result (string * Q) :=
  bind (requests_get W url) (fun '(response, load_time) =>
  Ok (text response, load_time)).

(** The body of the loop of [extract_links]. *)
Definition extract_body (current_url : string) (links : list string)
  (href : string) : result (list string) :=
  bind (Url.urljoin (url_lib W) current_url href) (fun absolute_url =>
  bind (is_valid_url absolute_url) (fun valid =>
  Ok (if valid then (links ++ [absolute_url])%list else links))).

(** The loop itself, over the [href] values still to look at. *)
Fixpoint extract_loop (current_url : string) (links : list string)
  (hrefs : list string) : result (list string) :=
  match hrefs with
  | [] => Ok links
  | href :: hrefs' =>
      bind (extract_body current_url links href) (fun links' =>
      extract_loop current_url links' hrefs')
  end.

Definition extract_links (soup : Soup) (current_url : string)
  : result (list string) :=
  extract_loop current_url [] (find_all_a_href W soup).

(** Call [i] moves to [p]. *)
Definition goto (st : State) (i : nat) (t : Thread) (p : pc) : State :=
  {| visited_urls := visited_urls st;
     threads := <[i := set_pc t p]> (threads st);
     fetch_log := fetch_log st |}.

(** Lines 78-96, inside the [try]: the result dict and the links, or the
    exception raised on the way. *)
Definition analyze_body (url : string) (depth : Z)
  : result (list (string * value) * list string) :=
  bind (get_page_content url) (fun '(content, load_time) =>
  let soup := BeautifulSoup W content in
  bind (seo_analyze W soup url) (fun seo_metrics =>
  bind (performance_analyze W load_time content) (fun performance_metrics =>
  bind (content_analyze W soup) (fun content_metrics =>
  bind (extract_links soup url) (fun links =>
  Ok (page_record url depth seo_metrics performance_metrics content_metrics
                  links,
      links)))))).

(** Lines 77-109 up to the executor: where the call stands after the
    [try] block's first part, the [except] clause included. *)
Definition fetch_and_analyze (url : string) (depth : Z) : pc :=
  match analyze_body url depth with
  | Ok (result, links) => L100 result links
  | Raise e => Returned (error_record url e)
  end.

(** [analyze_page], one statement at a time: the statement call [i] is
    about to run; [None] when the call does not exist, has finished, or has
    to wait. In the comprehension of lines 100-103 each link is tested
    against the visited set as it is when the link's turn comes, and
    submitted at once. *)
Definition step (i : nat) (st : State) : option State :=
  match threads st !! i with
  | None => None
  | Some t =>
      match t_pc t with
      | Queued =>
          if may_start i t (threads st) then Some (goto st i t L68) else None
      | L68 =>
          if (depth self <? t_depth t)%Z || bool_decide (t_url t ∈ visited_urls st)
          then Some (goto st i t (Returned []))
          else Some (goto st i t L71)
      | L71 =>
          if negb (ignore_robots self) then
            match RobotsParser.can_fetch (match_entries W) (robots_parser self)
                    (t_url t) "*" with
            | Ok true => Some (goto st i t L75)
            | Ok false => Some (goto st i t (Returned []))
            | Raise e => Some (goto st i t (Raised e))
            end
          else Some (goto st i t L75)
      | L75 =>
          Some {| visited_urls := {[ t_url t ]} ∪ visited_urls st;
                  threads := <[i := set_pc t L78]> (threads st);
                  fetch_log := fetch_log st |}
      | L78 =>
          Some {| visited_urls := visited_urls st;
                  threads :=
                    <[i := set_pc t (fetch_and_analyze (t_url t) (t_depth t))]>
                      (threads st);
                  fetch_log := (fetch_log st ++ [(t_url t, t_depth t)])%list |}
      | L100 result [] => Some (goto st i t (L105 result))
      | L100 result (link :: todo) =>
          if bool_decide (link ∈ visited_urls st)
          then Some (goto st i t (L100 result todo))
          else
            Some {| visited_urls := visited_urls st;
                    threads :=
                      (<[i := set_pc t (L100 result todo)]> (threads st)
                       ++ [mkThread link (t_depth t + 1) (Some i) Queued])%list;
                    fetch_log := fetch_log st |}
      | L105 result =>
          if children_done i (threads st)
          then Some (goto st i t (Returned result)) else None
      | Returned _ => None
      | Raised _ => None
      end
  end.

(** The result dict a call builds or returns, once it has one. *)
Definition held_result (p : pc) : option (list (string * value)) :=
  match p with
  | L100 result _ | L105 result | Returned result => Some result
  | _ => None
  end.

(** [r] is made of the call's own page only: the empty dict, the error of
    its own fetch or analysis, or the record of its own page. *)
Definition own_result (t : Thread) (r : list (string * value)) : Prop :=
  r = []
  \/ (exists e, r = error_record (t_url t) e)
  \/ (exists content load_time seo perf cm links,
         get_page_content (t_url t) = Ok (content, load_time)
         /\ seo_analyze W (BeautifulSoup W content) (t_url t) = Ok seo
         /\ performance_analyze W load_time content = Ok perf
         /\ content_analyze W (BeautifulSoup W content) = Ok cm
         /\ extract_links (BeautifulSoup W content) (t_url t) = Ok links
         /\ r = page_record (t_url t) (t_depth t) seo perf cm links).

(** The same statements as a relation. [effect i t st p visited log new]:
    the statement that call [i], found as [t] in [st], is about to run
    moves the call to [p], leaves the visited set [visited] and the fetch
    log [log], and submits the tasks [new]. *)
Inductive effect (i : nat) (t : Thread) (st : State)
  : pc -> gset string -> list (string * Z) -> list Thread -> Prop :=
| effect_start :
    t_pc t = Queued -> may_start i t (threads st) = true ->
    effect i t st L68 (visited_urls st) (fetch_log st) []
| effect_guard_stop :
    t_pc t = L68 ->
    (depth self < t_depth t)%Z \/ t_url t ∈ visited_urls st ->
    effect i t st (Returned []) (visited_urls st) (fetch_log st) []
| effect_guard_pass :
    t_pc t = L68 ->
    (t_depth t <= depth self)%Z -> t_url t ∉ visited_urls st ->
    effect i t st L71 (visited_urls st) (fetch_log st) []
| effect_robots_pass :
    t_pc t = L71 ->
    ignore_robots self = true
    \/ RobotsParser.can_fetch (match_entries W) (robots_parser self) (t_url t) "*"
       = Ok true ->
    effect i t st L75 (visited_urls st) (fetch_log st) []
| effect_robots_stop :
    t_pc t = L71 -> ignore_robots self = false ->
    RobotsParser.can_fetch (match_entries W) (robots_parser self) (t_url t) "*"
    = Ok false ->
    effect i t st (Returned []) (visited_urls st) (fetch_log st) []
| effect_robots_raise (e : string) :
    t_pc t = L71 -> ignore_robots self = false ->
    RobotsParser.can_fetch (match_entries W) (robots_parser self) (t_url t) "*"
    = Raise e ->
    effect i t st (Raised e) (visited_urls st) (fetch_log st) []
| effect_add :
    t_pc t = L75 ->
    effect i t st L78 ({[ t_url t ]} ∪ visited_urls st) (fetch_log st) []
| effect_fetch :
    t_pc t = L78 ->
    effect i t st (fetch_and_analyze (t_url t) (t_depth t)) (visited_urls st)
           (fetch_log st ++ [(t_url t, t_depth t)])%list []
| effect_submitted (result : list (string * value)) :
    t_pc t = L100 result [] ->
    effect i t st (L105 result) (visited_urls st) (fetch_log st) []
| effect_skip (result : list (string * value)) (link : string) (todo : list string) :
    t_pc t = L100 result (link :: todo) -> link ∈ visited_urls st ->
    effect i t st (L100 result todo) (visited_urls st) (fetch_log st) []
| effect_submit (result : list (string * value)) (link : string) (todo : list string) :
    t_pc t = L100 result (link :: todo) -> link ∉ visited_urls st ->
    effect i t st (L100 result todo) (visited_urls st) (fetch_log st)
           [mkThread link (t_depth t + 1) (Some i) Queued]
| effect_return (result : list (string * value)) :
    t_pc t = L105 result -> children_done i (threads st) = true ->
    effect i t st (Returned result) (visited_urls st) (fetch_log st) [].

(** A call that has passed the guard of line 68 and has not yet run the
    insertion of line 75. *)
Definition in_guard (p : pc) : bool :=
  match p with L71 | L75 => true | _ => false end.

(** No call stands between line 68 and line 75. *)
Definition guard_free (ths : list Thread) : bool :=
  forallb (fun u => negb (in_guard (t_pc u))) ths.

(** The steps of the runs in which lines 68-75 of one call are never
    interleaved with those of another: a call runs its guard only while no
    other call stands between the guard and the insertion. *)
Definition step_exclusive (i : nat) (st : State) : option State :=
  match threads st !! i with
  | Some t =>
      match t_pc t with
      | L68 => if guard_free (threads st) then step i st else None
      | _ => step i st
      end
  | None => None
  end.

(** The first [crawl()] of a crawler: the visited set is empty, as
    [__init__] left it, and the call [analyze_page(base_url, 0)] starts. *)
Definition crawl_start : State :=
  {| visited_urls := ∅;
     threads := [mkThread (base_url self) 0 None L68];
     fetch_log := [] |}.

(** The states a crawl can reach, whatever the order the threads run in. *)
Inductive reachable : State -> Prop :=
| reachable_start : reachable crawl_start
| reachable_step (st st' : State) (i : nat) :
    reachable st -> step i st = Some st' -> reachable st'.

(** The states reached by such runs. *)
Inductive reachable_exclusive : State -> Prop :=
| exclusive_start : reachable_exclusive crawl_start
| exclusive_step (st st' : State) (i : nat) :
    reachable_exclusive st -> step_exclusive i st = Some st' ->
    reachable_exclusive st'.

(** The run that lets the calls of [schedule] do one statement each, in
    that order. *)
Fixpoint run (schedule : list nat) (st : State) : option State :=
  match schedule with
  | [] => Some st
  | i :: schedule' =>
      match step i st with
      | Some st' => run schedule' st'
      | None => None
      end
  end.

(** What [crawl()] returns once the root call has returned. *)
Definition crawl_result (st : State) : option (list (string * value)) :=
  match threads st !! 0%nat with
  | Some {| t_pc := Returned r |} => Some r
  | _ => None
  end.

End Crawler.

Arguments mkWorld {Policy Soup}.
Arguments url_lib {Policy Soup} _.
Arguments urlopen {Policy Soup} _.
Arguments match_entries {Policy Soup} _.
Arguments validators_url {Policy Soup} _.
Arguments requests_get {Policy Soup} _.
Arguments BeautifulSoup {Policy Soup} _.
Arguments find_all_a_href {Policy Soup} _.
Arguments seo_analyze {Policy Soup} _.
Arguments performance_analyze {Policy Soup} _.
Arguments content_analyze {Policy Soup} _.
Arguments mk {Policy} base_url depth ignore_robots robots_parser.
Arguments base_url {Policy} t.
Arguments depth {Policy} t.
Arguments ignore_robots {Policy} t.
Arguments robots_parser {Policy} t.
Arguments init {Policy Soup} W base_url depth ignore_robots.
Arguments is_valid_url {Policy Soup} W self url.
Arguments get_page_content {Policy Soup} W url.
Arguments extract_body {Policy Soup} W self current_url links href.
Arguments extract_loop {Policy Soup} W self current_url links hrefs.
Arguments extract_links {Policy Soup} W self soup current_url.
Arguments analyze_body {Policy Soup} W self url depth.
Arguments fetch_and_analyze {Policy Soup} W self url depth.
Arguments step {Policy Soup} W self i st.
Arguments effect {Policy Soup} W self i t st _ _ _ _.
Arguments own_result {Policy Soup} W self t r.
Arguments crawl_start {Policy} self.
Arguments reachable {Policy Soup} W self st.
Arguments run {Policy Soup} W self schedule st.
Arguments step_exclusive {Policy Soup} W self i st.
Arguments reachable_exclusive {Policy Soup} W self st.

(** A call that has passed the guard of line 68. *)
Definition past_guard (p : pc) : bool :=
  match p with
  | Queued | L68 | Returned [] => false
  | _ => true
  end.

(** What the runs that keep lines 68-75 of a call together maintain: a call
    in the guard holds a URL that is not visited yet, and is alone there;
    a call about to fetch holds a visited URL nobody has fetched, and no
    other call is about to fetch the same; what was fetched is visited, and
    was fetched once. *)
Record exclusive_inv (st : State) : Prop := {
  inv_guard_fresh :
    forall j u, threads st !! j = Some u -> in_guard (t_pc u) = true ->
                t_url u ∉ visited_urls st;
  inv_guard_one :
    forall j k u w, threads st !! j = Some u -> threads st !! k = Some w ->
                    in_guard (t_pc u) = true -> in_guard (t_pc w) = true -> j = k;
  inv_fetch_fresh :
    forall j u, threads st !! j = Some u -> t_pc u = L78 ->
                t_url u ∈ visited_urls st
                /\ ~ In (t_url u) (map fst (fetch_log st));
  inv_fetch_one :
    forall j k u w, threads st !! j = Some u -> threads st !! k = Some w ->
                    t_pc u = L78 -> t_pc w = L78 -> t_url u = t_url w -> j = k;
  inv_fetched_visited :
    forall url, In url (map fst (fetch_log st)) -> url ∈ visited_urls st;
  inv_fetched_once : NoDup (map fst (fetch_log st))
}.

(** The number of times [url] was fetched. *)
Definition fetch_count (url : string) (st : State) : nat :=
  length (List.filter (fun e => String.eqb (fst e) url) (fetch_log st)).

(** A dict shaped like a non-empty result of [analyze_page]: its ["url"]
    entry is a string. *)
Definition is_page_record (d : list (string * value)) : bool :=
  match dict_get d "url" with
  | Some (VStr _) => true
  | _ => false
  end.

(** The page records found at [v] or anywhere inside it. *)
Fixpoint records_inside (v : value) : list (list (string * value)) :=
  match v with
  | VDict d =>
      (if is_page_record d then [d] else [])
      ++ flat_map (fun kv => records_inside (snd kv)) d
  | VList l => flat_map records_inside l
  | _ => []
  end.

(** The page records attached anywhere under the record [r]. *)
Definition records_below (r : list (string * value)) : list (list (string * value)) :=
  flat_map (fun kv => records_inside (snd kv)) r.

(** The run of [schedule] that keeps lines 68-75 of a call together. *)
Fixpoint run_exclusive {Policy Soup : Type} (W : World Policy Soup)
  (self : t Policy) (schedule : list nat) (st : State) : option State :=
  match schedule with
  | [] => Some st
  | i :: schedule' =>
      match step_exclusive W self i st with
      | Some st' => run_exclusive W self schedule' st'
      | None => None
      end
  end.

(** The crawler as [__init__] assembles it: the world in which the three
    analyses are the repository's analyzers. The parser, the validator,
    the robots library and the network stay as given. The content analyzer
    takes tags out of the soup it is handed, and line 87 reads the links
    from that same soup afterwards: [find_all_a_href] is what line 59 finds
    then. The performance analyzer parses the content anew. *)
Definition repo_world {Policy : Type}
  (url_lib : Url.Lib)
  (urlopen : string -> result (RobotsParser.Answer Policy))
  (match_entries : Policy -> string -> string -> result bool)
  (validators_url : string -> bool)
  (requests_get : string -> result (Response * Q))
  (parse : string -> Bs4.node) : World Policy Bs4.node :=
  {| url_lib := url_lib;
     urlopen := urlopen;
     match_entries := match_entries;
     validators_url := validators_url;
     requests_get := requests_get;
     BeautifulSoup := parse;
     find_all_a_href :=
       fun soup => SEOAnalyzer.anchor_hrefs (snd (ContentAnalyzer.analyze soup));
     seo_analyze :=
       fun soup url =>
         bind (SEOAnalyzer.analyze_soup soup url) (fun r =>
         Ok (SEOAnalyzer.to_value r));
     performance_analyze :=
       fun load_time content =>
         Ok (PerformanceAnalyzer.to_value
               (PerformanceAnalyzer.analyze_soup parse load_time content));
     content_analyze :=
       fun soup =>
         bind (fst (ContentAnalyzer.analyze soup)) (fun r =>
         Ok (ContentAnalyzer.to_value r)) |}.

End SEOCrawler.

(** ** Vocabulary of the statements *)

Module Spec.

(** [s] begins with [p]. *)
Definition StartsWith (p s : string) : Prop := exists rest, s = p ++ rest.

(** [sub] occurs in [s]. *)
Definition Substring (sub s : string) : Prop := exists a b, s = a ++ sub ++ b.

(** No character of [s] is a sentence terminator. *)
Definition NoTerminator (s : string) : Prop :=
  Url.all_chars (fun c => negb (Py.is_terminator c)) s = true.

(** A message of [_check_heading_structure] that reports a skipped level. *)
Definition skipped_level_issue (msg : string) : bool :=
  Py.startswith msg "Skipped heading level".

(** How the link census treats one [href]: left out, counted as external,
    counted as internal. *)
Definition census_skips (href : string) : bool :=
  Py.startswith href "#" || negb (Url.nonempty href).

Definition census_external (current_url href : string) : bool :=
  negb (census_skips href)
  && (Py.startswith href "http" && negb (Py.contains current_url href)).

Definition census_internal (current_url href : string) : bool :=
  negb (census_skips href)
  && negb (Py.startswith href "http" && negb (Py.contains current_url href)).

(** The message appended when the loop of [_check_heading_structure]
    reports a skip from [last_level] to [i]. *)
Definition skip_message (last_level i : nat) : string :=
  "Skipped heading level: " ++ SEOAnalyzer.h last_level ++ " to " ++ SEOAnalyzer.h i.

(** The last character of the word [String prev rest]. *)
Fixpoint last_char (prev : ascii) (rest : string) : ascii :=
  match rest with
  | EmptyString => prev
  | String c rest' => last_char c rest'
  end.

(** How often [word] occurs in [words]. *)
Definition occurrences (word : string) (words : list string) : Z :=
  Z.of_nat (length (List.filter (String.eqb word) words)).

(** A counter in good order: no key twice, every count positive. *)
Definition counter_ok (counter : list (string * Z)) : Prop :=
  List.NoDup (map fst counter) /\ Forall (fun kv => (1 <= snd kv)%Z) counter.


(** Counts that never go up along the list. *)
Fixpoint descending (items : list (string * Z)) : Prop :=
  match items with
  | [] => True
  | x :: items' =>
      List.Forall (fun y => (snd y <= snd x)%Z) items' /\ descending items'
  end.

(** The name a meta tag goes by in [analyze_meta_tags] is [k]. *)
Definition declares (k : string) (tag : SEOAnalyzer.Attrs) : bool :=
  String.eqb
    (Py.lower (SEOAnalyzer.get tag "name" (SEOAnalyzer.get tag "property" "")))
    k.

(** An image without alternative text and without a [src] attribute. *)
Definition no_alt_no_src (img : SEOAnalyzer.Attrs) : bool :=
  SEOAnalyzer.without_alt img
  && match img !! "src" with Some _ => false | None => true end.

(** The robots gate of line 71 lets [url] through. *)
Definition robots_ok {Policy Soup : Type} (W : SEOCrawler.World Policy Soup)
  (self : SEOCrawler.t Policy) (url : string) : Prop :=
  SEOCrawler.ignore_robots self = true
  \/ RobotsParser.can_fetch (SEOCrawler.match_entries W)
       (SEOCrawler.robots_parser self) url "*" = Py.Ok true.

(** [url] is the start of the crawl or passes [is_valid_url]. *)
Definition on_site {Policy Soup : Type} (W : SEOCrawler.World Policy Soup)
  (self : SEOCrawler.t Policy) (url : string) : Prop :=
  url = SEOCrawler.base_url self
  \/ SEOCrawler.is_valid_url W self url = Py.Ok true.

(** The load of robots.txt raised: the URL could not be made or parsed,
    or opening and reading it raised. *)
Definition load_raised {Policy : Type} (lib : Url.Lib)
  (urlopen : string -> Py.result (RobotsParser.Answer Policy))
  (base_url : string) : Prop :=
  Py.raises (Url.urljoin lib base_url "/robots.txt")
  \/ exists robots_url,
       Url.urljoin lib base_url "/robots.txt" = Py.Ok robots_url
       /\ (Py.raises (RobotsParser.set_url lib robots_url)
           \/ Py.raises (urlopen robots_url)).

(** What makes the gate of a crawler for [base_url] answer [False] on
    [url]: robots.txt was answered with an error status that is 401, 403
    or outside 400-499, or it was read and its entries forbid [url]. *)
Definition robots_forbid {Policy Soup : Type} (W : SEOCrawler.World Policy Soup)
  (base_url url user_agent : string) : Prop :=
  exists robots_url,
    Url.urljoin (SEOCrawler.url_lib W) base_url "/robots.txt" = Py.Ok robots_url
    /\ ((exists code,
           SEOCrawler.urlopen W robots_url = Py.Ok (RobotsParser.HTTPError code)
           /\ (code = 401 \/ code = 403 \/ code < 400 \/ 500 <= code)%Z)
        \/ (exists entries,
              SEOCrawler.urlopen W robots_url = Py.Ok (RobotsParser.Parsed entries)
              /\ SEOCrawler.match_entries W entries user_agent url = Py.Ok false)).

(** [is_valid_url] returns [True] on [url]. *)
Definition accepted {Policy Soup : Type} (W : SEOCrawler.World Policy Soup)
  (self : SEOCrawler.t Policy) (url : string) : bool :=
  match SEOCrawler.is_valid_url W self url with
  | Py.Ok true => true
  | _ => false
  end.

(** The record [r] names [url] among its ["links"]. *)
Definition lists_link (r : list (string * Py.value)) (url : string) : Prop :=
  exists links,
    Py.dict_get r "links" = Some (Py.VList (map Py.VStr links)) /\ In url links.

(** A call between the robots gate and the end of its fetch. *)
Definition about_to_fetch (p : SEOCrawler.pc) : bool :=
  match p with
  | SEOCrawler.L75 | SEOCrawler.L78 => true
  | _ => false
  end.

(** A tag with one of the [names]. *)
Definition named (names : list string) (n : Bs4.node) : bool :=
  match n with
  | Bs4.Tag _ name _ _ => Url.mem name names
  | _ => false
  end.

(** The tree without the tags that bear one of the [names] and without
    what is under them. *)
Fixpoint prune (names : list string) (n : Bs4.node) : Bs4.node :=
  match n with
  | Bs4.Tag j name attrs contents =>
      Bs4.Tag j name attrs
        (List.filter (fun c => negb (named names c)) (map (prune names) contents))
  | _ => n
  end.

(** The identities of the tags under [soup]. *)
Definition tag_ids (soup : Bs4.node) : list nat :=
  omap Bs4.id_of (Bs4.descendants soup).

(** The tree without the tags whose identity is among [ids]. *)
Fixpoint remove_ids (ids : list nat) (n : Bs4.node) : Bs4.node :=
  match n with
  | Bs4.Tag j name attrs contents =>
      Bs4.Tag j name attrs
        (List.filter (fun c => negb (existsb (fun i => Bs4.has_id i c) ids))
           (map (remove_ids ids) contents))
  | _ => n
  end.

(** The tag [n] and the tags under it that are not under a tag bearing
    one of the [names], in document order. *)
Fixpoint kept_tags (names : list string) (n : Bs4.node) : list Bs4.node :=
  match n with
  | Bs4.Tag _ _ _ contents =>
      n :: flat_map (fun c => if named names c then [] else kept_tags names c)
             contents
  | _ => []
  end.

(** The tags under [soup] that neither bear one of the [names] nor are
    under a tag that does. *)
Definition kept_descendants (names : list string) (soup : Bs4.node)
  : list Bs4.node :=
  flat_map (fun c => if named names c then [] else kept_tags names c)
    (Bs4.contents_of soup).

(** The [href] of an anchor that has one. *)
Definition anchor_href (tag : Bs4.node) : option string :=
  if Url.mem (Bs4.name_of tag) ["a"] then Bs4.attrs_of tag !! "href" else None.

(** A call that has not reached the comprehension of lines 100-103, or
    that left before reaching it. *)
Definition before_submitting (p : SEOCrawler.pc) : bool :=
  match p with
  | SEOCrawler.Queued | SEOCrawler.L68 | SEOCrawler.L71 | SEOCrawler.L75
  | SEOCrawler.L78 => true
  | _ => false
  end.

End Spec.

(** ** Worked sites *)

Module Examples.

Import Py SEOCrawler.

(** A validator that accepts the http and https URLs of the examples. *)
Definition accept_http (url : string) : bool :=
  startswith url "http://" || startswith url "https://".

(** The URLs of the examples are ASCII and have no bracketed host:
    [urlsplit] consults neither function on them. *)
Definition plain_urls : Url.Lib :=
  Url.mkLib (fun s => s)
    (fun _ => Raise "does not appear to be an IPv4 or IPv6 address").

(** A host that does not answer when asked for robots.txt. *)
Definition no_robots (url : string) : result (RobotsParser.Answer unit) :=
  Raise "<urlopen error [Errno 111] Connection refused>".

(** Entries that allow everything. *)
Definition allow_all (p : unit) (user_agent url : string) : result bool := Ok true.

(** A response with status 200. *)
Definition page (text : string) : Response := mkResponse 200 text.

(** A response with status 404. *)
Definition not_found : Response := mkResponse 404 "Not Found".

(** The example pages are written as the list of their [href] values,
    separated by blanks; parsing one yields that list. *)
Definition hrefs_of (content : string) : list string :=
  List.filter Url.nonempty (split_on " " content).

(** The analyzers' dicts of an example page. *)
Definition seo_dict : value := VDict [("title", VDict [("has_title", VBool true)])].
Definition performance_dict : value :=
  VDict [("load_time", VDict [("performance_score", VFloat 0.8)])].
Definition content_dict : value := VDict [("word_count", VInt 120)].

(** The world around a crawl of the example site [site]. *)
Definition world (site : string -> result (Response * Q)) : World unit (list string) :=
  {| url_lib := plain_urls;
     urlopen := no_robots;
     match_entries := allow_all;
     validators_url := accept_http;
     requests_get := site;
     BeautifulSoup := hrefs_of;
     find_all_a_href := fun soup => soup;
     seo_analyze := fun _ _ => Ok seo_dict;
     performance_analyze := fun _ _ => Ok performance_dict;
     content_analyze := fun _ => Ok content_dict |}.

(** The same world around a host that answers for robots.txt as [robots]
    says. *)
Definition world_with_robots
  (robots : string -> result (RobotsParser.Answer unit))
  (site : string -> result (Response * Q)) : World unit (list string) :=
  {| url_lib := plain_urls;
     urlopen := robots;
     match_entries := allow_all;
     validators_url := accept_http;
     requests_get := site;
     BeautifulSoup := hrefs_of;
     find_all_a_href := fun soup => soup;
     seo_analyze := fun _ _ => Ok seo_dict;
     performance_analyze := fun _ _ => Ok performance_dict;
     content_analyze := fun _ => Ok content_dict |}.

(** A crawler on [https://ex.com/] with depth 1; no robots rules could be
    loaded. *)
Definition crawler : t unit :=
  mk "https://ex.com/" 1 false (RobotsParser.mk "https://ex.com/" None).

(** A home page that links twice to the same page. *)
Definition twice_linked (url : string) : result (Response * Q) :=
  if String.eqb url "https://ex.com/" then Ok (page "/a /a", 0.4%Q)
  else if String.eqb url "https://ex.com/a" then Ok (page "", 0.3%Q)
  else Ok (not_found, 0.1%Q).

(** The home page is fetched and its two tasks are submitted; then the two
    workers run side by side, each one statement at a time; last the home
    page's call returns. *)
Definition side_by_side : list nat :=
  [0; 0; 0; 0; 0; 0; 0;
   1; 2; 1; 2; 1; 2; 1; 2; 1; 2; 1; 2; 1; 2;
   0]%nat.

(** The same crawl with the first worker finishing before the second starts. *)
Definition one_after_the_other : list nat :=
  [0; 0; 0; 0; 0; 0; 0;
   1; 1; 1; 1; 1; 1; 1;
   2; 2;
   0]%nat.

(** A home page that links to a page that is down and to one that is up. *)
Definition one_down (url : string) : result (Response * Q) :=
  if String.eqb url "https://ex.com/" then Ok (page "/down /up", 0.4%Q)
  else if String.eqb url "https://ex.com/up" then Ok (page "", 0.3%Q)
  else Raise "Connection refused".

(** A site that is down altogether. *)
Definition all_down (url : string) : result (Response * Q) :=
  Raise "Connection refused".


(** A chain of three pages: the home page links to [/a], which links to
    [/b]. *)
Definition chain (url : string) : result (Response * Q) :=
  if String.eqb url "https://ex.com/" then Ok (page "/a", 0.4%Q)
  else if String.eqb url "https://ex.com/a" then Ok (page "/b", 0.3%Q)
  else if String.eqb url "https://ex.com/b" then Ok (page "", 0.2%Q)
  else Ok (not_found, 0.1%Q).

(** The home page's call up to the end of its submissions, then the call
    on [/a] likewise, then a worker takes the task on [/b]. *)
Definition down_the_chain : list nat :=
  [0; 0; 0; 0; 0; 0;
   1; 1; 1; 1; 1; 1;
   2]%nat.

(** The whole crawl of the chain, innermost call first to return. *)
Definition whole_chain : list nat :=
  (down_the_chain ++ [2; 1; 1; 0])%list.

(** The state the crawl of [site] is in after [schedule]. *)
Definition state_after (site : string -> result (Response * Q)) (schedule : list nat)
  : State :=
  match run (world site) crawler schedule (crawl_start crawler) with
  | Some st => st
  | None => crawl_start crawler
  end.

(** A heading census with one [h1], no [h2] and one [h3]. *)
Definition h1_h3 : gmap string nat :=
  list_to_map [("h1", 1); ("h2", 0); ("h3", 1); ("h4", 0); ("h5", 0); ("h6", 0)]%nat.

(** The state the crawl of [site] is in after [schedule], run with lines
    68-75 of each call kept together. *)
Definition state_after_exclusive (site : string -> result (Response * Q))
  (schedule : list nat) : State :=
  match run_exclusive (world site) crawler schedule (crawl_start crawler) with
  | Some st => st
  | None => crawl_start crawler
  end.

(** A parsed page: a header that holds the navigation with a link to
    [/menu], a paragraph with a link to [/story], and a script. *)
Definition page_with_navigation : Bs4.node :=
  Bs4.Tag 0 "[document]" ∅
    [Bs4.Tag 1 "header" ∅
       [Bs4.Tag 2 "nav" ∅
          [Bs4.Tag 3 "a" {[ "href" := "/menu" ]} [Bs4.Text "Menu"]]];
     Bs4.Tag 4 "p" ∅
       [Bs4.Text "Read the ";
        Bs4.Tag 5 "a" {[ "href" := "/story" ]} [Bs4.Text "story"]];
     Bs4.Tag 6 "script" ∅ [Bs4.Text "track()"]].

(** A parsed page whose only image has neither [alt] nor [src]. *)
Definition page_with_bare_image : Bs4.node :=
  Bs4.Tag 0 "[document]" ∅
    [Bs4.Tag 1 "img" ∅ [];
     Bs4.Tag 2 "a" {[ "href" := "/next" ]} [Bs4.Text "next"]].

(** A parsed page with two links, the second to an authority whose
    bracket is not closed. *)
Definition page_with_broken_link : Bs4.node :=
  Bs4.Tag 0 "[document]" ∅
    [Bs4.Tag 1 "a" {[ "href" := "/ok" ]} [Bs4.Text "fine"];
     Bs4.Tag 2 "a" {[ "href" := "//[x" ]} [Bs4.Text "broken"]].

(** A parser for the three pages above. *)
Definition parse (content : string) : Bs4.node :=
  if String.eqb content "navigation" then page_with_navigation
  else if String.eqb content "bare image" then page_with_bare_image
  else if String.eqb content "broken link" then page_with_broken_link
  else Bs4.Tag 0 "[document]" ∅ [].

(** A site whose home page is the page with the bare image. *)
Definition bare_image_site (url : string) : result (Response * Q) :=
  if String.eqb url "https://ex.com/" then Ok (page "bare image", 0.4%Q)
  else Ok (page "navigation", 0.3%Q).

(** The crawler's world on that site. *)
Definition bare_image_world : World unit Bs4.node :=
  repo_world plain_urls no_robots allow_all accept_http bare_image_site parse.

(** A site whose home page is the page with the broken link. *)
Definition broken_link_site (url : string) : result (Response * Q) :=
  if String.eqb url "https://ex.com/" then Ok (page "broken link", 0.2%Q)
  else Ok (page "", 0.1%Q).

(** The crawler's world on that site. *)
Definition broken_link_world : World unit Bs4.node :=
  repo_world plain_urls no_robots allow_all accept_http broken_link_site parse.

(** A site whose home page is the page with the navigation; every other
    page is empty. *)
Definition story_site (url : string) : result (Response * Q) :=
  if String.eqb url "https://ex.com/" then Ok (page "navigation", 0.3%Q)
  else Ok (page "", 0.1%Q).

(** The crawler's world on that site. *)
Definition story_world : World unit Bs4.node :=
  repo_world plain_urls no_robots allow_all accept_http story_site parse.

(** The crawl of [story_site] from start to end: the home page up to the
    submission of its one link, the call for that link, then the home
    page's return. *)
Definition whole_story : list nat :=
  [0; 0; 0; 0; 0; 0; 1; 1; 1; 1; 1; 1; 1; 0]%nat.

End Examples.

(* ================================================================== *)
(** * Part II: statements about the embedding *)
(* ================================================================== *)

(** ** Floats and strings *)

Lemma leb_le (x y : Q) : Py.leb x y = true <-> (x <= y)%Q.
Proof.
  unfold Py.leb. rewrite Qle_alt. destruct (x ?= y)%Q; split; congruence.
Qed.

Lemma leb_gt (x y : Q) : Py.leb x y = false <-> (y < x)%Q.
Proof.
  unfold Py.leb. rewrite Qgt_alt. destruct (x ?= y)%Q; split; congruence.
Qed.

Lemma ltb_lt (x y : Q) : Py.ltb x y = true <-> (x < y)%Q.
Proof.
  unfold Py.ltb. rewrite Qlt_alt. destruct (x ?= y)%Q; split; congruence.
Qed.

Lemma startswith_spec (p s : string) :
  Py.startswith s p = true <-> Spec.StartsWith p s.
Proof.
  unfold Spec.StartsWith. revert s.
  induction p as [|a p IH]; intros s.
  - split; [intros _; exists s; reflexivity | destruct s; reflexivity].
  - destruct s as [|b s]; simpl.
    + split; [discriminate | intros [rest H]; discriminate].
    + rewrite andb_true_iff, Ascii.eqb_eq, IH. split.
      * intros [-> [rest ->]]. exists rest. reflexivity.
      * intros [rest H]. injection H as -> ->. split; [reflexivity | eauto].
Qed.

Lemma contains_spec (sub s : string) :
  Py.contains sub s = true <-> Spec.Substring sub s.
Proof.
  unfold Spec.Substring.
  induction s as [|c s IH].
  - cbn [Py.contains]. rewrite orb_false_r, startswith_spec. split.
    + intros [rest H]. exists EmptyString, rest. exact H.
    + intros [a [b H]]. destruct a; [exists b; exact H | discriminate].
  - cbn [Py.contains]. rewrite orb_true_iff, startswith_spec, IH. split.
    + intros [[rest H] | [a [b H]]].
      * exists EmptyString, rest. exact H.
      * exists (String c a), b. simpl. rewrite H. reflexivity.
    + intros [a [b H]]. destruct a as [|c' a].
      * left. exists b. exact H.
      * right. simpl in H. injection H as _ H. eauto.
Qed.

(** ** The performance analyzer *)

(** C9. For every load time [t] the score follows the ladder (1.0 up to
    1.0 s, 0.8 up to 2.5 s, 0.6 up to 4.0 s, 0.4 up to 6.0 s, 0.2 beyond),
    [load_time_acceptable] holds exactly when [t < 3.0], and a load time of
    2.0 s yields the score 0.8 and is acceptable. *)
Theorem load_time_ladder (t : Q) :
  let r := PerformanceAnalyzer.analyze_load_time t in
  ((t <= 1.0 -> PerformanceAnalyzer.performance_score r = 1.0) /\
   (1.0 < t <= 2.5 -> PerformanceAnalyzer.performance_score r = 0.8) /\
   (2.5 < t <= 4.0 -> PerformanceAnalyzer.performance_score r = 0.6) /\
   (4.0 < t <= 6.0 -> PerformanceAnalyzer.performance_score r = 0.4) /\
   (6.0 < t -> PerformanceAnalyzer.performance_score r = 0.2))%Q /\
  (PerformanceAnalyzer.load_time_acceptable r = true <-> (t < 3.0)%Q) /\
  PerformanceAnalyzer.load_time_seconds r = t /\
  PerformanceAnalyzer.analyze_load_time 2.0
  = PerformanceAnalyzer.mkLoadTime 2.0 true 0.8.
Proof.
  cbn zeta. unfold PerformanceAnalyzer.analyze_load_time; cbn [
    PerformanceAnalyzer.performance_score
    PerformanceAnalyzer.load_time_acceptable
    PerformanceAnalyzer.load_time_seconds].
  split; [|split; [apply ltb_lt | split; reflexivity]].
  unfold PerformanceAnalyzer._calculate_performance_score.
  destruct (Py.leb t 1.0) eqn:E1;
    [apply leb_le in E1 | apply leb_gt in E1;
     destruct (Py.leb t 2.5) eqn:E2;
       [apply leb_le in E2 | apply leb_gt in E2;
        destruct (Py.leb t 4.0) eqn:E3;
          [apply leb_le in E3 | apply leb_gt in E3;
           destruct (Py.leb t 6.0) eqn:E4;
             [apply leb_le in E4 | apply leb_gt in E4]]]];
    repeat split; intros; first [reflexivity | lra].
Qed.

(** ** The robots gate *)

(** The two outcomes of [initialize_parser]: the load raised and
    [self.parser] is [None], or [self.parser] is the parser as [read] left
    it. *)
Lemma initialize_parser_cases (Policy : Type) (lib : Url.Lib)
  (urlopen : string -> Py.result (RobotsParser.Answer Policy))
  (base_url : string) :
  (Spec.load_raised lib urlopen base_url
   /\ RobotsParser.initialize_parser lib urlopen base_url = Py.Ok None)
  \/ (exists robots_url p,
        Url.urljoin lib base_url "/robots.txt" = Py.Ok robots_url
        /\ RobotsParser.set_url lib robots_url = Py.Ok tt
        /\ RobotsParser.read urlopen RobotsParser.new robots_url = Py.Ok p
        /\ RobotsParser.initialize_parser lib urlopen base_url = Py.Ok (Some p)).
Proof.
  unfold RobotsParser.initialize_parser, Spec.load_raised, Py.raises.
  destruct (Url.urljoin lib base_url "/robots.txt") as [robots_url|e] eqn:Hjoin;
    cbn [Py.bind Py.try_except]; [|left; eauto].
  destruct (RobotsParser.set_url lib robots_url) as [[]|e] eqn:Hset;
    cbn [Py.bind Py.try_except]; [|left; split; [right|]; eauto 6].
  destruct (RobotsParser.read urlopen RobotsParser.new robots_url) as [p|e]
    eqn:Hread; cbn [Py.bind Py.try_except].
  - right. exists robots_url, p. repeat split; assumption.
  - left. split; [|reflexivity]. right. exists robots_url. split; [reflexivity|].
    right. revert Hread. unfold RobotsParser.read.
    destruct (urlopen robots_url) as [[code|entries]|e']; cbn [Py.bind].
    + destruct (_ || _); [discriminate|]. destruct (_ && _); discriminate.
    + discriminate.
    + eauto.
Qed.

(** [can_fetch] never raises, and it answers [True] on every URL when
    [initialize_parser] has left [None]: the URL of robots.txt could not
    be made or parsed, or reading it raised. *)
Lemma can_fetch_answers (Policy : Type) (lib : Url.Lib)
  (urlopen : string -> Py.result (RobotsParser.Answer Policy))
  (match_entries : Policy -> string -> string -> Py.result bool)
  (base_url url user_agent : string) :
  exists rp,
    RobotsParser.init lib urlopen base_url = Py.Ok rp
    /\ (exists b, RobotsParser.can_fetch match_entries rp url user_agent = Py.Ok b)
    /\ (RobotsParser.parser rp = None ->
        RobotsParser.can_fetch match_entries rp url user_agent = Py.Ok true)
    /\ (forall robots_url,
          Url.urljoin lib base_url "/robots.txt" = Py.Ok robots_url ->
          Py.raises (urlopen robots_url) ->
          RobotsParser.parser rp = None).
Proof.
  unfold RobotsParser.init.
  destruct (RobotsParser.initialize_parser lib urlopen base_url) as [p|e] eqn:Hinit.
  - cbn [Py.bind]. eexists. split; [reflexivity|].
    unfold RobotsParser.can_fetch. cbn [RobotsParser.parser].
    split; [|split].
    + destruct p as [p|]; [|eauto].
      destruct (RobotsParser.lib_can_fetch match_entries p user_agent url);
        cbn [Py.try_except]; eauto.
    + intros ->. reflexivity.
    + intros robots_url Hjoin [e He]. revert Hinit.
      unfold RobotsParser.initialize_parser, RobotsParser.read.
      rewrite Hjoin. cbn [Py.bind].
      destruct (RobotsParser.set_url lib robots_url) as [[]|e1]; cbn [Py.bind].
      * rewrite He. cbn [Py.bind Py.try_except]. congruence.
      * cbn [Py.try_except]. congruence.
  - exfalso. revert Hinit. unfold RobotsParser.initialize_parser.
    destruct (Py.bind _ _); discriminate.
Qed.

(** C7. When the server answers the request for robots.txt with an error
    status that is 401, 403, or outside 400-499 (a 503, say), no rules are
    loaded, [self.parser] is kept, and [can_fetch] answers [False] on
    every URL for every user agent: the library's [read] catches the
    [HTTPError], so the [except] clause of [initialize_parser] never sees
    it. *)
Theorem robots_error_status_forbids_all (Policy : Type) (lib : Url.Lib)
  (urlopen : string -> Py.result (RobotsParser.Answer Policy))
  (match_entries : Policy -> string -> string -> Py.result bool)
  (base_url robots_url : string) (code : Z) :
  Url.urljoin lib base_url "/robots.txt" = Py.Ok robots_url ->
  RobotsParser.set_url lib robots_url = Py.Ok tt ->
  urlopen robots_url = Py.Ok (RobotsParser.HTTPError code) ->
  (code = 401 \/ code = 403 \/ code < 400 \/ 500 <= code)%Z ->
  exists rp p,
    RobotsParser.init lib urlopen base_url = Py.Ok rp
    /\ RobotsParser.parser rp = Some p
    /\ RobotsParser.parsed p = None
    /\ forall url user_agent,
         RobotsParser.can_fetch match_entries rp url user_agent = Py.Ok false.
Proof.
  intros Hjoin Hset Hopen Hcode.
  unfold RobotsParser.init, RobotsParser.initialize_parser, RobotsParser.read.
  rewrite Hjoin. cbn [Py.bind]. rewrite Hset. cbn [Py.bind].
  rewrite Hopen. cbn [Py.bind].
  destruct ((code =? 401)%Z || (code =? 403)%Z) eqn:Hdeny.
  - cbn [Py.bind Py.try_except]. eexists. eexists.
    split; [reflexivity|]. split; [reflexivity|]. split; [reflexivity|].
    intros url user_agent. reflexivity.
  - assert (Hout : ((400 <=? code)%Z && (code <? 500)%Z) = false).
    { apply orb_false_iff in Hdeny as [H1 H3].
      apply Z.eqb_neq in H1, H3.
      destruct Hcode as [-> | [-> | [Hlow | Hhigh]]]; try congruence.
      - apply andb_false_iff. left. apply Z.leb_gt. exact Hlow.
      - apply andb_false_iff. right. apply Z.ltb_ge. exact Hhigh. }
    rewrite Hout. cbn [Py.bind Py.try_except]. eexists. eexists.
    split; [reflexivity|]. split; [reflexivity|]. split; [reflexivity|].
    intros url user_agent. reflexivity.
Qed.

(** The server of [https://ex.com/] answers 503 when asked for
    robots.txt. *)
Lemma robots_503_forbids_all :
  let urlopen := fun _ : string => Py.Ok (RobotsParser.HTTPError 503) in
  exists rp p,
    RobotsParser.init (Policy := unit) Examples.plain_urls urlopen "https://ex.com/"
    = Py.Ok rp
    /\ RobotsParser.parser rp = Some p
    /\ RobotsParser.parsed p = None
    /\ forall url user_agent,
         RobotsParser.can_fetch Examples.allow_all rp url user_agent = Py.Ok false.
Proof.
  intros urlopen.
  apply (robots_error_status_forbids_all unit Examples.plain_urls urlopen
           Examples.allow_all "https://ex.com/" "https://ex.com/robots.txt" 503).
  - reflexivity.
  - reflexivity.
  - reflexivity.
  - lia.
Defined.

(** ** The SEO analyzer: link census *)

Lemma census_fold (current_url : string) (hrefs : list string)
  (acc : list string * list string) :
  let r := fold_left (SEOAnalyzer.census_body current_url) hrefs acc in
  length (fst r)
  = (length (fst acc) + length (List.filter (Spec.census_internal current_url) hrefs))%nat
  /\ length (snd r)
     = (length (snd acc) + length (List.filter (Spec.census_external current_url) hrefs))%nat.
Proof.
  revert acc. induction hrefs as [|href hrefs IH]; intros [internal external].
  - cbn. split; lia.
  - cbn [fold_left List.filter]. specialize (IH (SEOAnalyzer.census_body current_url (internal, external) href)).
    cbn zeta in IH. destruct IH as [IHi IHe]. rewrite IHi, IHe.
    unfold SEOAnalyzer.census_body, Spec.census_internal, Spec.census_external,
      Spec.census_skips.
    destruct (Py.startswith href "#" || negb (Url.nonempty href)); cbn [negb andb fst snd].
    + split; reflexivity.
    + destruct (Py.startswith href "http" && negb (Py.contains current_url href));
        cbn [negb fst snd length]; rewrite ?length_app; cbn [length]; split; lia.
Qed.

Lemma analyze_links_counts (hrefs : list string) (current_url : string) :
  let r := SEOAnalyzer.analyze_links hrefs current_url in
  SEOAnalyzer.total_links r = length hrefs
  /\ SEOAnalyzer.internal_links r
     = length (List.filter (Spec.census_internal current_url) hrefs)
  /\ SEOAnalyzer.external_links r
     = length (List.filter (Spec.census_external current_url) hrefs).
Proof.
  cbn zeta. unfold SEOAnalyzer.analyze_links.
  pose proof (census_fold current_url hrefs ([], [])) as H. cbn zeta in H.
  destruct (fold_left _ hrefs _) as [internal external]. cbn in *.
  repeat split; tauto.
Qed.

Lemma census_skips_false (href : string) :
  href <> EmptyString -> ~ Spec.StartsWith "#" href -> Spec.census_skips href = false.
Proof.
  intros Hne Hfrag. unfold Spec.census_skips.
  destruct (Py.startswith href "#") eqn:E.
  - exfalso. apply Hfrag, startswith_spec, E.
  - destruct href; [congruence | reflexivity].
Qed.

(** C10. In the link census an anchor whose [href] is not empty and does
    not start with [#] adds one to [external_links] when the [href] starts
    with [http] and the current URL does not occur in it, and one to
    [internal_links] otherwise; the other count is left as it is. *)
Theorem link_census_classification (current_url href : string)
  (before after : list string) :
  href <> EmptyString ->
  ~ Spec.StartsWith "#" href ->
  let r0 := SEOAnalyzer.analyze_links (before ++ after) current_url in
  let r1 := SEOAnalyzer.analyze_links (before ++ href :: after) current_url in
  (Spec.StartsWith "http" href /\ ~ Spec.Substring current_url href ->
   SEOAnalyzer.external_links r1 = S (SEOAnalyzer.external_links r0)
   /\ SEOAnalyzer.internal_links r1 = SEOAnalyzer.internal_links r0)
  /\ (~ (Spec.StartsWith "http" href /\ ~ Spec.Substring current_url href) ->
      SEOAnalyzer.internal_links r1 = S (SEOAnalyzer.internal_links r0)
      /\ SEOAnalyzer.external_links r1 = SEOAnalyzer.external_links r0).
Proof.
  intros Hne Hfrag r0 r1. subst r0 r1.
  destruct (analyze_links_counts (before ++ after) current_url) as (_ & Hi0 & He0).
  destruct (analyze_links_counts (before ++ href :: after) current_url) as (_ & Hi1 & He1).
  rewrite Hi0, He0, Hi1, He1. clear Hi0 He0 Hi1 He1.
  rewrite !List.filter_app, !length_app. cbn [List.filter].
  assert (Hint : Spec.census_internal current_url href
                 = negb (Py.startswith href "http"
                         && negb (Py.contains current_url href))).
  { unfold Spec.census_internal.
    rewrite (census_skips_false href Hne Hfrag). reflexivity. }
  assert (Hext : Spec.census_external current_url href
                 = (Py.startswith href "http"
                    && negb (Py.contains current_url href))).
  { unfold Spec.census_external.
    rewrite (census_skips_false href Hne Hfrag). reflexivity. }
  rewrite Hint, Hext. clear Hint Hext.
  destruct (Py.startswith href "http") eqn:Ehttp; cbn [andb negb].
  - destruct (Py.contains current_url href) eqn:Ein; cbn [negb length].
    + split; [|intros _; split; lia].
      intros [_ Hnot]. exfalso. apply Hnot, contains_spec, Ein.
    + split; [intros _; split; lia|].
      intros Hnot. exfalso. apply Hnot. split.
      * apply startswith_spec, Ehttp.
      * intros Hin. apply contains_spec in Hin. congruence.
  - cbn [length]. split; [|intros _; split; lia].
    intros [Hhttp _]. apply startswith_spec in Hhttp. congruence.
Qed.

(** An absolute link to another page of the same host, from a page whose
    URL does not occur in it, is counted as external. *)
Lemma link_census_same_host_external :
  let r := SEOAnalyzer.analyze_links ["https://ex.com/about"]
             "https://ex.com/blog/post" in
  SEOAnalyzer.external_links r = 1%nat /\ SEOAnalyzer.internal_links r = 0%nat.
Proof.
  assert (Hne : "https://ex.com/about" <> EmptyString) by discriminate.
  assert (Hfrag : ~ Spec.StartsWith "#" "https://ex.com/about").
  { intros H. apply startswith_spec in H. discriminate H. }
  assert (Hext : Spec.StartsWith "http" "https://ex.com/about"
                 /\ ~ Spec.Substring "https://ex.com/blog/post" "https://ex.com/about").
  { split.
    - apply startswith_spec. reflexivity.
    - intros H. apply contains_spec in H. discriminate H. }
  exact (proj1 (link_census_classification "https://ex.com/blog/post"
                  "https://ex.com/about" [] [] Hne Hfrag) Hext).
Defined.

(** ** The SEO analyzer: heading structure *)

Section HeadingLoop.

(** A heading census that holds a count for each of the six levels. *)
Variable headings : gmap string nat.
Variable count : nat -> nat.
Hypothesis census :
  forall i, (1 <= i <= 6)%nat ->
            SEOAnalyzer.getitem headings (SEOAnalyzer.h i) = Py.Ok (count i).

(** Once [last_level] names a populated level the loop appends nothing:
    its test [headings[h{last_level}] == 0] cannot hold again. *)
Lemma loop_after_populated (levels : list nat) (last_level : nat)
  (issues : list string) :
  (forall i, In i (last_level :: levels) -> (1 <= i <= 6)%nat) ->
  (0 < count last_level)%nat ->
  exists last_level',
    SEOAnalyzer.for_levels headings (last_level, issues) levels
    = Py.Ok (last_level', issues).
Proof.
  revert last_level. induction levels as [|i levels IH]; intros last_level Hin Hpos.
  - exists last_level. reflexivity.
  - cbn [SEOAnalyzer.for_levels]. unfold SEOAnalyzer.skipped_level_body.
    rewrite (census i) by (apply Hin; right; left; reflexivity).
    cbn [Py.bind].
    destruct (0 <? count i)%nat eqn:Epos.
    + rewrite (census last_level) by (apply Hin; left; reflexivity).
      cbn [Py.bind].
      destruct (count last_level =? 0)%nat eqn:Ez;
        [apply Nat.eqb_eq in Ez; lia|].
      cbn [Py.bind]. apply IH.
      * intros j [<- | Hj]; apply Hin; [right; left; reflexivity | right; right; exact Hj].
      * apply Nat.ltb_lt, Epos.
    + cbn [Py.bind]. apply IH.
      * intros j [<- | Hj]; apply Hin; [left; reflexivity | right; right; exact Hj].
      * exact Hpos.
Qed.

(** Without an [h1] the loop reports one skip, from [h1] to the first
    populated level, and none when no level is populated. *)
Lemma loop_without_h1 (levels : list nat) (issues : list string) :
  (forall i, In i levels -> (1 <= i <= 6)%nat) ->
  count 1%nat = 0%nat ->
  exists last_level,
    SEOAnalyzer.for_levels headings (1%nat, issues) levels
    = Py.Ok (last_level,
             match List.find (fun i => (0 <? count i)%nat) levels with
             | Some i => (issues ++ [Spec.skip_message 1 i])%list
             | None => issues
             end).
Proof.
  intros Hin Hzero. revert Hin. induction levels as [|i levels IH]; intros Hin.
  - exists 1%nat. reflexivity.
  - cbn [SEOAnalyzer.for_levels List.find]. unfold SEOAnalyzer.skipped_level_body.
    rewrite (census i) by (apply Hin; left; reflexivity).
    cbn [Py.bind].
    destruct (0 <? count i)%nat eqn:Epos.
    + rewrite (census 1%nat) by lia. cbn [Py.bind]. rewrite Hzero.
      cbn [Nat.eqb Py.bind].
      apply loop_after_populated.
      * intros j [<- | Hj]; apply Hin; [left; reflexivity | right; exact Hj].
      * apply Nat.ltb_lt, Epos.
    + cbn [Py.bind]. apply IH. intros j Hj. apply Hin. right. exact Hj.
Qed.

Lemma levels_2_to_6 (i : nat) : In i (seq 2 5) -> (1 <= i <= 6)%nat.
Proof. rewrite in_seq. lia. Qed.

(** With an [h1] the only issue ever reported is a repeated [h1]. *)
Lemma check_with_h1 :
  (0 < count 1%nat)%nat ->
  SEOAnalyzer._check_heading_structure headings
  = Py.Ok (if (1 <? count 1%nat)%nat then ["Multiple H1 tags"] else []).
Proof.
  intros Hpos. unfold SEOAnalyzer._check_heading_structure.
  change "h1" with (SEOAnalyzer.h 1).
  rewrite (census 1%nat) by lia. cbn [Py.bind].
  destruct (count 1%nat =? 0)%nat eqn:Ez; [apply Nat.eqb_eq in Ez; lia|].
  match goal with
  | |- context [SEOAnalyzer.for_levels headings (1%nat, ?issues) ?levels] =>
      destruct (loop_after_populated levels 1%nat issues) as [last_level ->]
  end.
  - intros i [<- | Hi]; [lia | apply levels_2_to_6, Hi].
  - exact Hpos.
  - reflexivity.
Qed.

(** Without an [h1]: the missing [h1], then the single skip the loop
    reports when some deeper level is populated. *)
Lemma check_without_h1 :
  count 1%nat = 0%nat ->
  SEOAnalyzer._check_heading_structure headings
  = Py.Ok (match List.find (fun i => (0 <? count i)%nat) (seq 2 5) with
           | Some i => ["Missing H1 tag"; Spec.skip_message 1 i]
           | None => ["Missing H1 tag"]
           end).
Proof.
  intros Hzero. unfold SEOAnalyzer._check_heading_structure.
  change "h1" with (SEOAnalyzer.h 1).
  rewrite (census 1%nat) by lia. cbn [Py.bind]. rewrite Hzero. cbn [Nat.eqb].
  destruct (loop_without_h1 (seq 2 5) ["Missing H1 tag"] levels_2_to_6 Hzero)
    as [last_level ->].
  cbn [Py.bind snd]. destruct (List.find _ _); reflexivity.
Qed.

End HeadingLoop.

(** The census [analyze_headings] builds holds the six counts. *)
Lemma analyze_headings_census (tag_count : string -> nat) (i : nat) :
  (1 <= i <= 6)%nat ->
  SEOAnalyzer.getitem
    (fold_left (fun d j => <[SEOAnalyzer.h j := tag_count (SEOAnalyzer.h j)]> d)
               (seq 1 6) (∅ : gmap string nat))
    (SEOAnalyzer.h i)
  = Py.Ok (tag_count (SEOAnalyzer.h i)).
Proof.
  intros Hi.
  assert (i = 1 \/ i = 2 \/ i = 3 \/ i = 4 \/ i = 5 \/ i = 6)%nat as Hc by lia.
  destruct Hc as [-> | [-> | [-> | [-> | [-> | ->]]]]]; vm_compute; reflexivity.
Qed.

(** C6. The skipped-level check reports nothing on a page that has an
    [h1]: its loop compares the count of the last populated level with
    zero, never the distance between two levels. A census with [h1] and
    [h3] present and [h2] absent therefore yields no issue at all. *)
Theorem skipped_level_missed_with_h1 (headings : gmap string nat)
  (count : nat -> nat) :
  (forall i, (1 <= i <= 6)%nat ->
             SEOAnalyzer.getitem headings (SEOAnalyzer.h i) = Py.Ok (count i)) ->
  (0 < count 1)%nat -> count 2%nat = 0%nat -> (0 < count 3)%nat ->
  exists issues,
    SEOAnalyzer._check_heading_structure headings = Py.Ok issues
    /\ List.filter Spec.skipped_level_issue issues = [].
Proof.
  intros census Hh1 _ _.
  rewrite (check_with_h1 headings count census Hh1).
  eexists; split; [reflexivity|].
  destruct (1 <? count 1)%nat; reflexivity.
Qed.

(** The census of a page with one [h1], no [h2] and one [h3] is found in
    order. *)
Lemma skipped_level_missed_h1_h3 :
  exists issues,
    SEOAnalyzer._check_heading_structure Examples.h1_h3 = Py.Ok issues
    /\ List.filter Spec.skipped_level_issue issues = [].
Proof.
  apply (skipped_level_missed_with_h1 _
           (fun i => match i with 1 | 3 => 1 | _ => 0 end)%nat).
  - intros i Hi.
    assert (i = 1 \/ i = 2 \/ i = 3 \/ i = 4 \/ i = 5 \/ i = 6)%nat as Hc by lia.
    destruct Hc as [-> | [-> | [-> | [-> | [-> | ->]]]]]; vm_compute; reflexivity.
  - simpl. lia.
  - reflexivity.
  - simpl. lia.
Defined.

Example h1_h3_no_issue :
  SEOAnalyzer._check_heading_structure Examples.h1_h3 = Py.Ok [].
Proof. vm_compute. reflexivity. Qed.

Example h2_without_h1_issues :
  SEOAnalyzer._check_heading_structure
    (list_to_map [("h1", 0); ("h2", 1); ("h3", 0); ("h4", 0); ("h5", 0); ("h6", 0)]%nat)
  = Py.Ok ["Missing H1 tag"; "Skipped heading level: h1 to h2"].
Proof. vm_compute. reflexivity. Qed.

(** ** The content analyzer: readability *)

Lemma round2_close (x : Q) : (x - 0.005 <= Py.round2 x <= x + 0.005)%Q.
Proof.
  destruct x as [n0 d0]. unfold Py.round2. cbn [Qnum Qden].
  set (n := (n0 * 100)%Z). set (d := Z.pos d0).
  assert (Hd : (0 < d)%Z) by (subst d; lia).
  pose proof (Z.div_mod n d ltac:(lia)) as Hdm.
  pose proof (Z.mod_pos_bound n d Hd) as Hr.
  set (q := (n / d)%Z) in *. set (r := (n mod d)%Z) in *.
  assert (Hn : (n0 * 100 = d * q + r)%Z) by (subst n; exact Hdm).
  clearbody q r. clear Hdm.
  assert (Hcmp : forall up : bool,
     (up = true -> (d <= 2 * r)%Z) -> (up = false -> (2 * r <= d)%Z) ->
     ((n0 # d0) - 0.005 <= ((if up then q + 1 else q)%Z # 100) <= (n0 # d0) + 0.005)%Q).
  { intros up Hup Hdn. unfold Qle, Qminus, Qplus, Qopp, Qmult. cbn [Qnum Qden].
    rewrite !Pos2Z.inj_mul. fold d.
    destruct up; [specialize (Hup eq_refl) | specialize (Hdn eq_refl)]; split; nia. }
  clearbody d n. apply Hcmp; clear Hcmp.
  - destruct (2 * r ?= d)%Z eqn:E; intros Hup.
    + apply Z.compare_eq in E. lia.
    + discriminate.
    + rewrite Z.compare_gt_iff in E. lia.
  - destruct (2 * r ?= d)%Z eqn:E; intros Hup.
    + apply Z.compare_eq in E. lia.
    + rewrite Z.compare_lt_iff in E. lia.
    + discriminate.
Qed.

Lemma str_app_empty_r (s : string) : s ++ "" = s.
Proof.
  induction s as [|c s IH]; [reflexivity|].
  change (String c (s ++ "") = String c s). rewrite IH. reflexivity.
Qed.

Lemma str_app_assoc (a b c : string) : (a ++ b) ++ c = a ++ (b ++ c).
Proof.
  induction a as [|x a IH]; [reflexivity|].
  change (String x ((a ++ b) ++ c) = String x (a ++ (b ++ c))).
  rewrite IH. reflexivity.
Qed.

Lemma no_terminator_cons (c : ascii) (s : string) :
  Spec.NoTerminator (String c s)
  <-> Py.is_terminator c = false /\ Spec.NoTerminator s.
Proof.
  unfold Spec.NoTerminator. cbn [Url.all_chars].
  rewrite andb_true_iff, negb_true_iff. reflexivity.
Qed.

(** A text without terminators is one piece. *)
Lemma split_no_terminator (body cur : string) :
  Spec.NoTerminator body ->
  Py.split_terminators_from cur false body = [cur ++ body].
Proof.
  revert cur. induction body as [|c body IH]; intros cur Hno.
  - cbn. rewrite str_app_empty_r. reflexivity.
  - apply no_terminator_cons in Hno as [Hc Hno].
    cbn [Py.split_terminators_from]. rewrite Hc, IH by exact Hno.
    rewrite str_app_assoc. reflexivity.
Qed.

(** A closing full stop adds an empty piece after the sentence. *)
Lemma split_trailing_period (body cur : string) :
  Spec.NoTerminator body ->
  Py.split_terminators_from cur false (body ++ ".") = [cur ++ body; ""].
Proof.
  revert cur. induction body as [|c body IH]; intros cur Hno.
  - cbn. rewrite str_app_empty_r. reflexivity.
  - apply no_terminator_cons in Hno as [Hc Hno].
    change (String c body ++ ".") with (String c (body ++ ".")).
    cbn [Py.split_terminators_from]. rewrite Hc, IH by exact Hno.
    rewrite str_app_assoc. reflexivity.
Qed.

(** A closing character that is no word character changes no word. *)
Lemma findall_trailing (text : string) (c : ascii) (cur : string) :
  Py.is_word_char c = false ->
  Py.findall_words_from cur (text ++ String c "") = Py.findall_words_from cur text.
Proof.
  intros Hc. revert cur. induction text as [|x text IH]; intros cur.
  - change ("" ++ String c "") with (String c "").
    cbn [Py.findall_words_from]. rewrite Hc.
    destruct cur; reflexivity.
  - change (String x text ++ String c "") with (String x (text ++ String c "")).
    cbn [Py.findall_words_from].
    destruct (Py.is_word_char x); [apply IH|].
    destruct cur; rewrite IH; reflexivity.
Qed.

Lemma sum_syllables_one (words : list string) :
  (forall w, In w words -> ContentAnalyzer._count_syllables w = Py.Ok 1%Z) ->
  ContentAnalyzer.sum_syllables words = Py.Ok (Z.of_nat (length words)).
Proof.
  induction words as [|w words IH]; intros Hone; [reflexivity|].
  cbn [ContentAnalyzer.sum_syllables].
  rewrite (Hone w) by (left; reflexivity). cbn [Py.bind].
  rewrite IH by (intros w' Hw'; apply Hone; right; exact Hw').
  cbn [Py.bind length]. f_equal. lia.
Qed.

Lemma len_pos {A : Type} (l : list A) : l <> [] -> (1 <= ContentAnalyzer.len l)%Q.
Proof.
  intros Hne. destruct l as [|a l]; [congruence|].
  unfold ContentAnalyzer.len, Qle. cbn [length Qnum Qden inject_Z]. lia.
Qed.

Lemma avg_syllables_one (words : list string) :
  words <> [] ->
  (ContentAnalyzer.avg_syllables_per_word_of (Z.of_nat (length words)) words == 1)%Q.
Proof.
  intros Hne. pose proof (len_pos words Hne) as Hpos.
  unfold ContentAnalyzer.avg_syllables_per_word_of.
  destruct words as [|w words]; [congruence|].
  change (ContentAnalyzer.len (w :: words) / ContentAnalyzer.len (w :: words) == 1)%Q.
  unfold Qdiv. apply Qmult_inv_r. lra.
Qed.

(** C8. A single sentence of N one-syllable words that ends with its full
    stop is not scored by the formula at average sentence length N:
    [re.split] leaves an empty piece after the full stop, the sentence
    count is 2, and the reported [flesch_reading_ease] is the formula at
    N / 2 rounded to two decimals, more than half a point above the
    formula at N. *)
Theorem trailing_period_halves_sentence_length (body : string) :
  Spec.NoTerminator body ->
  let words := ContentAnalyzer._split_into_words body in
  let N := ContentAnalyzer.len words in
  words <> [] ->
  (forall w, In w words -> ContentAnalyzer._count_syllables w = Py.Ok 1%Z) ->
  exists r,
    ContentAnalyzer.analyze_readability (body ++ ".") = Py.Ok r
    /\ ContentAnalyzer._split_into_sentences (body ++ ".") = [body; ""]
    /\ (ContentAnalyzer.flesch (N / 2) 1 - 0.005
        <= ContentAnalyzer.flesch_reading_ease r
        <= ContentAnalyzer.flesch (N / 2) 1 + 0.005)%Q
    /\ (ContentAnalyzer.flesch N 1 + 0.5
        < ContentAnalyzer.flesch_reading_ease r)%Q.
Proof.
  intros Hno words N Hne Hone.
  assert (Hsent : ContentAnalyzer._split_into_sentences (body ++ ".") = [body; ""]).
  { apply (split_trailing_period body "" Hno). }
  assert (Hwords : ContentAnalyzer._split_into_words (body ++ ".") = words).
  { apply findall_trailing. reflexivity. }
  unfold ContentAnalyzer.analyze_readability.
  rewrite Hsent, Hwords, (sum_syllables_one words Hone). cbn [Py.bind].
  eexists. split; [reflexivity|]. split; [reflexivity|].
  cbn [ContentAnalyzer.flesch_reading_ease].
  pose proof (avg_syllables_one words Hne) as Hasw.
  pose proof (len_pos words Hne) as Hpos. fold N in Hpos.
  set (asw := ContentAnalyzer.avg_syllables_per_word_of _ _) in *.
  assert (Hasl : ContentAnalyzer.avg_sentence_length_of words [body; ""] = (N / 2)%Q)
    by reflexivity.
  rewrite Hasl.
  pose proof (round2_close (ContentAnalyzer.flesch (N / 2) asw)) as Hround.
  set (reported := Py.round2 _) in *.
  unfold ContentAnalyzer.flesch in *.
  change (N / 2)%Q with (N * (1 # 2))%Q in *.
  split; [split|]; lra.
Qed.

(** The sentence ["The cat sat."]: three words of one syllable each. *)
Lemma cat_sat_scored_at_half_length : exists r,
    ContentAnalyzer.analyze_readability "The cat sat." = Py.Ok r
    /\ ContentAnalyzer._split_into_sentences "The cat sat." = ["The cat sat"; ""]
    /\ (ContentAnalyzer.flesch (3 / 2) 1 - 0.005
        <= ContentAnalyzer.flesch_reading_ease r
        <= ContentAnalyzer.flesch (3 / 2) 1 + 0.005)%Q
    /\ (ContentAnalyzer.flesch 3 1 + 0.5
        < ContentAnalyzer.flesch_reading_ease r)%Q.
Proof.
  apply (trailing_period_halves_sentence_length "The cat sat").
  - reflexivity.
  - discriminate.
  - intros w Hw. cbn in Hw.
    destruct Hw as [<- | [<- | [<- | []]]]; reflexivity.
Defined.

Example cat_sat_readability :
  ContentAnalyzer.analyze_readability "The cat sat."
  = Py.Ok (ContentAnalyzer.mkReadability 120.71 1.50 1.00 "Very Easy")
  /\ Py.round2 (ContentAnalyzer.flesch 3 1) = 119.19%Q.
Proof. split; vm_compute; reflexivity. Qed.

(** Without a terminator the text is one sentence, and the reported score
    is the formula at N rounded to two decimals. *)
Lemma readability_without_terminator (body : string) :
  Spec.NoTerminator body ->
  let words := ContentAnalyzer._split_into_words body in
  let N := ContentAnalyzer.len words in
  words <> [] ->
  (forall w, In w words -> ContentAnalyzer._count_syllables w = Py.Ok 1%Z) ->
  exists r,
    ContentAnalyzer.analyze_readability body = Py.Ok r
    /\ ContentAnalyzer._split_into_sentences body = [body]
    /\ (ContentAnalyzer.flesch N 1 - 0.005
        <= ContentAnalyzer.flesch_reading_ease r
        <= ContentAnalyzer.flesch N 1 + 0.005)%Q.
Proof.
  intros Hno words N Hne Hone.
  assert (Hsent : ContentAnalyzer._split_into_sentences body = [body]).
  { apply (split_no_terminator body "" Hno). }
  unfold ContentAnalyzer.analyze_readability.
  rewrite Hsent. fold words. rewrite (sum_syllables_one words Hone). cbn [Py.bind].
  eexists. split; [reflexivity|]. split; [reflexivity|].
  cbn [ContentAnalyzer.flesch_reading_ease].
  pose proof (avg_syllables_one words Hne) as Hasw.
  set (asw := ContentAnalyzer.avg_syllables_per_word_of _ _) in *.
  assert (Hasl : ContentAnalyzer.avg_sentence_length_of words [body] = (N / 1)%Q)
    by reflexivity.
  rewrite Hasl.
  pose proof (round2_close (ContentAnalyzer.flesch (N / 1) asw)) as Hround.
  set (reported := Py.round2 _) in *.
  unfold ContentAnalyzer.flesch in *.
  change (N / 1)%Q with (N * 1)%Q in *.
  split; lra.
Qed.

(** ** The crawler *)

Section CrawlerFacts.

Import SEOCrawler.

Variable Policy : Type.
Variable Soup : Type.
Variable W : World Policy Soup.
Variable self : SEOCrawler.t Policy.

Local Abbreviation step := (SEOCrawler.step W self).
Local Abbreviation effect := (SEOCrawler.effect W self).
Local Abbreviation reachable := (SEOCrawler.reachable W self).
Local Abbreviation run := (SEOCrawler.run W self).

(** Every step is one of the statements of [effect]. *)
Lemma step_effect (i : nat) (st st' : State) :
  step i st = Some st' ->
  exists t p visited log new,
    threads st !! i = Some t
    /\ effect i t st p visited log new
    /\ st' = {| visited_urls := visited;
                threads := (<[i := set_pc t p]> (threads st) ++ new)%list;
                fetch_log := log |}.
Proof.
  unfold SEOCrawler.step. intros Hstep.
  destruct (threads st !! i) as [t|] eqn:Hlook; [|discriminate].
  exists t.
  assert (Hshape : forall p : pc,
             goto st i t p
             = {| visited_urls := visited_urls st;
                  threads := (<[i := set_pc t p]> (threads st) ++ [])%list;
                  fetch_log := fetch_log st |}).
  { intros p. unfold goto. rewrite app_nil_r. reflexivity. }
  destruct (t_pc t) as [| | | | |result todo|result|r|e] eqn:Hpc.
  - destruct (may_start i t (threads st)) eqn:Hstart; [|discriminate].
    injection Hstep as <-. do 4 eexists. split; [reflexivity|].
    split; [|apply Hshape]. constructor; assumption.
  - destruct ((depth self <? t_depth t)%Z
              || bool_decide (t_url t ∈ visited_urls st)) eqn:Hguard;
      injection Hstep as <-; do 4 eexists; (split; [reflexivity|]);
      (split; [|apply Hshape]).
    + apply effect_guard_stop; [assumption|].
      apply orb_true_iff in Hguard as [H|H].
      * left. apply Z.ltb_lt, H.
      * right. apply bool_decide_eq_true in H. exact H.
    + apply orb_false_iff in Hguard as [H1 H2].
      apply effect_guard_pass; [assumption| |].
      * apply Z.ltb_ge, H1.
      * apply bool_decide_eq_false in H2. exact H2.
  - destruct (ignore_robots self) eqn:Hign; cbn [negb] in Hstep.
    + injection Hstep as <-. do 4 eexists. split; [reflexivity|].
      split; [|apply Hshape]. apply effect_robots_pass; auto.
    + destruct (RobotsParser.can_fetch _ _ _ _) as [[|]|e] eqn:Hcan;
        injection Hstep as <-; do 4 eexists; (split; [reflexivity|]);
        (split; [|apply Hshape]).
      * apply effect_robots_pass; auto.
      * apply effect_robots_stop; auto.
      * apply effect_robots_raise; auto.
  - injection Hstep as <-. do 4 eexists. split; [reflexivity|].
    split; [apply effect_add; assumption|]. rewrite app_nil_r. reflexivity.
  - injection Hstep as <-. do 4 eexists. split; [reflexivity|].
    split; [apply effect_fetch; assumption|]. rewrite app_nil_r. reflexivity.
  - destruct todo as [|link todo].
    + injection Hstep as <-. do 4 eexists. split; [reflexivity|].
      split; [|apply Hshape]. apply effect_submitted; assumption.
    + destruct (bool_decide (link ∈ visited_urls st)) eqn:Hvis; injection Hstep as <-.
      * do 4 eexists. split; [reflexivity|]. split; [|apply Hshape].
        apply effect_skip with (link := link); [assumption|].
        apply bool_decide_eq_true in Hvis. exact Hvis.
      * do 4 eexists. split; [reflexivity|]. split; [|reflexivity].
        apply effect_submit; [assumption|].
        apply bool_decide_eq_false in Hvis. exact Hvis.
  - destruct (children_done i (threads st)) eqn:Hdone; [|discriminate].
    injection Hstep as <-. do 4 eexists. split; [reflexivity|].
    split; [|apply Hshape]. apply effect_return; assumption.
  - discriminate.
  - discriminate.
Qed.

(** Where a call of the state after a step comes from: it is the call that
    moved, a call left as it was, or a task just submitted. *)
Lemma lookup_stepped (l new : list Thread) (i j : nat) (x u : Thread) :
  (i < length l)%nat ->
  (<[i := x]> l ++ new)%list !! j = Some u ->
  (j = i /\ u = x) \/ (j <> i /\ l !! j = Some u) \/ (In u new /\ (length l <= j)%nat).
Proof.
  intros Hi Hj. apply lookup_app_Some in Hj as [Hj | [Hlen Hj]].
  - apply list_lookup_insert_Some in Hj as [(-> & -> & _) | [Hne Hj]]; auto.
  - right. right. rewrite length_insert in Hlen. split; [|exact Hlen].
    apply list_elem_of_In, list_elem_of_lookup. eauto.
Qed.

(** A run from the start of the crawl ends in a reachable state. *)
Lemma run_from_reachable (schedule : list nat) (st st' : State) :
  reachable st -> run schedule st = Some st' -> reachable st'.
Proof.
  revert st. induction schedule as [|i schedule IH]; intros st Hst Hrun.
  - injection Hrun as <-. exact Hst.
  - cbn [SEOCrawler.run] in Hrun.
    destruct (step i st) as [st1|] eqn:Hstep; [|discriminate].
    apply (IH st1); [|exact Hrun].
    apply reachable_step with (st := st) (i := i); assumption.
Qed.

Lemma run_reachable (schedule : list nat) (st : State) :
  run schedule (crawl_start self) = Some st -> reachable st.
Proof. apply run_from_reachable. constructor. Qed.

(** Calls past the guard of line 68, and fetches, stay within the depth
    bound. *)
Lemma depth_invariant (st : State) :
  reachable st ->
  (forall j u, threads st !! j = Some u -> past_guard (t_pc u) = true ->
               (t_depth u <= depth self)%Z)
  /\ (forall url d, In (url, d) (fetch_log st) -> (d <= depth self)%Z).
Proof.
  induction 1 as [|st st' i Hreach [IHt IHl] Hstep].
  - split.
    + intros [|j] u Hj Hpast; [|discriminate].
      injection Hj as <-. discriminate.
    + intros url d [].
  - destruct (step_effect i st st' Hstep) as (t & p & v & l & new & Hl & He & ->).
    assert (Hpast_t : past_guard (t_pc t) = true -> (t_depth t <= depth self)%Z)
      by (apply (IHt i t Hl)).
    cbn [threads fetch_log]. split.
    + intros j u Hj Hpast.
      apply lookup_stepped in Hj; [|eapply lookup_lt_Some; exact Hl].
      destruct Hj as [[-> ->] | [[Hne Hj] | [Hin _]]].
      * cbn [set_pc t_depth t_pc] in *.
        inversion He as [Hpc|Hpc|Hpc|Hpc|Hpc|? Hpc|Hpc|Hpc|? Hpc|? ? ? Hpc|? ? ? Hpc|? Hpc];
          subst; try discriminate; try assumption;
          apply Hpast_t; rewrite Hpc; reflexivity.
      * apply (IHt j u Hj Hpast).
      * inversion He; subst; cbn in Hin; try contradiction.
        destruct Hin as [<- | []]. discriminate.
    + intros url d Hin.
      inversion He as [Hpc|Hpc|Hpc|Hpc|Hpc|? Hpc|Hpc|Hpc|? Hpc|? ? ? Hpc|? ? ? Hpc|? Hpc];
        subst; try (apply (IHl url d Hin)).
      apply in_app_or in Hin as [Hin | [Heq | []]]; [apply (IHl url d Hin)|].
      injection Heq as <- <-. apply Hpast_t. rewrite Hpc. reflexivity.
Qed.

(** C3. In every state a crawl can reach, a call of [analyze_page] whose
    depth exceeds the configured maximum is still queued, stands at the
    guard of line 68, or has returned the empty dict; at the guard its next
    statement returns the empty dict and leaves the visited set and the
    fetch log as they are; and no fetch at that depth was ever made. *)
Theorem beyond_depth_no_record (st : State) (i : nat) (t : Thread) :
  reachable st ->
  threads st !! i = Some t ->
  (depth self < t_depth t)%Z ->
  (t_pc t = Queued \/ t_pc t = L68 \/ t_pc t = Returned [])
  /\ (t_pc t = L68 ->
      exists st',
        step i st = Some st'
        /\ threads st' = <[i := set_pc t (Returned [])]> (threads st)
        /\ visited_urls st' = visited_urls st
        /\ fetch_log st' = fetch_log st)
  /\ (forall url, ~ In (url, t_depth t) (fetch_log st)).
Proof.
  intros Hreach Hl Hdeep.
  destruct (depth_invariant st Hreach) as [Hthreads Hlog].
  split; [|split].
  - specialize (Hthreads i t Hl).
    destruct (t_pc t) as [| | | | |result todo|result|[|kv r]|e]; auto;
      specialize (Hthreads eq_refl); lia.
  - intros Hpc. unfold SEOCrawler.step. rewrite Hl, Hpc.
    assert (Hlt : (depth self <? t_depth t)%Z = true) by (apply Z.ltb_lt, Hdeep).
    rewrite Hlt. cbn [orb]. eexists. split; [reflexivity|].
    cbn. repeat split; reflexivity.
  - intros url Hin. specialize (Hlog url (t_depth t) Hin). lia.
Qed.

(** A URL is in the visited set by the time it is fetched. *)
Lemma fetch_after_insert (st : State) :
  reachable st ->
  (forall j u, threads st !! j = Some u -> t_pc u = L78 ->
               t_url u ∈ visited_urls st)
  /\ (forall url d, In (url, d) (fetch_log st) -> url ∈ visited_urls st).
Proof.
  induction 1 as [|st st' i Hreach [IHt IHl] Hstep].
  - split.
    + intros [|j] u Hj Hpc; [|discriminate].
      injection Hj as <-. discriminate.
    + intros url d [].
  - destruct (step_effect i st st' Hstep) as (t & p & v & l & new & Hl & He & ->).
    assert (Hgrow : forall url, url ∈ visited_urls st -> url ∈ v).
    { intros url Hurl. inversion He; subst; try exact Hurl. set_solver. }
    cbn [threads fetch_log visited_urls]. split.
    + intros j u Hj Hpc.
      apply lookup_stepped in Hj; [|eapply lookup_lt_Some; exact Hl].
      destruct Hj as [[-> ->] | [[Hne Hj] | [Hin _]]].
      * cbn [set_pc t_url t_pc] in *.
        inversion He; subst; try discriminate; set_solver.
      * apply Hgrow, (IHt j u Hj Hpc).
      * inversion He; subst; cbn in Hin; try contradiction.
        destruct Hin as [<- | []]. discriminate.
    + intros url d Hin.
      inversion He as [Hpc|Hpc|Hpc|Hpc|Hpc|? Hpc|Hpc|Hpc|? Hpc|? ? ? Hpc|? ? ? Hpc|? Hpc];
        subst; try (apply Hgrow, (IHl url d Hin)).
      apply in_app_or in Hin as [Hin | [Heq | []]]; [apply (IHl url d Hin)|].
      injection Heq as <- <-. apply (IHt i t Hl Hpc).
Qed.

(** The two outcomes of lines 78-96: an error record, or the record of the
    page with the links to visit. *)
Lemma fetch_and_analyze_cases (url : string) (d : Z) :
  (exists e, fetch_and_analyze W self url d = Returned (error_record url e))
  \/ (exists content load_time seo perf cm links,
        get_page_content W url = Py.Ok (content, load_time)
        /\ seo_analyze W (BeautifulSoup W content) url = Py.Ok seo
        /\ performance_analyze W load_time content = Py.Ok perf
        /\ content_analyze W (BeautifulSoup W content) = Py.Ok cm
        /\ extract_links W self (BeautifulSoup W content) url = Py.Ok links
        /\ fetch_and_analyze W self url d
           = L100 (page_record url d seo perf cm links) links).
Proof.
  unfold fetch_and_analyze, analyze_body.
  destruct (get_page_content W url) as [[content load_time]|e] eqn:Hget;
    cbn [Py.bind]; [|left; exists e; reflexivity].
  destruct (seo_analyze W (BeautifulSoup W content) url) as [seo|e] eqn:Hseo;
    cbn [Py.bind]; [|left; exists e; reflexivity].
  destruct (performance_analyze W load_time content) as [perf|e] eqn:Hperf;
    cbn [Py.bind]; [|left; exists e; reflexivity].
  destruct (content_analyze W (BeautifulSoup W content)) as [cm|e] eqn:Hcm;
    cbn [Py.bind]; [|left; exists e; reflexivity].
  destruct (extract_links W self (BeautifulSoup W content) url) as [links|e]
    eqn:Hlinks; cbn [Py.bind]; [|left; exists e; reflexivity].
  right. exists content, load_time, seo, perf, cm, links.
  repeat split; assumption.
Qed.

(** Whatever dict a call holds is made of its own page only. *)
Lemma results_are_own (st : State) :
  reachable st ->
  forall j u r, threads st !! j = Some u -> held_result (t_pc u) = Some r ->
                own_result W self u r.
Proof.
  induction 1 as [|st st' i Hreach IH Hstep].
  - intros [|j] u r Hj Hr; [|discriminate].
    injection Hj as <-. discriminate.
  - destruct (step_effect i st st' Hstep) as (t & p & v & l & new & Hl & He & ->).
    cbn [threads]. intros j u r Hj Hr.
    apply lookup_stepped in Hj; [|eapply lookup_lt_Some; exact Hl].
    destruct Hj as [[-> ->] | [[Hne Hj] | [Hin _]]].
    + change (own_result W self (set_pc t p) r)
        with (own_result W self t r).
      cbn [set_pc t_pc] in Hr.
      inversion He as [Hpc|Hpc|Hpc|Hpc|Hpc|? Hpc|Hpc|Hpc|? Hpc|? ? ? Hpc|? ? ? Hpc|? Hpc];
        subst; try discriminate;
        try (injection Hr as <-; left; reflexivity);
        try (apply (IH i t r Hl); rewrite Hpc; exact Hr).
      destruct (fetch_and_analyze_cases (t_url t) (t_depth t))
        as [[e Hfa] | (content & load_time & seo & perf & cm & links
                       & Hget & Hseo & Hperf & Hcm & Hlinks & Hfa)];
        rewrite Hfa in Hr; injection Hr as <-.
      * right. left. exists e. reflexivity.
      * right. right. exists content, load_time, seo, perf, cm, links.
        repeat split; assumption.
    + apply (IH j u r Hj Hr).
    + inversion He; subst; cbn in Hin; try contradiction.
      destruct Hin as [<- | []]. discriminate.
Qed.

Lemma no_record_in_links (links : list string) :
  flat_map records_inside (map Py.VStr links) = [].
Proof. induction links as [|link links IH]; [reflexivity | exact IH]. Qed.

(** C2. The dict a call of [analyze_page] returns never carries the record
    of a page it recursed into: in every state a crawl can reach, no page
    record is attached anywhere under a returned dict (the analyzers' own
    dicts carrying none), whatever its children have returned. *)
Theorem child_records_not_attached (st : State) (i : nat) (t : Thread)
  (r : list (string * Py.value)) :
  reachable st ->
  threads st !! i = Some t ->
  t_pc t = Returned r ->
  (forall soup url seo, seo_analyze W soup url = Py.Ok seo ->
                        records_inside seo = []) ->
  (forall load_time content perf,
      performance_analyze W load_time content = Py.Ok perf ->
      records_inside perf = []) ->
  (forall soup cm, content_analyze W soup = Py.Ok cm -> records_inside cm = []) ->
  records_below r = [].
Proof.
  intros Hreach Hl Hpc Hseo Hperf Hcm.
  assert (Hheld : held_result (t_pc t) = Some r) by (rewrite Hpc; reflexivity).
  destruct (results_are_own st Hreach i t r Hl Hheld)
    as [-> | [[e ->] | (content & load_time & seo & perf & cm & links
                        & Hget & Hs & Hp & Hc & Hlinks & ->)]].
  - reflexivity.
  - reflexivity.
  - unfold records_below, page_record. cbn [flat_map snd].
    rewrite (Hseo _ _ _ Hs), (Hperf _ _ _ Hp), (Hcm _ _ Hc).
    cbn [records_inside app].
    rewrite no_record_in_links. reflexivity.
Qed.

(** *** Runs that keep lines 68-75 of a call together *)

Local Abbreviation step_exclusive := (SEOCrawler.step_exclusive W self).
Local Abbreviation reachable_exclusive := (SEOCrawler.reachable_exclusive W self).

Lemma step_exclusive_step (i : nat) (st st' : State) :
  step_exclusive i st = Some st' ->
  step i st = Some st'
  /\ (forall t, threads st !! i = Some t -> t_pc t = L68 ->
                guard_free (threads st) = true).
Proof.
  unfold SEOCrawler.step_exclusive. intros Hstep.
  destruct (threads st !! i) as [t|] eqn:Hl; [|discriminate].
  destruct (t_pc t) eqn:Hpc; try (split; [exact Hstep | intros ? [= <-]; congruence]).
  destruct (guard_free (threads st)) eqn:Hfree; [|discriminate].
  split; [exact Hstep | intros; reflexivity].
Qed.

Lemma reachable_exclusive_reachable (st : State) :
  reachable_exclusive st -> reachable st.
Proof.
  induction 1 as [|st st' i _ IH Hstep]; [constructor|].
  apply reachable_step with (st := st) (i := i); [exact IH|].
  apply (step_exclusive_step i st st' Hstep).
Qed.

Lemma fetch_and_analyze_not_L78 (url : string) (d : Z) :
  fetch_and_analyze W self url d <> L78.
Proof.
  destruct (fetch_and_analyze_cases url d)
    as [[e ->] | (content & load_time & seo & perf & cm & links & _ & _ & _ & _ & _ & ->)];
    discriminate.
Qed.

Lemma fetch_and_analyze_not_in_guard (url : string) (d : Z) :
  in_guard (fetch_and_analyze W self url d) = false.
Proof.
  destruct (fetch_and_analyze_cases url d)
    as [[e ->] | (content & load_time & seo & perf & cm & links & _ & _ & _ & _ & _ & ->)];
    reflexivity.
Qed.

Lemma guard_free_lookup (ths : list Thread) (j : nat) (u : Thread) :
  guard_free ths = true -> ths !! j = Some u -> in_guard (t_pc u) = false.
Proof.
  unfold guard_free. rewrite forallb_forall. intros Hfree Hj.
  apply negb_true_iff, Hfree, list_elem_of_In, list_elem_of_lookup. eauto.
Qed.

(** A call of the state after a step that is not freshly queued is the call
    that moved or a call left as it was. *)
Lemma lookup_stepped_busy (l new : list Thread) (i j : nat) (x u : Thread) :
  (i < length l)%nat ->
  (forall w, In w new -> t_pc w = Queued) ->
  t_pc u <> Queued ->
  (<[i := x]> l ++ new)%list !! j = Some u ->
  (j = i /\ u = x) \/ (j <> i /\ l !! j = Some u).
Proof.
  intros Hi Hnew Hbusy Hj.
  destruct (lookup_stepped l new i j x u Hi Hj) as [H | [H | [Hin _]]]; auto.
  exfalso. apply Hbusy, Hnew, Hin.
Qed.

Ltac busy_cases Hj Hlt Hnew :=
  apply lookup_stepped_busy in Hj;
  [ destruct Hj as [[-> ->] | [? Hj]]
  | exact Hlt
  | exact Hnew
  | congruence || (intros Hq; rewrite Hq in *; discriminate) ].

(** A step that takes the moving call neither into the guard nor to the
    fetch, and leaves the visited set and the fetch log as they are. *)
Lemma exclusive_inv_frame (st : State) (i : nat) (t : Thread) (p : pc)
  (new : list Thread) :
  threads st !! i = Some t ->
  in_guard p = false -> p <> L78 ->
  (forall w, In w new -> t_pc w = Queued) ->
  exclusive_inv st ->
  exclusive_inv {| visited_urls := visited_urls st;
                   threads := (<[i := set_pc t p]> (threads st) ++ new)%list;
                   fetch_log := fetch_log st |}.
Proof.
  intros Hl Hp Hp' Hnew [Hgf Hg1 Hff Hf1 Hfv Hfo].
  pose proof (lookup_lt_Some _ _ _ Hl) as Hlt.
  constructor; cbn [threads visited_urls fetch_log]; try assumption.
  - intros j u Hj Hin. busy_cases Hj Hlt Hnew.
    + cbn in Hin. congruence.
    + eauto.
  - intros j k u w Hj Hk Hu Hw.
    busy_cases Hj Hlt Hnew; [cbn in Hu; congruence|].
    busy_cases Hk Hlt Hnew; [cbn in Hw; congruence|].
    eauto.
  - intros j u Hj Hpc. busy_cases Hj Hlt Hnew.
    + cbn in Hpc. congruence.
    + eauto.
  - intros j k u w Hj Hk Hu Hw Heq.
    busy_cases Hj Hlt Hnew; [cbn in Hu; congruence|].
    busy_cases Hk Hlt Hnew; [cbn in Hw; congruence|].
    eauto.
Qed.

(** Line 68 passed while no call stands in the guard. *)
Lemma exclusive_inv_enter (st : State) (i : nat) (t : Thread) :
  threads st !! i = Some t ->
  t_pc t = L68 ->
  guard_free (threads st) = true ->
  t_url t ∉ visited_urls st ->
  exclusive_inv st ->
  exclusive_inv {| visited_urls := visited_urls st;
                   threads := (<[i := set_pc t L71]> (threads st) ++ [])%list;
                   fetch_log := fetch_log st |}.
Proof.
  intros Hl Hpc Hfree Hfresh [Hgf Hg1 Hff Hf1 Hfv Hfo].
  pose proof (lookup_lt_Some _ _ _ Hl) as Hlt.
  assert (Hnew : forall w : Thread, In w [] -> t_pc w = Queued) by (intros w []).
  assert (Hout : forall j u, threads st !! j = Some u -> in_guard (t_pc u) = true -> False).
  { intros j u Hj Hin. rewrite (guard_free_lookup _ j u Hfree Hj) in Hin. discriminate. }
  constructor; cbn [threads visited_urls fetch_log]; try assumption.
  - intros j u Hj Hin. busy_cases Hj Hlt Hnew; [exact Hfresh | eauto].
  - intros j k u w Hj Hk Hu Hw.
    busy_cases Hj Hlt Hnew; busy_cases Hk Hlt Hnew;
      try reflexivity; exfalso; eauto.
  - intros j u Hj Hp. busy_cases Hj Hlt Hnew; [discriminate | eauto].
  - intros j k u w Hj Hk Hu Hw Heq.
    busy_cases Hj Hlt Hnew; [discriminate|].
    busy_cases Hk Hlt Hnew; [discriminate|].
    eauto.
Qed.

(** Line 71 passed: the call stays in the guard. *)
Lemma exclusive_inv_robots (st : State) (i : nat) (t : Thread) :
  threads st !! i = Some t ->
  t_pc t = L71 ->
  exclusive_inv st ->
  exclusive_inv {| visited_urls := visited_urls st;
                   threads := (<[i := set_pc t L75]> (threads st) ++ [])%list;
                   fetch_log := fetch_log st |}.
Proof.
  intros Hl Hpc [Hgf Hg1 Hff Hf1 Hfv Hfo].
  pose proof (lookup_lt_Some _ _ _ Hl) as Hlt.
  assert (Hnew : forall w : Thread, In w [] -> t_pc w = Queued) by (intros w []).
  assert (Hin_t : in_guard (t_pc t) = true) by (rewrite Hpc; reflexivity).
  constructor; cbn [threads visited_urls fetch_log]; try assumption.
  - intros j u Hj Hin. busy_cases Hj Hlt Hnew; [apply (Hgf i t Hl Hin_t) | eauto].
  - intros j k u w Hj Hk Hu Hw.
    busy_cases Hj Hlt Hnew; busy_cases Hk Hlt Hnew; try reflexivity.
    + symmetry. apply (Hg1 k i w t Hk Hl Hw Hin_t).
    + apply (Hg1 j i u t Hj Hl Hu Hin_t).
    + eauto.
  - intros j u Hj Hp. busy_cases Hj Hlt Hnew; [discriminate | eauto].
  - intros j k u w Hj Hk Hu Hw Heq.
    busy_cases Hj Hlt Hnew; [discriminate|].
    busy_cases Hk Hlt Hnew; [discriminate|].
    eauto.
Qed.

(** Line 75: the URL enters the visited set and the call leaves the guard. *)
Lemma exclusive_inv_add (st : State) (i : nat) (t : Thread) :
  threads st !! i = Some t ->
  t_pc t = L75 ->
  exclusive_inv st ->
  exclusive_inv {| visited_urls := {[ t_url t ]} ∪ visited_urls st;
                   threads := (<[i := set_pc t L78]> (threads st) ++ [])%list;
                   fetch_log := fetch_log st |}.
Proof.
  intros Hl Hpc [Hgf Hg1 Hff Hf1 Hfv Hfo].
  pose proof (lookup_lt_Some _ _ _ Hl) as Hlt.
  assert (Hnew : forall w : Thread, In w [] -> t_pc w = Queued) by (intros w []).
  assert (Hin_t : in_guard (t_pc t) = true) by (rewrite Hpc; reflexivity).
  pose proof (Hgf i t Hl Hin_t) as Hfresh.
  constructor; cbn [threads visited_urls fetch_log]; try assumption.
  - intros j u Hj Hin. busy_cases Hj Hlt Hnew; [discriminate|].
    exfalso. match goal with H : j <> i |- _ => apply H end.
    apply (Hg1 j i u t Hj Hl Hin Hin_t).
  - intros j k u w Hj Hk Hu Hw.
    busy_cases Hj Hlt Hnew; [discriminate|].
    busy_cases Hk Hlt Hnew; [discriminate|].
    eauto.
  - intros j u Hj Hp. busy_cases Hj Hlt Hnew.
    + cbn [set_pc t_url]. split.
      * apply elem_of_union_l, elem_of_singleton. reflexivity.
      * intros Hin. apply Hfresh, Hfv, Hin.
    + destruct (Hff j u Hj Hp) as [Hv Hf].
      split; [apply elem_of_union_r, Hv | exact Hf].
  - intros j k u w Hj Hk Hu Hw Heq.
    busy_cases Hj Hlt Hnew; busy_cases Hk Hlt Hnew; try reflexivity.
    + exfalso. cbn [set_pc t_url] in Heq. rewrite Heq in Hfresh.
      apply Hfresh, (Hff k w Hk Hw).
    + exfalso. cbn [set_pc t_url] in Heq. rewrite <- Heq in Hfresh.
      apply Hfresh, (Hff j u Hj Hu).
    + eauto.
  - intros url Hin. apply elem_of_union_r, Hfv, Hin.
Qed.

(** Line 78: the fetch is logged and the call leaves line 78. *)
Lemma exclusive_inv_fetch (st : State) (i : nat) (t : Thread) :
  threads st !! i = Some t ->
  t_pc t = L78 ->
  exclusive_inv st ->
  exclusive_inv
    {| visited_urls := visited_urls st;
       threads :=
         (<[i := set_pc t (fetch_and_analyze W self
                             (t_url t) (t_depth t))]> (threads st) ++ [])%list;
       fetch_log := (fetch_log st ++ [(t_url t, t_depth t)])%list |}.
Proof.
  intros Hl Hpc [Hgf Hg1 Hff Hf1 Hfv Hfo].
  pose proof (lookup_lt_Some _ _ _ Hl) as Hlt.
  assert (Hnew : forall w : Thread, In w [] -> t_pc w = Queued) by (intros w []).
  destruct (Hff i t Hl Hpc) as [Hvis Hfresh].
  pose proof (fetch_and_analyze_not_L78 (t_url t) (t_depth t)) as HnotL78.
  pose proof (fetch_and_analyze_not_in_guard (t_url t) (t_depth t)) as Hnotguard.
  constructor; cbn [threads visited_urls fetch_log].
  - intros j u Hj Hin. busy_cases Hj Hlt Hnew; [cbn in Hin; congruence | eauto].
  - intros j k u w Hj Hk Hu Hw.
    busy_cases Hj Hlt Hnew; [cbn in Hu; congruence|].
    busy_cases Hk Hlt Hnew; [cbn in Hw; congruence|].
    eauto.
  - intros j u Hj Hp. busy_cases Hj Hlt Hnew; [cbn in Hp; congruence|].
    destruct (Hff j u Hj Hp) as [Hv Hf]. split; [exact Hv|].
    rewrite map_app, in_app_iff. cbn [map fst In]. intros [Hin | [Heq | []]].
    + exact (Hf Hin).
    + match goal with H : j <> i |- _ => apply H end.
      apply (Hf1 j i u t Hj Hl Hp Hpc). symmetry. exact Heq.
  - intros j k u w Hj Hk Hu Hw Heq.
    busy_cases Hj Hlt Hnew; [cbn in Hu; congruence|].
    busy_cases Hk Hlt Hnew; [cbn in Hw; congruence|].
    eauto.
  - intros url. rewrite map_app, in_app_iff. cbn [map fst In].
    intros [Hin | [<- | []]]; [apply Hfv, Hin | exact Hvis].
  - rewrite map_app. cbn [map fst]. apply NoDup_app. split; [exact Hfo|]. split.
    + intros url Hin Hin'. apply list_elem_of_In in Hin.
      apply list_elem_of_singleton in Hin'. subst url. exact (Hfresh Hin).
    + apply NoDup_singleton.
Qed.

Lemma exclusive_inv_start : exclusive_inv (crawl_start self).
Proof.
  constructor; cbn [crawl_start threads visited_urls fetch_log map].
  - intros [|j] u Hj Hin; [injection Hj as <-|]; discriminate.
  - intros [|j] k u w Hj Hk Hu; [injection Hj as <-|]; discriminate.
  - intros [|j] u Hj Hp; [injection Hj as <-|]; discriminate.
  - intros [|j] k u w Hj Hk Hu; [injection Hj as <-|]; discriminate.
  - intros url [].
  - constructor.
Qed.

Lemma exclusive_inv_reachable (st : State) :
  reachable_exclusive st -> exclusive_inv st.
Proof.
  induction 1 as [|st st' i _ IH Hstep]; [apply exclusive_inv_start|].
  destruct (step_exclusive_step i st st' Hstep) as [Hs Hfree].
  destruct (step_effect i st st' Hs) as (t & p & v & l & new & Hl & He & ->).
  inversion He as [Hpc|Hpc|Hpc|Hpc|Hpc|? Hpc|Hpc|Hpc|? Hpc|? ? ? Hpc|? ? ? Hpc|? Hpc];
    subst;
    try (apply exclusive_inv_frame;
         [exact Hl | reflexivity | discriminate | | exact IH];
         intros w Hw; cbn in Hw; intuition (subst; reflexivity)).
  - apply exclusive_inv_enter;
      [exact Hl | exact Hpc | exact (Hfree t Hl Hpc) | assumption | exact IH].
  - apply exclusive_inv_robots; assumption.
  - apply exclusive_inv_add; assumption.
  - apply exclusive_inv_fetch; assumption.
Qed.

(** In the runs that keep lines 68-75 of a call together, no URL is
    fetched twice. *)
Theorem no_duplicate_fetch_when_exclusive (st : State) :
  reachable_exclusive st -> NoDup (map fst (fetch_log st)).
Proof. intros Hreach. apply (exclusive_inv_reachable st Hreach). Qed.

(** *** A finished call holds nobody back *)









(** *** Link extraction *)

(** One turn of the loop: the [href] is resolved, the resolved URL is
    tested, and it is appended when the test accepts it. *)
Lemma extract_body_ok (current_url : string) (links : list string)
  (href : string) (links' : list string) :
  extract_body W self current_url links href = Py.Ok links' ->
  exists absolute_url valid,
    Url.urljoin (url_lib W) current_url href = Py.Ok absolute_url
    /\ is_valid_url W self absolute_url = Py.Ok valid
    /\ links' = (links ++ if valid then [absolute_url] else [])%list.
Proof.
  unfold extract_body.
  destruct (Url.urljoin (url_lib W) current_url href) as [a|e] eqn:Hjoin;
    [|discriminate].
  cbn [Py.bind].
  destruct (is_valid_url W self a) as [valid|e] eqn:Hvalid; [|discriminate].
  cbn [Py.bind]. intros [= <-]. exists a, valid.
  split; [reflexivity|]. split; [exact Hvalid|].
  destruct valid; [reflexivity | rewrite app_nil_r; reflexivity].
Qed.

(** When the loop ends without an exception, every [href] was resolved
    and every resolved URL tested; what is returned are the resolved URLs
    the test accepted, in the order of the anchors. *)
Lemma extract_loop_ok (current_url : string) (hrefs links result : list string) :
  extract_loop W self current_url links hrefs = Py.Ok result ->
  exists resolved,
    Forall2 (fun href a => Url.urljoin (url_lib W) current_url href = Py.Ok a)
      hrefs resolved
    /\ Forall (fun a => exists valid, is_valid_url W self a = Py.Ok valid) resolved
    /\ result = (links ++ List.filter (Spec.accepted W self) resolved)%list.
Proof.
  revert links. induction hrefs as [|href hrefs IH]; intros links Hloop.
  - injection Hloop as <-. exists []. split; [constructor|]. split; [constructor|].
    cbn. rewrite app_nil_r. reflexivity.
  - cbn [extract_loop] in Hloop.
    destruct (extract_body W self current_url links href) as [links'|e] eqn:Hbody;
      [|discriminate].
    cbn [Py.bind] in Hloop.
    destruct (extract_body_ok _ _ _ _ Hbody) as (a & valid & Hjoin & Hvalid & ->).
    destruct (IH _ Hloop) as (resolved & Hres & Htested & ->).
    exists (a :: resolved).
    split; [constructor; assumption|].
    split; [constructor; [eauto | assumption]|].
    cbn [List.filter]. unfold Spec.accepted at 2. rewrite Hvalid.
    destruct valid; rewrite <- app_assoc; reflexivity.
Qed.

(** The first [href] that cannot be resolved, or whose resolved URL cannot
    be tested, ends the loop with its exception. *)
Lemma extract_loop_raises (current_url : string) (hrefs links : list string)
  (e : string) :
  extract_loop W self current_url links hrefs = Py.Raise e ->
  exists href,
    In href hrefs
    /\ (Url.urljoin (url_lib W) current_url href = Py.Raise e
        \/ exists a, Url.urljoin (url_lib W) current_url href = Py.Ok a
                     /\ is_valid_url W self a = Py.Raise e).
Proof.
  revert links. induction hrefs as [|href hrefs IH]; intros links Hloop;
    [discriminate|].
  cbn [extract_loop] in Hloop.
  destruct (extract_body W self current_url links href) as [links'|e'] eqn:Hbody;
    cbn [Py.bind] in Hloop.
  - destruct (IH _ Hloop) as (h & Hin & Hh). exists h. split; [right; exact Hin|].
    exact Hh.
  - injection Hloop as ->. exists href. split; [left; reflexivity|].
    unfold extract_body in Hbody.
    destruct (Url.urljoin (url_lib W) current_url href) as [a|e1];
      cbn [Py.bind] in Hbody; [|left; congruence].
    right. exists a. split; [reflexivity|].
    destruct (is_valid_url W self a); cbn [Py.bind] in Hbody; congruence.
Qed.

(** [extract_links] keeps a resolved link exactly when [is_valid_url]
    accepts it; it looks at no [href] before resolving it. *)
Lemma extract_links_filter (soup : Soup) (current_url : string)
  (links : list string) :
  extract_links W self soup current_url = Py.Ok links ->
  exists resolved,
    Forall2 (fun href a => Url.urljoin (url_lib W) current_url href = Py.Ok a)
      (find_all_a_href W soup) resolved
    /\ links = List.filter (Spec.accepted W self) resolved.
Proof.
  unfold extract_links. intros Hloop.
  destruct (extract_loop_ok _ _ _ _ Hloop) as (resolved & Hres & _ & ->).
  exists resolved. split; [exact Hres | reflexivity].
Qed.

(** C5. On the page [https://ex.com/blog/post] of a crawl of [ex.com],
    [../about] resolves to [https://ex.com/about] and
    [https://other.com/x] is left out by the domain filter, but the
    fragment [#top] and the empty [href] are not dropped: they resolve to
    the page's own URL, with and without the fragment, and both are kept. *)
Theorem fragment_and_empty_href_kept (soup : Soup) :
  find_all_a_href W soup = ["../about"; "#top"; "https://other.com/x"; ""] ->
  Url.urlparse_netloc (url_lib W) (base_url self) = Py.Ok "ex.com" ->
  validators_url W "https://ex.com/about" = true ->
  validators_url W "https://ex.com/blog/post#top" = true ->
  validators_url W "https://ex.com/blog/post" = true ->
  extract_links W self soup "https://ex.com/blog/post"
  = Py.Ok ["https://ex.com/about"; "https://ex.com/blog/post#top";
           "https://ex.com/blog/post"].
Proof.
  intros Hsoup Hbase Habout Htop Hself.
  unfold extract_links. rewrite Hsoup.
  assert (Hj1 : Url.urljoin (url_lib W) "https://ex.com/blog/post" "../about"
                = Py.Ok "https://ex.com/about") by (vm_compute; reflexivity).
  assert (Hj2 : Url.urljoin (url_lib W) "https://ex.com/blog/post" "#top"
                = Py.Ok "https://ex.com/blog/post#top") by (vm_compute; reflexivity).
  assert (Hj3 : Url.urljoin (url_lib W) "https://ex.com/blog/post"
                  "https://other.com/x"
                = Py.Ok "https://other.com/x") by (vm_compute; reflexivity).
  assert (Hj4 : Url.urljoin (url_lib W) "https://ex.com/blog/post" ""
                = Py.Ok "https://ex.com/blog/post") by (vm_compute; reflexivity).
  assert (Hn1 : Url.urlparse_netloc (url_lib W) "https://ex.com/about"
                = Py.Ok "ex.com") by (vm_compute; reflexivity).
  assert (Hn2 : Url.urlparse_netloc (url_lib W) "https://ex.com/blog/post#top"
                = Py.Ok "ex.com") by (vm_compute; reflexivity).
  assert (Hn3 : Url.urlparse_netloc (url_lib W) "https://other.com/x"
                = Py.Ok "other.com") by (vm_compute; reflexivity).
  assert (Hn4 : Url.urlparse_netloc (url_lib W) "https://ex.com/blog/post"
                = Py.Ok "ex.com") by (vm_compute; reflexivity).
  assert (Hother : is_valid_url W self "https://other.com/x" = Py.Ok false).
  { unfold is_valid_url. rewrite Hn3, Hbase.
    destruct (validators_url W "https://other.com/x"); reflexivity. }
  cbn [extract_loop]. unfold extract_body.
  rewrite Hj1, Hj2, Hj3, Hj4. cbn [Py.bind]. rewrite Hother.
  unfold is_valid_url. rewrite Habout, Htop, Hself, Hn1, Hn2, Hn4, Hbase.
  reflexivity.
Qed.

End CrawlerFacts.

(** ** The crawler on the worked sites *)

Lemma state_after_reachable (site : string -> Py.result (SEOCrawler.Response * Q))
  (schedule : list nat) :
  SEOCrawler.reachable (Examples.world site) Examples.crawler
    (Examples.state_after site schedule).
Proof.
  unfold Examples.state_after.
  destruct (SEOCrawler.run _ _ schedule _) as [st|] eqn:Hrun.
  - apply (run_reachable _ _ _ _ schedule st Hrun).
  - constructor.
Qed.

(** On the chain of three pages crawled with depth 1, the task on [/b] has
    depth 2: it returns the empty dict and [/b] is not fetched. *)
Lemma chain_stops_at_depth_1 :
  let st := Examples.state_after Examples.chain Examples.down_the_chain in
  let t := SEOCrawler.mkThread "https://ex.com/b" 2 (Some 1%nat) SEOCrawler.L68 in
  SEOCrawler.threads st !! 2%nat = Some t
  /\ (SEOCrawler.t_pc t = SEOCrawler.Queued \/ SEOCrawler.t_pc t = SEOCrawler.L68
      \/ SEOCrawler.t_pc t = SEOCrawler.Returned [])
  /\ (SEOCrawler.t_pc t = SEOCrawler.L68 ->
      exists st',
        SEOCrawler.step (Examples.world Examples.chain) Examples.crawler 2 st
        = Some st'
        /\ SEOCrawler.threads st'
           = <[2%nat := SEOCrawler.set_pc t (SEOCrawler.Returned [])]>
               (SEOCrawler.threads st)
        /\ SEOCrawler.visited_urls st' = SEOCrawler.visited_urls st
        /\ SEOCrawler.fetch_log st' = SEOCrawler.fetch_log st)
  /\ (forall url, ~ In (url, SEOCrawler.t_depth t) (SEOCrawler.fetch_log st)).
Proof.
  intros st t.
  assert (Hl : SEOCrawler.threads st !! 2%nat = Some t) by (vm_compute; reflexivity).
  split; [exact Hl|].
  apply (beyond_depth_no_record unit (list string) (Examples.world Examples.chain)
           Examples.crawler st 2 t).
  - apply state_after_reachable.
  - exact Hl.
  - reflexivity.
Defined.



(** A page that is down does not stop the crawl: its sibling is fetched and
    analyzed, and the home page's call returns its record. *)
Example sibling_of_failed_page_is_crawled :
  let st := Examples.state_after Examples.one_down
              [0; 0; 0; 0; 0; 0; 0; 1; 1; 1; 1; 1; 2; 2; 2; 2; 2; 2; 2; 0]%nat in
  map SEOCrawler.t_pc (SEOCrawler.threads st)
  = [SEOCrawler.Returned
       (SEOCrawler.page_record "https://ex.com/" 0 Examples.seo_dict
          Examples.performance_dict Examples.content_dict
          ["https://ex.com/down"; "https://ex.com/up"]);
     SEOCrawler.Returned
       (SEOCrawler.error_record "https://ex.com/down" "Connection refused");
     SEOCrawler.Returned
       (SEOCrawler.page_record "https://ex.com/up" 1 Examples.seo_dict
          Examples.performance_dict Examples.content_dict [])]
  /\ SEOCrawler.fetch_log st
     = [("https://ex.com/", 0%Z); ("https://ex.com/down", 1%Z);
        ("https://ex.com/up", 1%Z)].
Proof. vm_compute. split; reflexivity. Qed.

(** On the chain, the home page's call has recursed into [/a], whose call
    has returned its record; that record is not under the home page's. *)
Lemma chain_child_record_dropped :
  let st := Examples.state_after Examples.chain Examples.whole_chain in
  exists root child r c,
    SEOCrawler.threads st !! 0%nat = Some root
    /\ SEOCrawler.t_pc root = SEOCrawler.Returned r
    /\ SEOCrawler.threads st !! 1%nat = Some child
    /\ SEOCrawler.t_parent child = Some 0%nat
    /\ SEOCrawler.t_pc child = SEOCrawler.Returned c
    /\ SEOCrawler.is_page_record c = true
    /\ SEOCrawler.records_below r = [].
Proof.
  intros st.
  eexists. eexists. eexists. eexists.
  split; [vm_compute; reflexivity|].
  split; [reflexivity|].
  split; [vm_compute; reflexivity|].
  split; [reflexivity|].
  split; [reflexivity|].
  split; [reflexivity|].
  eapply (child_records_not_attached unit (list string)
            (Examples.world Examples.chain) Examples.crawler st 0).
  - apply state_after_reachable.
  - vm_compute. reflexivity.
  - reflexivity.
  - intros soup url seo [= <-]. reflexivity.
  - intros load_time content perf [= <-]. reflexivity.
  - intros soup cm [= <-]. reflexivity.
Defined.

(** C1. A URL can be fetched twice in one crawl. The home page links twice
    to [/a]; both tasks are submitted before either has run; with the two
    workers running side by side, each passes the guard of line 68 before
    the other reaches line 75, and [get_page_content] is called on
    [https://ex.com/a] by both. *)
Theorem same_url_fetched_twice :
  let W := Examples.world Examples.twice_linked in
  exists st,
    SEOCrawler.reachable W Examples.crawler st
    /\ SEOCrawler.run W Examples.crawler Examples.side_by_side
         (SEOCrawler.crawl_start Examples.crawler) = Some st
    /\ is_Some (SEOCrawler.crawl_result st)
    /\ SEOCrawler.fetch_log st
       = [("https://ex.com/", 0%Z); ("https://ex.com/a", 1%Z);
          ("https://ex.com/a", 1%Z)]
    /\ SEOCrawler.fetch_count "https://ex.com/a" st = 2%nat.
Proof.
  intros W.
  exists (Examples.state_after Examples.twice_linked Examples.side_by_side).
  split; [apply state_after_reachable|].
  split; [vm_compute; reflexivity|].
  split; [vm_compute; eexists; reflexivity|].
  split; vm_compute; reflexivity.
Qed.

(** The same crawl with the first worker done before the second starts
    fetches [/a] once: the second call finds it in the visited set. *)
Example same_url_fetched_once_in_turn :
  let st := Examples.state_after Examples.twice_linked Examples.one_after_the_other in
  SEOCrawler.fetch_count "https://ex.com/a" st = 1%nat
  /\ is_Some (SEOCrawler.crawl_result st).
Proof. vm_compute. split; [reflexivity | eexists; reflexivity]. Qed.

(** The crawler of [https://ex.com/], with a validator that accepts the
    http and https URLs, on the anchors of [https://ex.com/blog/post]. *)
Lemma blog_post_links_keep_fragment :
  SEOCrawler.extract_links (Examples.world Examples.all_down) Examples.crawler
    ["../about"; "#top"; "https://other.com/x"; ""] "https://ex.com/blog/post"
  = Py.Ok ["https://ex.com/about"; "https://ex.com/blog/post#top";
           "https://ex.com/blog/post"].
Proof.
  apply (fragment_and_empty_href_kept unit (list string)
           (Examples.world Examples.all_down) Examples.crawler);
    reflexivity.
Defined.

(* ================================================================== *)
(** * Part III: further statements, function by function *)
(* ================================================================== *)

(** ** The performance analyzer *)

Lemma score_values (t : Q) :
  let s := PerformanceAnalyzer._calculate_performance_score t in
  ((t <= 1.0)%Q /\ s = 1.0%Q) \/ ((1.0 < t <= 2.5)%Q /\ s = 0.8%Q)
  \/ ((2.5 < t <= 4.0)%Q /\ s = 0.6%Q) \/ ((4.0 < t <= 6.0)%Q /\ s = 0.4%Q)
  \/ ((6.0 < t)%Q /\ s = 0.2%Q).
Proof.
  cbn zeta. unfold PerformanceAnalyzer._calculate_performance_score.
  destruct (Py.leb t 1.0) eqn:E1; [apply leb_le in E1; auto | apply leb_gt in E1].
  destruct (Py.leb t 2.5) eqn:E2; [apply leb_le in E2; auto | apply leb_gt in E2].
  destruct (Py.leb t 4.0) eqn:E3; [apply leb_le in E3; auto 6 | apply leb_gt in E3].
  destruct (Py.leb t 6.0) eqn:E4; [apply leb_le in E4; auto 8 | apply leb_gt in E4].
  auto 10.
Qed.

(** X1. The performance score never rises with the load time and stays
    between 0.2 and 1.0; a load time that is acceptable (under 3.0 s)
    scores at least 0.6, and a score of 0.8 or more means the load time is
    acceptable. *)
Theorem slower_never_scores_higher (t1 t2 : Q) :
  (t1 <= t2)%Q ->
  let r1 := PerformanceAnalyzer.analyze_load_time t1 in
  let r2 := PerformanceAnalyzer.analyze_load_time t2 in
  (PerformanceAnalyzer.performance_score r2
   <= PerformanceAnalyzer.performance_score r1)%Q
  /\ (0.2 <= PerformanceAnalyzer.performance_score r1 <= 1.0)%Q
  /\ (PerformanceAnalyzer.load_time_acceptable r1 = true ->
      (0.6 <= PerformanceAnalyzer.performance_score r1)%Q)
  /\ ((0.8 <= PerformanceAnalyzer.performance_score r1)%Q ->
      PerformanceAnalyzer.load_time_acceptable r1 = true)
  /\ (PerformanceAnalyzer.load_time_acceptable r2 = true ->
      PerformanceAnalyzer.load_time_acceptable r1 = true).
Proof.
  intros Hle. cbn zeta.
  unfold PerformanceAnalyzer.analyze_load_time;
    cbn [PerformanceAnalyzer.performance_score
         PerformanceAnalyzer.load_time_acceptable].
  rewrite !ltb_lt.
  pose proof (score_values t1) as H1. pose proof (score_values t2) as H2.
  cbn zeta in H1, H2.
  destruct H1 as [[? ->] | [[? ->] | [[? ->] | [[? ->] | [? ->]]]]];
    destruct H2 as [[? ->] | [[? ->] | [[? ->] | [[? ->] | [? ->]]]]];
    repeat split; intros; lra.
Qed.

Lemma two_seconds_before_five :
  let r1 := PerformanceAnalyzer.analyze_load_time 2.0 in
  let r2 := PerformanceAnalyzer.analyze_load_time 5.0 in
  (PerformanceAnalyzer.performance_score r2
   <= PerformanceAnalyzer.performance_score r1)%Q
  /\ (0.2 <= PerformanceAnalyzer.performance_score r1 <= 1.0)%Q
  /\ (PerformanceAnalyzer.load_time_acceptable r1 = true ->
      (0.6 <= PerformanceAnalyzer.performance_score r1)%Q)
  /\ ((0.8 <= PerformanceAnalyzer.performance_score r1)%Q ->
      PerformanceAnalyzer.load_time_acceptable r1 = true)
  /\ (PerformanceAnalyzer.load_time_acceptable r2 = true ->
      PerformanceAnalyzer.load_time_acceptable r1 = true).
Proof.
  apply (slower_never_scores_higher 2.0 5.0). unfold Qle. simpl. lia.
Defined.

Lemma sum_from (sizes : list Z) (acc : Z) :
  fold_left Z.add sizes acc = (acc + PerformanceAnalyzer.sum sizes)%Z.
Proof.
  unfold PerformanceAnalyzer.sum. revert acc.
  induction sizes as [|x sizes IH]; intros acc; cbn [fold_left]; [lia|].
  rewrite (IH (acc + x)%Z), (IH (0 + x)%Z). lia.
Qed.

Lemma sum_constant {A : Type} (k : Z) (l : list A) :
  PerformanceAnalyzer.sum (map (fun _ => k) l) = (k * Z.of_nat (length l))%Z.
Proof.
  induction l as [|a l IH]; [cbn; lia|].
  unfold PerformanceAnalyzer.sum in *. cbn [map fold_left length].
  rewrite sum_from. unfold PerformanceAnalyzer.sum. rewrite IH. lia.
Qed.

(** X2. The estimated total page size is the HTML size in bytes plus
    100 KiB per image, 50 KiB per external script and 30 KiB per
    stylesheet; it is never below the HTML size, and a page with more than
    30 images is never within the 3 MiB total. *)
Theorem estimated_total_size_formula (Soup Tag : Type)
  (BeautifulSoup : string -> Soup)
  (find_all_img find_all_script_src find_all_stylesheet : Soup -> list Tag)
  (content : string) :
  let soup := BeautifulSoup content in
  let r := PerformanceAnalyzer.analyze_page_size BeautifulSoup find_all_img
             find_all_script_src find_all_stylesheet content in
  let total := PerformanceAnalyzer.total_size_bytes
                 (PerformanceAnalyzer.estimated_total_size r) in
  total = (PerformanceAnalyzer.html_size_bytes r
           + 102400 * Z.of_nat (length (find_all_img soup))
           + 51200 * Z.of_nat (length (find_all_script_src soup))
           + 30720 * Z.of_nat (length (find_all_stylesheet soup)))%Z
  /\ PerformanceAnalyzer.html_size_bytes r = Z.of_nat (String.length content)
  /\ (PerformanceAnalyzer.html_size_bytes r <= total)%Z
  /\ (PerformanceAnalyzer.total_size_acceptable
        (PerformanceAnalyzer.estimated_total_size r) = true
      <-> (total <= 3145728)%Z)
  /\ ((30 < length (find_all_img soup))%nat ->
      PerformanceAnalyzer.total_size_acceptable
        (PerformanceAnalyzer.estimated_total_size r) = false).
Proof.
  cbn zeta.
  unfold PerformanceAnalyzer.analyze_page_size,
    PerformanceAnalyzer._estimate_total_page_size.
  cbn [PerformanceAnalyzer.total_size_bytes PerformanceAnalyzer.html_size_bytes
       PerformanceAnalyzer.estimated_total_size
       PerformanceAnalyzer.total_size_acceptable].
  set (soup := BeautifulSoup content).
  assert (Htotal :
    PerformanceAnalyzer.sum
      (map (fun kv : string * list Z => PerformanceAnalyzer.sum (snd kv))
         [("images", PerformanceAnalyzer._estimate_image_sizes find_all_img soup);
          ("scripts", PerformanceAnalyzer._estimate_script_sizes find_all_script_src soup);
          ("styles", PerformanceAnalyzer._estimate_style_sizes find_all_stylesheet soup)])
    = (102400 * Z.of_nat (length (find_all_img soup))
       + 51200 * Z.of_nat (length (find_all_script_src soup))
       + 30720 * Z.of_nat (length (find_all_stylesheet soup)))%Z).
  { cbn [map snd].
    unfold PerformanceAnalyzer._estimate_image_sizes,
      PerformanceAnalyzer._estimate_script_sizes,
      PerformanceAnalyzer._estimate_style_sizes.
    rewrite !sum_constant. unfold PerformanceAnalyzer.sum. cbn [fold_left]. lia. }
  rewrite Htotal. unfold PerformanceAnalyzer.encoded_length,
    PerformanceAnalyzer.size_threshold_total.
  rewrite Z.leb_le.
  split; [lia|]. split; [reflexivity|]. split; [lia|]. split; [lia|].
  intros Himg. apply Z.leb_gt. lia.
Qed.

(** ** The content analyzer: syllables and readability *)

Lemma lower_length (s : string) : String.length (Py.lower s) = String.length s.
Proof. induction s as [|c s IH]; cbn; congruence. Qed.

Lemma count_groups_bounds (rest : string) (prev : ascii) (count : Z) :
  (count <= ContentAnalyzer.count_groups prev rest count
   <= count + Z.of_nat (String.length rest))%Z.
Proof.
  revert prev count. induction rest as [|c rest IH]; intros prev count.
  - cbn. lia.
  - cbn [ContentAnalyzer.count_groups String.length].
    match goal with |- context [ContentAnalyzer.count_groups c rest ?k] =>
      specialize (IH c k) end.
    destruct (Py.char_in c ContentAnalyzer.vowels
              && negb (Py.char_in prev ContentAnalyzer.vowels)); lia.
Qed.

(** A word whose last letter is a vowel has a vowel group that the loop or
    the test of the first letter counts. *)
Lemma count_groups_last_vowel (rest : string) (prev : ascii) (count : Z) :
  Py.char_in (Spec.last_char prev rest) ContentAnalyzer.vowels = true ->
  (count + (if Py.char_in prev ContentAnalyzer.vowels then 0 else 1)
   <= ContentAnalyzer.count_groups prev rest count)%Z.
Proof.
  revert prev count. induction rest as [|c rest IH]; intros prev count Hlast.
  - cbn [Spec.last_char] in Hlast. cbn [ContentAnalyzer.count_groups].
    rewrite Hlast. lia.
  - cbn [Spec.last_char] in Hlast.
    cbn [ContentAnalyzer.count_groups].
    match goal with |- context [ContentAnalyzer.count_groups c rest ?k] =>
      specialize (IH c k Hlast) end.
    destruct (Py.char_in c ContentAnalyzer.vowels),
             (Py.char_in prev ContentAnalyzer.vowels); cbn [andb negb] in *; lia.
Qed.

Lemma endswith_e_last (rest : string) (prev : ascii) :
  Py.endswith (String prev rest) "e" = true ->
  Spec.last_char prev rest = "e"%char.
Proof.
  revert prev. induction rest as [|c rest IH]; intros prev H.
  - cbn [Py.endswith] in H. rewrite orb_false_r in H.
    apply String.eqb_eq in H. cbn. congruence.
  - cbn [Spec.last_char]. apply IH.
    cbn [Py.endswith] in H. apply orb_true_iff in H as [H | H].
    + apply String.eqb_eq in H. discriminate.
    + exact H.
Qed.

Lemma count_syllables_nonempty (a : ascii) (word : string) :
  exists n, ContentAnalyzer._count_syllables (String a word) = Py.Ok n
            /\ (1 <= n <= Z.of_nat (String.length (String a word)))%Z.
Proof.
  unfold ContentAnalyzer._count_syllables.
  rewrite <- (lower_length (String a word)).
  cbn [Py.lower]. set (c0 := Py.lower_char a). set (rest := Py.lower word).
  eexists. split; [reflexivity|].
  cbn [String.length].
  pose proof (count_groups_bounds rest c0
                (if Py.char_in c0 ContentAnalyzer.vowels then 1 else 0)%Z) as Hb.
  destruct (Py.endswith (String c0 rest) "e") eqn:He.
  + apply endswith_e_last in He.
    pose proof (count_groups_last_vowel rest c0
                  (if Py.char_in c0 ContentAnalyzer.vowels then 1 else 0)%Z) as Hl.
    rewrite He in Hl. specialize (Hl eq_refl).
    destruct (Py.char_in c0 ContentAnalyzer.vowels);
      match goal with |- context [(?k =? 0)%Z] => destruct (Z.eqb_spec k 0) end;
      lia.
  + destruct (Py.char_in c0 ContentAnalyzer.vowels);
      match goal with |- context [(?k =? 0)%Z] => destruct (Z.eqb_spec k 0) end;
      lia.
Qed.

(** X3. [_count_syllables] raises exactly on the empty word; for every
    other word it returns a count of at least one and at most the number
    of characters, the [count -= 1] for a final e included. *)
Theorem count_syllables_at_least_one (word : string) :
  (word = "" /\ Py.raises (ContentAnalyzer._count_syllables word))
  \/ (word <> ""
      /\ exists n, ContentAnalyzer._count_syllables word = Py.Ok n
                   /\ (1 <= n <= Z.of_nat (String.length word))%Z).
Proof.
  destruct word as [|a word].
  - left. split; [reflexivity|]. eexists. reflexivity.
  - right. split; [discriminate|]. apply count_syllables_nonempty.
Qed.

Lemma findall_words_nonempty (text cur : string) :
  Forall (fun w => w <> "") (Py.findall_words_from cur text).
Proof.
  revert cur. induction text as [|c text IH]; intros cur.
  - cbn. destruct cur; constructor; [discriminate | constructor].
  - cbn [Py.findall_words_from]. destruct (Py.is_word_char c); [apply IH|].
    destruct cur; [apply IH|]. constructor; [discriminate | apply IH].
Qed.

Lemma sum_syllables_nonempty (words : list string) :
  Forall (fun w => w <> "") words ->
  exists n, ContentAnalyzer.sum_syllables words = Py.Ok n
            /\ (Z.of_nat (length words) <= n)%Z.
Proof.
  induction 1 as [|w words Hw _ [m [IH Hm]]].
  - exists 0%Z. split; [reflexivity | cbn; lia].
  - destruct w as [|a w]; [contradiction|].
    destruct (count_syllables_nonempty a w) as [n [Hn Hb]].
    exists (n + m)%Z. cbn [ContentAnalyzer.sum_syllables].
    rewrite Hn. cbn [Py.bind]. rewrite IH. cbn [Py.bind length].
    split; [reflexivity | lia].
Qed.

Lemma split_terminators_nonempty (text cur : string) (in_run : bool) :
  Py.split_terminators_from cur in_run text <> [].
Proof.
  revert cur in_run. induction text as [|c text IH]; intros cur in_run.
  - discriminate.
  - cbn [Py.split_terminators_from].
    destruct (Py.is_terminator c); [destruct in_run|]; try apply IH; discriminate.
Qed.

(** [round] gives equal results on equal rationals, whatever the fractions
    that denote them. *)
Lemma round2_eq (x y : Q) : (x == y)%Q -> Py.round2 x = Py.round2 y.
Proof.
  destruct x as [a b], y as [c d]. unfold Qeq. cbn [Qnum Qden]. intros Heq.
  unfold Py.round2. cbn [Qnum Qden].
  assert (Hq : (a * 100 / Z.pos b = c * 100 / Z.pos d)%Z).
  { rewrite <- (Z.div_mul_cancel_r (a * 100) (Z.pos b) (Z.pos d)) by lia.
    rewrite <- (Z.div_mul_cancel_r (c * 100) (Z.pos d) (Z.pos b)) by lia.
    f_equal; lia. }
  assert (Hr : ((a * 100) mod Z.pos b * Z.pos d
                = (c * 100) mod Z.pos d * Z.pos b)%Z).
  { rewrite <- !Z.mul_mod_distr_r by lia. f_equal; lia. }
  rewrite Hq.
  set (r1 := ((a * 100) mod Z.pos b)%Z) in *.
  set (r2 := ((c * 100) mod Z.pos d)%Z) in *.
  assert (Hc : (2 * r1 ?= Z.pos b)%Z = (2 * r2 ?= Z.pos d)%Z).
  { destruct (Z.compare_spec (2 * r2) (Z.pos d)) as [E | E | E].
    - apply Z.compare_eq_iff. nia.
    - rewrite Z.compare_lt_iff. nia.
    - rewrite Z.compare_gt_iff. nia. }
  rewrite Hc. reflexivity.
Qed.

Lemma leb_eq (x y y' : Q) : (y == y')%Q -> Py.leb x y = Py.leb x y'.
Proof. intros E. unfold Py.leb. rewrite E. reflexivity. Qed.

Lemma readability_level_eq (x y : Q) :
  (x == y)%Q ->
  ContentAnalyzer._get_readability_level x
  = ContentAnalyzer._get_readability_level y.
Proof.
  intros E. unfold ContentAnalyzer._get_readability_level.
  rewrite !(leb_eq _ x y E). reflexivity.
Qed.

(** X4. [analyze_readability] returns for every text: the regular
    expression hands [_count_syllables] no empty word, and the list of
    sentences is never empty. A text without a word gets the score 206.84
    and the level Very Easy; a text with a word scores at most 122.24. *)
Theorem readability_of_every_text (text : string) :
  exists r,
    ContentAnalyzer.analyze_readability text = Py.Ok r
    /\ ContentAnalyzer._split_into_sentences text <> []
    /\ (ContentAnalyzer._split_into_words text = [] ->
        (ContentAnalyzer.flesch_reading_ease r == 206.84)%Q
        /\ (ContentAnalyzer.avg_sentence_length r == 0)%Q
        /\ (ContentAnalyzer.avg_syllables_per_word r == 0)%Q
        /\ ContentAnalyzer.readability_level r = "Very Easy")
    /\ (ContentAnalyzer._split_into_words text <> [] ->
        (ContentAnalyzer.flesch_reading_ease r <= 122.24)%Q).
Proof.
  unfold ContentAnalyzer.analyze_readability.
  pose proof (findall_words_nonempty text "") as Hwords.
  fold (Py.findall_words text) in Hwords.
  fold (ContentAnalyzer._split_into_words text) in Hwords.
  pose proof (split_terminators_nonempty text "" false) as Hsent.
  fold (Py.split_terminators text) in Hsent.
  fold (ContentAnalyzer._split_into_sentences text) in Hsent.
  destruct (sum_syllables_nonempty _ Hwords) as [n [Hn Hlen]].
  rewrite Hn. cbn [Py.bind]. eexists. split; [reflexivity|].
  split; [exact Hsent|].
  cbn [ContentAnalyzer.flesch_reading_ease ContentAnalyzer.avg_sentence_length
       ContentAnalyzer.avg_syllables_per_word ContentAnalyzer.readability_level].
  set (words := ContentAnalyzer._split_into_words text) in *.
  set (sentences := ContentAnalyzer._split_into_sentences text) in *.
  assert (Hs : (1 <= ContentAnalyzer.len sentences)%Q) by (apply len_pos; exact Hsent).
  split.
  - intros Hnil. rewrite Hnil in *.
    assert (Hasl : (ContentAnalyzer.avg_sentence_length_of [] sentences == 0)%Q).
    { unfold ContentAnalyzer.avg_sentence_length_of.
      destruct sentences; [reflexivity|].
      unfold ContentAnalyzer.len at 1. cbn [length Z.of_nat inject_Z].
      unfold Qdiv. apply Qmult_0_l. }
    assert (Hasw : (ContentAnalyzer.avg_syllables_per_word_of n [] == 0)%Q)
      by reflexivity.
    assert (Hf : (ContentAnalyzer.flesch
                    (ContentAnalyzer.avg_sentence_length_of [] sentences)
                    (ContentAnalyzer.avg_syllables_per_word_of n [])
                  == 206.835)%Q).
    { unfold ContentAnalyzer.flesch. rewrite Hasl, Hasw. lra. }
    rewrite (round2_eq _ _ Hf), (round2_eq _ _ Hasl), (round2_eq _ _ Hasw),
      (readability_level_eq _ _ Hf).
    repeat split; reflexivity.
  - intros Hne.
    assert (Hw : (1 <= ContentAnalyzer.len words)%Q) by (apply len_pos; exact Hne).
    assert (Hn' : (ContentAnalyzer.len words <= inject_Z n)%Q).
    { unfold ContentAnalyzer.len. rewrite <- Zle_Qle. exact Hlen. }
    assert (Hasl : (0 <= ContentAnalyzer.avg_sentence_length_of words sentences)%Q).
    { unfold ContentAnalyzer.avg_sentence_length_of.
      destruct sentences; [lra|]. apply Qle_shift_div_l; lra. }
    assert (Hasw : (1 <= ContentAnalyzer.avg_syllables_per_word_of n words)%Q).
    { unfold ContentAnalyzer.avg_syllables_per_word_of.
      destruct words; [congruence|]. apply Qle_shift_div_l; lra. }
    match goal with |- (Py.round2 ?x <= _)%Q =>
      pose proof (round2_close x) as Hr;
      assert (Hx : (x <= 122.235)%Q) by (unfold ContentAnalyzer.flesch; lra)
    end.
    lra.
Qed.

(** ** The content analyzer: keywords *)

Lemma counter_get_add (word w : string) (counter : list (string * Z)) :
  ContentAnalyzer.counter_get w (ContentAnalyzer.counter_add word counter)
  = (ContentAnalyzer.counter_get w counter + if String.eqb word w then 1 else 0)%Z.
Proof.
  induction counter as [|[k n] counter IH].
  - cbn. destruct (String.eqb word w); lia.
  - cbn [ContentAnalyzer.counter_add].
    destruct (String.eqb_spec k word) as [-> | Hk]; cbn [ContentAnalyzer.counter_get].
    + destruct (String.eqb word w); lia.
    + destruct (String.eqb_spec k w) as [-> | Hkw]; [|exact IH].
      destruct (String.eqb_spec word w); [congruence | lia].
Qed.

Lemma counter_get_fold (words : list string) (w : string)
  (counter : list (string * Z)) :
  ContentAnalyzer.counter_get w
    (fold_left (fun counter word => ContentAnalyzer.counter_add word counter)
       words counter)
  = (ContentAnalyzer.counter_get w counter + Spec.occurrences w words)%Z.
Proof.
  revert counter. induction words as [|x words IH]; intros counter.
  - unfold Spec.occurrences. cbn. lia.
  - cbn [fold_left]. rewrite IH, counter_get_add.
    unfold Spec.occurrences. cbn [List.filter].
    rewrite (String.eqb_sym w x).
    destruct (String.eqb x w); cbn [length]; lia.
Qed.

Lemma counter_add_keys (word : string) (counter : list (string * Z)) (k : string) :
  In k (map fst (ContentAnalyzer.counter_add word counter))
  <-> k = word \/ In k (map fst counter).
Proof.
  induction counter as [|[k' n] counter IH].
  - cbn. intuition congruence.
  - cbn [ContentAnalyzer.counter_add].
    destruct (String.eqb_spec k' word) as [-> | Hk]; cbn [map fst In].
    + intuition congruence.
    + rewrite IH. intuition congruence.
Qed.

Lemma counter_add_ok (word : string) (counter : list (string * Z)) :
  Spec.counter_ok counter -> Spec.counter_ok (ContentAnalyzer.counter_add word counter).
Proof.
  unfold Spec.counter_ok. induction counter as [|[k n] counter IH]; intros [Hnd Hpos].
  - cbn. split; [repeat constructor; intros [] | repeat constructor; cbn; lia].
  - cbn [ContentAnalyzer.counter_add].
    apply NoDup_cons_iff in Hnd as [Hk Hnd]. cbn [map fst] in Hk.
    apply Forall_cons_iff in Hpos as [Hn Hpos]. cbn [snd] in Hn.
    destruct (String.eqb_spec k word) as [-> | Hkw]; cbn [map fst].
    + split; [apply NoDup_cons_iff; split; assumption|].
      constructor; [cbn; lia | exact Hpos].
    + destruct (IH (conj Hnd Hpos)) as [Hnd' Hpos'].
      split; [|constructor; [cbn; lia | exact Hpos']].
      apply NoDup_cons_iff. split; [|exact Hnd'].
      rewrite counter_add_keys. intros [-> | Hin]; [congruence | contradiction].
Qed.

Lemma counter_fold_ok (words : list string) (counter : list (string * Z)) :
  Spec.counter_ok counter ->
  Spec.counter_ok
    (fold_left (fun counter word => ContentAnalyzer.counter_add word counter)
       words counter).
Proof.
  revert counter. induction words as [|x words IH]; intros counter Hok.
  - exact Hok.
  - cbn [fold_left]. apply IH, counter_add_ok, Hok.
Qed.

Lemma counter_get_in (counter : list (string * Z)) (k : string) (n : Z) :
  List.NoDup (map fst counter) -> In (k, n) counter -> ContentAnalyzer.counter_get k counter = n.
Proof.
  induction counter as [|[k' n'] counter IH]; intros Hnd Hin; [destruct Hin|].
  apply NoDup_cons_iff in Hnd as [Hk Hnd]. cbn [map fst] in Hk.
  cbn [ContentAnalyzer.counter_get]. destruct Hin as [E | Hin].
  - inversion E; subst. rewrite String.eqb_refl. reflexivity.
  - destruct (String.eqb_spec k' k) as [-> | Hne].
    + exfalso. apply Hk. apply in_map_iff. exists (k, n). auto.
    + apply IH; assumption.
Qed.

Lemma counter_get_missing (counter : list (string * Z)) (k : string) :
  ~ In k (map fst counter) -> ContentAnalyzer.counter_get k counter = 0%Z.
Proof.
  induction counter as [|[k' n'] counter IH]; intros Hk; [reflexivity|].
  cbn [ContentAnalyzer.counter_get]. cbn [map fst In] in Hk.
  destruct (String.eqb_spec k' k); [tauto|]. apply IH. tauto.
Qed.

(** What [Counter(words)] holds: each word of the list once, with the
    number of times it occurs. *)
Lemma Counter_spec (words : list string) :
  List.NoDup (map fst (ContentAnalyzer.Counter words))
  /\ (forall k n, In (k, n) (ContentAnalyzer.Counter words) ->
        n = Spec.occurrences k words /\ (1 <= n)%Z)
  /\ (forall k, (1 <= Spec.occurrences k words)%Z ->
        In (k, Spec.occurrences k words) (ContentAnalyzer.Counter words)).
Proof.
  unfold ContentAnalyzer.Counter.
  assert (Hok : Spec.counter_ok
    (fold_left (fun counter word => ContentAnalyzer.counter_add word counter)
       words [])).
  { apply counter_fold_ok. split; constructor. }
  destruct Hok as [Hnd Hpos].
  split; [exact Hnd|]. split.
  - intros k n Hin. split.
    + rewrite <- (counter_get_in _ k n Hnd Hin), counter_get_fold. cbn. lia.
    + rewrite List.Forall_forall in Hpos. exact (Hpos (k, n) Hin).
  - intros k Hk.
    destruct (in_dec string_dec k
      (map fst (fold_left (fun counter word => ContentAnalyzer.counter_add word counter)
         words []))) as [Hin | Hout].
    + apply in_map_iff in Hin as [[k' n] [E Hin]]. cbn in E. subst k'.
      rewrite <- (counter_get_in _ k n Hnd Hin) in Hin.
      rewrite counter_get_fold in Hin. cbn [ContentAnalyzer.counter_get] in Hin.
      rewrite Z.add_0_l in Hin. exact Hin.
    + apply counter_get_missing in Hout.
      rewrite counter_get_fold in Hout. cbn [ContentAnalyzer.counter_get] in Hout. lia.
Qed.

Lemma insert_by_count_perm (x : string * Z) (l : list (string * Z)) :
  Permutation (ContentAnalyzer.insert_by_count x l) (x :: l).
Proof.
  induction l as [|y l IH]; [reflexivity|].
  cbn [ContentAnalyzer.insert_by_count].
  destruct (snd x <? snd y)%Z; [|reflexivity].
  rewrite IH. apply perm_swap.
Qed.

Lemma sorted_by_count_perm (l : list (string * Z)) :
  Permutation (ContentAnalyzer.sorted_by_count l) l.
Proof.
  induction l as [|x l IH]; [reflexivity|].
  cbn [ContentAnalyzer.sorted_by_count fold_right].
  rewrite insert_by_count_perm. apply perm_skip, IH.
Qed.

Lemma insert_by_count_descending (x : string * Z) (l : list (string * Z)) :
  Spec.descending l -> Spec.descending (ContentAnalyzer.insert_by_count x l).
Proof.
  induction l as [|y l IH]; intros Hl.
  - cbn. split; [constructor | exact I].
  - cbn [ContentAnalyzer.insert_by_count].
    destruct Hl as [Hy Hl].
    destruct (Z.ltb_spec (snd x) (snd y)) as [Hlt | Hge].
    + split; [|apply IH, Hl].
      rewrite List.Forall_forall in *. intros z Hz.
      apply (Permutation_in _ (insert_by_count_perm x l)) in Hz.
      destruct Hz as [<- | Hz]; [lia | apply Hy, Hz].
    + split; [|split; assumption].
      constructor; [exact Hge|].
      rewrite List.Forall_forall in *. intros z Hz.
      specialize (Hy z Hz). lia.
Qed.

Lemma sorted_by_count_descending (l : list (string * Z)) :
  Spec.descending (ContentAnalyzer.sorted_by_count l).
Proof.
  induction l as [|x l IH]; [exact I|].
  apply insert_by_count_descending, IH.
Qed.

(** The first [n] items of a descending list are descending, and none of
    the items left out has a larger count than one of them. *)
Lemma take_descending (n : nat) (l : list (string * Z)) :
  Spec.descending l ->
  Spec.descending (take n l)
  /\ forall x y, In x (take n l) -> In y (drop n l) -> (snd y <= snd x)%Z.
Proof.
  revert l. induction n as [|n IH]; intros l Hl.
  - cbn. split; [exact I | intros x y []].
  - destruct l as [|a l]; [cbn; split; [exact I | intros x y []]|].
    destruct Hl as [Ha Hl]. destruct (IH l Hl) as [Hd Htop].
    rewrite List.Forall_forall in Ha.
    cbn [take drop]. split.
    + split; [|exact Hd].
      rewrite List.Forall_forall. intros z Hz. apply Ha.
      rewrite <- (take_drop n l). apply in_or_app. left. exact Hz.
    + intros x y [<- | Hx] Hy.
      * apply Ha. rewrite <- (take_drop n l). apply in_or_app. right. exact Hy.
      * apply Htop; assumption.
Qed.

Lemma occurrences_in (w : string) (words : list string) :
  (1 <= Spec.occurrences w words)%Z <-> In w words.
Proof.
  unfold Spec.occurrences. induction words as [|x words IH].
  - cbn. split; [lia | intros []].
  - cbn [List.filter In]. destruct (String.eqb_spec w x) as [-> | Hne].
    + cbn [length]. split; [auto | lia].
    + rewrite IH. split; [auto | intros [E | H]; [congruence | exact H]].
Qed.

Lemma keyword_words_not_stop (text w : string) :
  In w (ContentAnalyzer.keyword_words text) ->
  ContentAnalyzer.is_stop_word w = false.
Proof.
  unfold ContentAnalyzer.keyword_words. intros H.
  apply filter_In in H as [_ H]. apply negb_true_iff in H. exact H.
Qed.

Lemma densities_of_ok (top : list (string * Z)) (total : Z) :
  total <> 0%Z ->
  ContentAnalyzer.densities_of top total
  = Py.Ok (map (fun kv => (fst kv, (inject_Z (snd kv) / inject_Z total)%Q)) top).
Proof.
  intros Hne. induction top as [|[w n] top IH]; [reflexivity|].
  cbn [ContentAnalyzer.densities_of map fst snd]. unfold Py.true_div.
  destruct (Z.eqb_spec total 0); [contradiction|].
  cbn [Py.bind]. rewrite IH. reflexivity.
Qed.

Lemma most_common_nil (n : nat) : ContentAnalyzer.most_common n [] = [].
Proof. destruct n; reflexivity. Qed.

Lemma keyword_density_returns (text : string) :
  let top := ContentAnalyzer.most_common 10
               (ContentAnalyzer.Counter (ContentAnalyzer.keyword_words text)) in
  let total := Z.of_nat (length (ContentAnalyzer.keyword_words text)) in
  ContentAnalyzer.densities_of top total
  = Py.Ok (map (fun kv => (fst kv, (inject_Z (snd kv) / inject_Z total)%Q)) top).
Proof.
  cbn zeta. destruct (ContentAnalyzer.keyword_words text) as [|w words] eqn:E.
  - reflexivity.
  - apply densities_of_ok. cbn [length]. lia.
Qed.

Lemma top_keywords_in_counter (words : list string) (n : nat) (kv : string * Z) :
  In kv (ContentAnalyzer.most_common n (ContentAnalyzer.Counter words)) ->
  In kv (ContentAnalyzer.Counter words).
Proof.
  unfold ContentAnalyzer.most_common. intros H.
  apply (Permutation_in _ (sorted_by_count_perm _)).
  rewrite <- (take_drop n (ContentAnalyzer.sorted_by_count _)).
  apply in_or_app. left. exact H.
Qed.

(** X5. [analyze_keyword_density] returns for every text, the empty one
    included. Its [top_keywords] are at most ten distinct words, none of
    them a stop word, each with the number of times it occurs among the
    counted words of the text, the counts going down; a counted word that
    is left out occurs no more often than any of the ten. *)
Theorem top_keywords_are_most_frequent (text : string) :
  exists r,
    ContentAnalyzer.analyze_keyword_density text = Py.Ok r
    /\ (length (ContentAnalyzer.top_keywords r) <= 10)%nat
    /\ List.NoDup (map fst (ContentAnalyzer.top_keywords r))
    /\ Spec.descending (ContentAnalyzer.top_keywords r)
    /\ (forall w n, In (w, n) (ContentAnalyzer.top_keywords r) ->
          ContentAnalyzer.is_stop_word w = false
          /\ n = Spec.occurrences w (ContentAnalyzer.keyword_words text)
          /\ (1 <= n)%Z)
    /\ (forall w, In w (ContentAnalyzer.keyword_words text) ->
          ~ In w (map fst (ContentAnalyzer.top_keywords r)) ->
          length (ContentAnalyzer.top_keywords r) = 10%nat
          /\ forall w' n', In (w', n') (ContentAnalyzer.top_keywords r) ->
               (Spec.occurrences w (ContentAnalyzer.keyword_words text) <= n')%Z).
Proof.
  unfold ContentAnalyzer.analyze_keyword_density.
  rewrite keyword_density_returns. cbn [Py.bind].
  eexists. split; [reflexivity|]. cbn [ContentAnalyzer.top_keywords].
  set (words := ContentAnalyzer.keyword_words text).
  destruct (Counter_spec words) as [Hnd [Hcount Hall]].
  set (sorted := ContentAnalyzer.sorted_by_count (ContentAnalyzer.Counter words)).
  pose proof (sorted_by_count_perm (ContentAnalyzer.Counter words)) as Hperm.
  fold sorted in Hperm.
  destruct (take_descending 10 sorted (sorted_by_count_descending _)) as [Hdesc Htop].
  unfold ContentAnalyzer.most_common. fold sorted.
  split; [rewrite length_take; lia|].
  split.
  { assert (Hs : List.NoDup (map fst sorted)).
    { apply (Permutation_NoDup (l := map fst (ContentAnalyzer.Counter words)));
        [|exact Hnd].
      apply Permutation_map. symmetry. exact Hperm. }
    rewrite <- (take_drop 10 sorted), map_app in Hs.
    apply NoDup_app_remove_r in Hs. exact Hs. }
  split; [exact Hdesc|].
  split.
  - intros w n Hin.
    assert (Hc : In (w, n) (ContentAnalyzer.Counter words)).
    { apply (Permutation_in _ Hperm).
      rewrite <- (take_drop 10 sorted). apply in_or_app. left. exact Hin. }
    destruct (Hcount w n Hc) as [Hn Hpos].
    split; [|split; assumption].
    apply (keyword_words_not_stop text). apply occurrences_in.
    fold words. lia.
  - intros w Hw Hout.
    assert (Hc : In (w, Spec.occurrences w words) sorted).
    { apply (Permutation_in _ (Permutation_sym Hperm)).
      apply Hall. apply occurrences_in. exact Hw. }
    rewrite <- (take_drop 10 sorted) in Hc.
    apply in_app_or in Hc as [Hc | Hc].
    { exfalso. apply Hout. apply in_map_iff.
      exists (w, Spec.occurrences w words). split; [reflexivity | exact Hc]. }
    split.
    + rewrite length_take.
      assert (10 < length sorted \/ length sorted <= 10)%nat as [? | Hshort] by lia;
        [lia|].
      rewrite drop_ge in Hc by exact Hshort. destruct Hc.
    + intros w' n' Hin. exact (Htop (w', n') _ Hin Hc).
Qed.

Lemma density_exceeds (n total : Z) :
  (0 < total)%Z ->
  Py.ltb ContentAnalyzer.max_keyword_density (inject_Z n / inject_Z total) = true
  <-> (3 * total < 100 * n)%Z.
Proof.
  intros Hpos. rewrite ltb_lt.
  destruct total as [|p|p]; try lia.
  unfold ContentAnalyzer.max_keyword_density, Qlt, Qdiv, Qmult, Qinv, inject_Z.
  cbn [Qnum Qden]. lia.
Qed.

(** X6. The density of a top keyword is its count over the number of
    counted words; it is reported as an issue exactly when the count is
    more than 3 in 100 of them. In a text with no more than 33 counted
    words every top keyword is reported. *)
Theorem keyword_density_issue_threshold (text : string) :
  let total := Z.of_nat (length (ContentAnalyzer.keyword_words text)) in
  exists r,
    ContentAnalyzer.analyze_keyword_density text = Py.Ok r
    /\ ContentAnalyzer.keyword_densities r
       = map (fun kv => (fst kv, (inject_Z (snd kv) / inject_Z total)%Q))
           (ContentAnalyzer.top_keywords r)
    /\ (forall w, In w (ContentAnalyzer.keyword_density_issues r)
          <-> exists n, In (w, n) (ContentAnalyzer.top_keywords r)
                        /\ (3 * total < 100 * n)%Z)
    /\ ((total <= 33)%Z ->
        ContentAnalyzer.keyword_density_issues r
        = map fst (ContentAnalyzer.top_keywords r)).
Proof.
  cbn zeta. unfold ContentAnalyzer.analyze_keyword_density.
  rewrite keyword_density_returns. cbn [Py.bind].
  eexists. split; [reflexivity|].
  cbn [ContentAnalyzer.top_keywords ContentAnalyzer.keyword_densities
       ContentAnalyzer.keyword_density_issues].
  set (words := ContentAnalyzer.keyword_words text).
  set (total := Z.of_nat (length words)).
  set (top := ContentAnalyzer.most_common 10 (ContentAnalyzer.Counter words)).
  assert (Htop : forall w n, In (w, n) top -> (1 <= n)%Z /\ (0 < total)%Z).
  { intros w n Hin. apply top_keywords_in_counter in Hin.
    destruct (Counter_spec words) as [_ [Hcount _]].
    destruct (Hcount w n Hin) as [Hn Hpos]. split; [exact Hpos|].
    assert (Hw : In w words) by (apply occurrences_in; lia).
    subst total. destruct words; [destruct Hw | cbn [length]; lia]. }
  split; [reflexivity|]. split.
  - intros w. rewrite in_map_iff. split.
    + intros [[w' d] [E Hin]]. cbn [fst] in E. subst w'.
      apply filter_In in Hin as [Hin Hd]. cbn [snd] in Hd.
      apply in_map_iff in Hin as [[w' n] [E Hin]]. cbn [fst snd] in E.
      inversion E; subst. exists n. split; [exact Hin|].
      apply density_exceeds; [apply (Htop w n Hin) | exact Hd].
    + intros [n [Hin Hn]].
      exists (w, (inject_Z n / inject_Z total)%Q). split; [reflexivity|].
      apply filter_In. split.
      * apply in_map_iff. exists (w, n). split; [reflexivity | exact Hin].
      * cbn [snd]. apply density_exceeds; [apply (Htop w n Hin) | exact Hn].
  - intros Hshort. clearbody top. induction top as [|[w n] top IH]; [reflexivity|].
    cbn [map List.filter fst snd].
    destruct (Htop w n (or_introl eq_refl)) as [Hn Hpos].
    assert (Hd : Py.ltb ContentAnalyzer.max_keyword_density
                   (inject_Z n / inject_Z total) = true)
      by (apply density_exceeds; lia).
    rewrite Hd. cbn [map fst]. f_equal. apply IH.
    intros w' n' Hin. apply (Htop w' n'). right. exact Hin.
Qed.

(** ** The content analyzer: structure *)

Lemma sum_paragraph_words_nonneg {Tag : Type} (get_text : Tag -> string)
  (paragraphs : list Tag) :
  (0 <= ContentAnalyzer.sum_paragraph_words get_text paragraphs)%Z.
Proof.
  induction paragraphs as [|p paragraphs IH]; cbn [ContentAnalyzer.sum_paragraph_words]; lia.
Qed.

Lemma avg_length_nonneg {Tag : Type} (get_text : Tag -> string)
  (paragraphs : list Tag) :
  (0 <= ContentAnalyzer.avg_length_of get_text paragraphs)%Q.
Proof.
  unfold ContentAnalyzer.avg_length_of.
  destruct paragraphs as [|p ps]; [lra|].
  set (l := p :: ps).
  assert (Hl : (1 <= ContentAnalyzer.len l)%Q) by (apply len_pos; discriminate).
  pose proof (sum_paragraph_words_nonneg get_text l) as Hs.
  rewrite Zle_Qle in Hs. change (inject_Z 0) with 0%Q in Hs.
  apply Qle_shift_div_l; [lra|]. rewrite Qmult_0_l. exact Hs.
Qed.

(** X7. The structure score lies between 0 and 1. It is 0 exactly for a
    page with neither a paragraph nor a list, and 1 exactly for a page
    with 5 to 15 paragraphs, at least one list and 50 to 200 words per
    paragraph on average; a page without paragraphs has average length 0
    and never raises on the division. *)
Theorem structure_score_range (Soup Tag : Type)
  (find_all_p find_all_ul_ol : Soup -> list Tag) (get_text : Tag -> string)
  (soup : Soup) :
  let r := ContentAnalyzer.analyze_content_structure find_all_p find_all_ul_ol
             get_text soup in
  let score := ContentAnalyzer.structure_score r in
  let avg := ContentAnalyzer.avg_paragraph_length r in
  (0 <= score <= 1)%Q
  /\ (0 <= avg)%Q
  /\ (ContentAnalyzer.paragraph_count r = 0%nat -> (avg == 0)%Q)
  /\ ((score == 0)%Q
      <-> ContentAnalyzer.paragraph_count r = 0%nat
          /\ ContentAnalyzer.has_lists r = false)
  /\ ((score == 1)%Q
      <-> (5 <= ContentAnalyzer.paragraph_count r <= 15)%nat
          /\ ContentAnalyzer.has_lists r = true
          /\ (50 <= avg <= 200)%Q).
Proof.
  cbn zeta. unfold ContentAnalyzer.analyze_content_structure.
  cbn [ContentAnalyzer.structure_score ContentAnalyzer.avg_paragraph_length
       ContentAnalyzer.paragraph_count ContentAnalyzer.has_lists].
  set (paragraphs := find_all_p soup). set (lists := find_all_ul_ol soup).
  pose proof (avg_length_nonneg get_text paragraphs) as Havg.
  assert (Hnil : length paragraphs = 0%nat ->
                 (ContentAnalyzer.avg_length_of get_text paragraphs == 0)%Q).
  { intros H. destruct paragraphs; [reflexivity | discriminate]. }
  unfold ContentAnalyzer._calculate_structure_score.
  set (avg := ContentAnalyzer.avg_length_of get_text paragraphs) in *.
  set (n := length paragraphs) in *.
  assert (Hlists : match lists with [] => false | _ => true end = true
                   \/ match lists with [] => false | _ => true end = false)
    by (destruct lists; auto).
  destruct (Nat.leb_spec 5 n), (Nat.leb_spec n 15), (Nat.ltb_spec 0 n);
    cbn [andb]; try lia;
    destruct (Py.leb 50 avg) eqn:E50;
    [apply leb_le in E50 | apply leb_gt in E50 | apply leb_le in E50
    | apply leb_gt in E50 | apply leb_le in E50 | apply leb_gt in E50
    | apply leb_le in E50 | apply leb_gt in E50];
    destruct (Py.leb avg 200) eqn:E200;
    try apply leb_le in E200; try apply leb_gt in E200;
    cbn [andb];
    destruct (Py.ltb 0 avg) eqn:E0;
    try apply ltb_lt in E0;
    try (assert (avg <= 0)%Q
           by (destruct (Qlt_le_dec 0 avg) as [Hlt | Hle];
               [apply ltb_lt in Hlt; congruence | exact Hle]));
    try (assert (avg == 0)%Q by (apply Hnil; lia));
    destruct lists; cbn [length];
    repeat split; intros; try lra; try lia; try discriminate;
    try (exfalso; lra);
    repeat match goal with H : _ /\ _ |- _ => destruct H end;
    try lra; try lia; try discriminate.
Qed.

(** ** The SEO analyzer: meta tags *)

Lemma lookup_setitem {A : Type} (d : list (string * A)) (k k' : string) (v : A) :
  Py.lookup (Py.setitem d k v) k'
  = if String.eqb k k' then Some v else Py.lookup d k'.
Proof.
  induction d as [|[k0 v0] d IH].
  - cbn. reflexivity.
  - cbn [Py.setitem]. destruct (String.eqb_spec k0 k) as [-> | Hne];
      cbn [Py.lookup].
    + destruct (String.eqb k k'); reflexivity.
    + rewrite IH. destruct (String.eqb_spec k0 k') as [-> | Hne']; [|reflexivity].
      destruct (String.eqb_spec k k'); [congruence | reflexivity].
Qed.

Lemma lower_nonempty (s : string) :
  Url.nonempty (Py.lower s) = Url.nonempty s.
Proof. destruct s; reflexivity. Qed.

Lemma important_nonempty (k : string) :
  existsb (String.eqb k) SEOAnalyzer.important_meta_tags = true ->
  Url.nonempty k = true.
Proof. destruct k; [discriminate | reflexivity]. Qed.

(** The loop of [analyze_meta_tags]: for an important name the last tag
    that goes by it decides the value; other names leave the dict alone. *)
Lemma meta_lookup_fold (metas : list SEOAnalyzer.Attrs)
  (d : list (string * string)) (k : string) :
  Py.lookup (fold_left SEOAnalyzer.meta_body metas d) k
  = if existsb (String.eqb k) SEOAnalyzer.important_meta_tags
    then match last (List.filter (Spec.declares k) metas) with
         | Some tag => Some (SEOAnalyzer.get tag "content" "")
         | None => Py.lookup d k
         end
    else Py.lookup d k.
Proof.
  revert d. induction metas as [|tag metas IH]; intros d.
  - cbn [fold_left List.filter last]. destruct (existsb _ _); reflexivity.
  - cbn [fold_left List.filter]. rewrite IH.
    destruct (existsb (String.eqb k) SEOAnalyzer.important_meta_tags) eqn:Ek.
    + unfold Spec.declares at 2, SEOAnalyzer.meta_body.
      set (name := SEOAnalyzer.get tag "name" (SEOAnalyzer.get tag "property" "")).
      destruct (String.eqb_spec (Py.lower name) k) as [E | Hne].
      * rewrite last_cons.
        destruct (last (List.filter (Spec.declares k) metas)); [reflexivity|].
        rewrite E, Ek, <- (lower_nonempty name), E, (important_nonempty k Ek).
        cbn [andb]. rewrite lookup_setitem, String.eqb_refl. reflexivity.
      * destruct (last (List.filter (Spec.declares k) metas)); [reflexivity|].
        destruct (Url.nonempty name && _); [|reflexivity].
        rewrite lookup_setitem.
        destruct (String.eqb_spec (Py.lower name) k); [contradiction | reflexivity].
    + unfold SEOAnalyzer.meta_body.
      set (name := SEOAnalyzer.get tag "name" (SEOAnalyzer.get tag "property" "")).
      destruct (Url.nonempty name && _) eqn:E; [|reflexivity].
      rewrite lookup_setitem.
      destruct (String.eqb_spec (Py.lower name) k) as [E' | Hne]; [|reflexivity].
      apply andb_true_iff in E as [_ E]. rewrite E' in E. congruence.
Qed.





(** ** The SEO analyzer: images *)

Lemma srcs_without_alt_cases (images : list SEOAnalyzer.Attrs) :
  (existsb Spec.no_alt_no_src images = true
   /\ SEOAnalyzer.srcs_without_alt images = Py.Raise "'src'")
  \/ (existsb Spec.no_alt_no_src images = false
      /\ exists srcs,
           SEOAnalyzer.srcs_without_alt images = Py.Ok srcs
           /\ length srcs = length (List.filter SEOAnalyzer.without_alt images)).
Proof.
  induction images as [|img images IH].
  - right. split; [reflexivity|]. exists []. split; reflexivity.
  - cbn [existsb SEOAnalyzer.srcs_without_alt List.filter].
    unfold Spec.no_alt_no_src at 1 3, SEOAnalyzer.tag_getitem.
    destruct (SEOAnalyzer.without_alt img); cbn [andb].
    + destruct (img !! "src") as [src|]; cbn [orb Py.bind].
      * destruct IH as [[He Hr] | [He [srcs [Hr Hl]]]]; rewrite Hr; cbn [Py.bind].
        -- left. split; [exact He | reflexivity].
        -- right. split; [exact He|]. exists (src :: srcs).
           split; [reflexivity | cbn [length]; congruence].
      * left. split; reflexivity.
    + cbn [orb]. exact IH.
Qed.

(** X10. [analyze_images] raises [KeyError] on [src] exactly when some
    image without alternative text has no [src] attribute. Otherwise it
    counts the images and those whose [alt] is missing or empty; the ratio
    of images with alternative text lies between 0 and 1, is 1.0 for a
    page without images, and is 1 only when no image lacks its text. *)
Theorem image_census (images : list SEOAnalyzer.Attrs) :
  (existsb Spec.no_alt_no_src images = true
   /\ SEOAnalyzer.analyze_images images = Py.Raise "'src'")
  \/ (existsb Spec.no_alt_no_src images = false
      /\ exists r,
           SEOAnalyzer.analyze_images images = Py.Ok r
           /\ SEOAnalyzer.total_images r = length images
           /\ SEOAnalyzer.images_without_alt r
              = length (List.filter SEOAnalyzer.without_alt images)
           /\ (SEOAnalyzer.images_without_alt r <= SEOAnalyzer.total_images r)%nat
           /\ (0 <= SEOAnalyzer.image_alt_ratio r <= 1)%Q
           /\ ((SEOAnalyzer.image_alt_ratio r == 1)%Q
               <-> SEOAnalyzer.images_without_alt r = 0%nat)).
Proof.
  unfold SEOAnalyzer.analyze_images.
  destruct (srcs_without_alt_cases images) as [[He Hr] | [He [srcs [Hr Hl]]]];
    rewrite Hr; cbn [Py.bind]; [left; split; [exact He | reflexivity]|].
  right. split; [exact He|]. eexists. split; [reflexivity|].
  cbn [SEOAnalyzer.total_images SEOAnalyzer.images_without_alt
       SEOAnalyzer.image_alt_ratio].
  pose proof (filter_length_le SEOAnalyzer.without_alt images) as Hle.
  rewrite Hl. split; [reflexivity|]. split; [reflexivity|]. split; [exact Hle|].
  set (w := length (List.filter SEOAnalyzer.without_alt images)) in *.
  destruct images as [|img images].
  - cbn in *. assert (w = 0)%nat as -> by lia.
    split; [split; unfold Qle; cbn; lia|]. split; reflexivity.
  - set (n := length (img :: images)) in *.
    assert (Hn : (0 < n)%nat) by (subst n; cbn [length]; lia).
    assert (HnQ : (0 < inject_Z (Z.of_nat n))%Q).
    { change 0%Q with (inject_Z 0). rewrite <- Zlt_Qlt. lia. }
    assert (Hd : (inject_Z (Z.of_nat n - Z.of_nat w) / inject_Z (Z.of_nat n)
                  == 1 - inject_Z (Z.of_nat w) / inject_Z (Z.of_nat n))%Q).
    { unfold Zminus. rewrite inject_Z_plus, inject_Z_opp. field. lra. }
    assert (Hw0 : (0 <= inject_Z (Z.of_nat w) / inject_Z (Z.of_nat n))%Q).
    { apply Qle_shift_div_l; [exact HnQ|]. rewrite Qmult_0_l.
      change 0%Q with (inject_Z 0). rewrite <- Zle_Qle. lia. }
    assert (Hw1 : (inject_Z (Z.of_nat w) / inject_Z (Z.of_nat n) <= 1)%Q).
    { apply Qle_shift_div_r; [exact HnQ|]. rewrite Qmult_1_l.
      rewrite <- Zle_Qle. lia. }
    rewrite Hd. split; [lra|]. split.
    + intros H1.
      assert (Hz : (inject_Z (Z.of_nat w) / inject_Z (Z.of_nat n) == 0)%Q) by lra.
      assert (Hz' : (inject_Z (Z.of_nat w) == 0)%Q).
      { rewrite <- (Qmult_div_r (inject_Z (Z.of_nat w)) (inject_Z (Z.of_nat n)))
          by lra.
        rewrite Hz. lra. }
      unfold Qeq in Hz'. cbn [Qnum Qden inject_Z] in Hz'. lia.
    + intros ->. cbn [Z.of_nat]. unfold Qdiv. rewrite Qmult_0_l. reflexivity.
Qed.

(** ** The SEO analyzer: headings, links and the whole analysis *)

Lemma analyze_headings_returns (tag_count : string -> nat) :
  let n := fun i => tag_count (SEOAnalyzer.h i) in
  exists headings,
    SEOAnalyzer.analyze_headings tag_count
    = Py.Ok {| SEOAnalyzer.heading_count := headings;
               SEOAnalyzer.has_h1 := (0 <? n 1)%nat;
               SEOAnalyzer.multiple_h1 := (1 <? n 1)%nat;
               SEOAnalyzer.heading_structure_issues :=
                 if (n 1 =? 0)%nat then
                   "Missing H1 tag"
                   :: match List.find (fun i => (0 <? n i)%nat) (seq 2 5) with
                      | Some i => [Spec.skip_message 1 i]
                      | None => []
                      end
                 else if (1 <? n 1)%nat then ["Multiple H1 tags"]
                 else [] |}
    /\ forall i, (1 <= i <= 6)%nat ->
                 headings !! SEOAnalyzer.h i = Some (n i).
Proof.
  cbn zeta. unfold SEOAnalyzer.analyze_headings.
  set (headings := fold_left _ (seq 1 6) ∅).
  pose proof (analyze_headings_census tag_count) as Hcensus. fold headings in Hcensus.
  exists headings. split.
  - change "h1" with (SEOAnalyzer.h 1). rewrite Hcensus by lia. cbn [Py.bind].
    destruct (Nat.eqb_spec (tag_count (SEOAnalyzer.h 1)) 0) as [Hz | Hnz].
    + rewrite (check_without_h1 headings (fun i => tag_count (SEOAnalyzer.h i))
                 Hcensus Hz).
      cbn [Py.bind]. destruct (List.find _ _); reflexivity.
    + rewrite (check_with_h1 headings (fun i => tag_count (SEOAnalyzer.h i))
                 Hcensus) by lia.
      reflexivity.
  - intros i Hi. specialize (Hcensus i Hi). unfold SEOAnalyzer.getitem in Hcensus.
    destruct (headings !! SEOAnalyzer.h i); [congruence | discriminate].
Qed.

(** X11. [analyze_headings] returns for every page: each of the six keys
    it reads is in the dict it has just built. Without an [h1] the issues
    are the missing [h1] and then a single skip, from [h1] to the first of
    [h2] to [h6] that is present, and nothing about any later gap;
    [has_h1] is false exactly when the missing [h1] is reported. *)
Theorem heading_report_without_h1 (tag_count : string -> nat) :
  let n := fun i => tag_count (SEOAnalyzer.h i) in
  exists r,
    SEOAnalyzer.analyze_headings tag_count = Py.Ok r
    /\ (forall i, (1 <= i <= 6)%nat ->
          SEOAnalyzer.heading_count r !! SEOAnalyzer.h i = Some (n i))
    /\ (SEOAnalyzer.has_h1 r = false
        <-> In "Missing H1 tag" (SEOAnalyzer.heading_structure_issues r))
    /\ (n 1%nat = 0%nat ->
        SEOAnalyzer.heading_structure_issues r
        = "Missing H1 tag"
          :: match List.find (fun i => (0 <? n i)%nat) (seq 2 5) with
             | Some i => [Spec.skip_message 1 i]
             | None => []
             end)
    /\ (length (SEOAnalyzer.heading_structure_issues r) <= 2)%nat.
Proof.
  cbn zeta.
  destruct (analyze_headings_returns tag_count) as [headings [Hr Hcount]].
  cbn zeta in Hr, Hcount. rewrite Hr. eexists. split; [reflexivity|].
  cbn [SEOAnalyzer.heading_count SEOAnalyzer.has_h1
       SEOAnalyzer.heading_structure_issues].
  split; [exact Hcount|].
  destruct (Nat.eqb_spec (tag_count (SEOAnalyzer.h 1)) 0) as [Hz | Hnz].
  - rewrite Hz. cbn [Nat.ltb Nat.leb].
    split; [split; [intros _; left; reflexivity | reflexivity]|].
    split; [reflexivity|]. destruct (List.find _ _); cbn [length]; lia.
  - assert (Hpos : (0 <? tag_count (SEOAnalyzer.h 1))%nat = true)
      by (apply Nat.ltb_lt; lia).
    rewrite Hpos. split.
    + split; [discriminate|].
      destruct (1 <? tag_count (SEOAnalyzer.h 1))%nat; cbn [In];
        intros H; repeat destruct H as [H | H]; try discriminate; contradiction.
    + split; [intros; contradiction|].
      destruct (1 <? tag_count (SEOAnalyzer.h 1))%nat; cbn [length]; lia.
Qed.

Lemma census_partition (current_url : string) (hrefs : list string) :
  length hrefs
  = (length (List.filter (Spec.census_internal current_url) hrefs)
     + length (List.filter (Spec.census_external current_url) hrefs)
     + length (List.filter Spec.census_skips hrefs))%nat.
Proof.
  induction hrefs as [|href hrefs IH]; [reflexivity|].
  cbn [List.filter length].
  unfold Spec.census_internal at 1, Spec.census_external at 1.
  destruct (Spec.census_skips href); cbn [negb andb length]; [lia|].
  destruct (Py.startswith href "http" && negb (Py.contains current_url href));
    cbn [negb length]; lia.
Qed.

(** X12. In the link census every anchor is either left out (its [href]
    is empty or starts with [#]), internal or external: [total_links] is
    the sum of the three, and the two counts reported never exceed it. *)
Theorem link_census_partition (hrefs : list string) (current_url : string) :
  let r := SEOAnalyzer.analyze_links hrefs current_url in
  SEOAnalyzer.total_links r
  = (SEOAnalyzer.internal_links r + SEOAnalyzer.external_links r
     + length (List.filter Spec.census_skips hrefs))%nat
  /\ (SEOAnalyzer.internal_links r + SEOAnalyzer.external_links r
      <= SEOAnalyzer.total_links r)%nat
  /\ SEOAnalyzer.broken_links r = [].
Proof.
  cbn zeta.
  destruct (analyze_links_counts hrefs current_url) as [Ht [Hi He]].
  cbn zeta in Ht, Hi, He. rewrite Ht, Hi, He.
  pose proof (census_partition current_url hrefs) as Hsum.
  split; [exact Hsum|]. split; [lia|].
  unfold SEOAnalyzer.analyze_links.
  destruct (fold_left _ hrefs _). reflexivity.
Qed.

(** X13. The SEO analysis of a page fails only through its images: it
    raises [KeyError] on [src] exactly when an image without alternative
    text has no [src] attribute, and otherwise returns the five reports. *)
Theorem seo_analysis_fails_only_on_images (Soup Tag : Type)
  (find_all_meta : Soup -> list SEOAnalyzer.Attrs)
  (count_tags : Soup -> string -> nat)
  (find_all_img : Soup -> list SEOAnalyzer.Attrs)
  (find_all_a_href : Soup -> list string)
  (find_title : Soup -> option Tag) (string_of : Tag -> option string)
  (soup : Soup) (url : string) :
  let analyze := SEOAnalyzer.analyze find_all_meta count_tags find_all_img
                   find_all_a_href find_title string_of in
  (existsb Spec.no_alt_no_src (find_all_img soup) = true
   /\ analyze soup url = Py.Raise "'src'")
  \/ (existsb Spec.no_alt_no_src (find_all_img soup) = false
      /\ exists r,
           analyze soup url = Py.Ok r
           /\ SEOAnalyzer.meta_tags r
              = SEOAnalyzer.analyze_meta_tags (find_all_meta soup)
           /\ SEOAnalyzer.analyze_headings (count_tags soup)
              = Py.Ok (SEOAnalyzer.headings r)
           /\ SEOAnalyzer.analyze_images (find_all_img soup)
              = Py.Ok (SEOAnalyzer.images r)
           /\ SEOAnalyzer.links r
              = SEOAnalyzer.analyze_links (find_all_a_href soup) url
           /\ SEOAnalyzer.title r
              = SEOAnalyzer.analyze_title string_of (find_title soup)).
Proof.
  cbn zeta. unfold SEOAnalyzer.analyze.
  destruct (analyze_headings_returns (count_tags soup)) as [headings [Hh _]].
  cbn zeta in Hh. rewrite Hh. cbn [Py.bind].
  unfold SEOAnalyzer.analyze_images.
  destruct (srcs_without_alt_cases (find_all_img soup))
    as [[He Hr] | [He [srcs [Hr Hl]]]]; rewrite Hr; cbn [Py.bind].
  - left. split; [exact He | reflexivity].
  - right. split; [exact He|]. eexists. split; [reflexivity|].
    cbn [SEOAnalyzer.meta_tags SEOAnalyzer.headings SEOAnalyzer.images
         SEOAnalyzer.links SEOAnalyzer.title].
    repeat split; reflexivity.
Qed.

(** ** The robots gate: crawl delay *)

(** X14. [get_crawl_delay] never raises. It answers [None] when no rules
    could be loaded and when the library's lookup fails; a delay it
    reports is the one the library found in the parser that [read] left. *)
Theorem crawl_delay_never_raises (Policy : Type) (lib : Url.Lib)
  (urlopen : string -> Py.result (RobotsParser.Answer Policy))
  (lib_crawl_delay : RobotsParser.RobotFileParser Policy -> string
                     -> Py.result (option Q))
  (base_url user_agent : string) :
  exists rp delay,
    RobotsParser.init lib urlopen base_url = Py.Ok rp
    /\ RobotsParser.get_crawl_delay lib_crawl_delay rp user_agent = Py.Ok delay
    /\ (Spec.load_raised lib urlopen base_url -> delay = None)
    /\ (forall p, RobotsParser.parser rp = Some p ->
                  Py.raises (lib_crawl_delay p user_agent) -> delay = None)
    /\ (forall d, delay = Some d ->
          exists robots_url p,
            Url.urljoin lib base_url "/robots.txt" = Py.Ok robots_url
            /\ RobotsParser.read urlopen RobotsParser.new robots_url = Py.Ok p
            /\ RobotsParser.parser rp = Some p
            /\ lib_crawl_delay p user_agent = Py.Ok (Some d)).
Proof.
  unfold RobotsParser.init, Py.raises.
  destruct (initialize_parser_cases Policy lib urlopen base_url)
    as [[Hraised ->] | (robots_url & p & Hjoin & Hset & Hread & ->)];
    cbn [Py.bind].
  - exists (RobotsParser.mk base_url None), None.
    split; [reflexivity|]. split; [reflexivity|].
    split; [reflexivity|]. split; [discriminate | discriminate].
  - assert (Hloaded : ~ Spec.load_raised lib urlopen base_url).
    { intros [[e He] | (u & Hu & [[e He] | [e He]])]; try congruence.
      assert (u = robots_url) as -> by congruence.
      unfold RobotsParser.read in Hread. rewrite He in Hread. discriminate. }
    destruct (lib_crawl_delay p user_agent) as [delay|e] eqn:Hlib.
    + exists (RobotsParser.mk base_url (Some p)), delay.
      split; [reflexivity|].
      split; [cbn; rewrite Hlib; reflexivity|].
      split; [intros H; contradiction|]. split.
      * intros p' [= <-] [e He]. congruence.
      * intros d ->. exists robots_url, p. repeat split; assumption.
    + exists (RobotsParser.mk base_url (Some p)), None.
      split; [reflexivity|].
      split; [cbn; rewrite Hlib; reflexivity|].
      split; [reflexivity|]. split; [reflexivity | discriminate].
Qed.

(** ** The crawler: what is fetched, and by whom *)

Section CrawlerSafety.

Import SEOCrawler.

Variable Policy : Type.
Variable Soup : Type.
Variable W : World Policy Soup.
Variable self : SEOCrawler.t Policy.

Local Abbreviation step := (SEOCrawler.step W self).
Local Abbreviation effect := (SEOCrawler.effect W self).
Local Abbreviation reachable := (SEOCrawler.reachable W self).
Local Abbreviation robots_ok := (Spec.robots_ok W self).
Local Abbreviation on_site := (Spec.on_site W self).

Lemma extract_links_valid (soup : Soup) (current_url : string)
  (links : list string) (link : string) :
  extract_links W self soup current_url = Py.Ok links ->
  In link links ->
  is_valid_url W self link = Py.Ok true.
Proof.
  intros Hlinks Hin.
  destruct (extract_links_filter Policy Soup W self _ _ _ Hlinks)
    as (resolved & _ & ->).
  apply filter_In in Hin as [_ Hacc]. unfold Spec.accepted in Hacc.
  destruct (is_valid_url W self link) as [[|]|]; congruence.
Qed.

(** The links a call is left to submit passed [is_valid_url]. *)
Lemma fetch_and_analyze_links (url : string) (d : Z)
  (result : list (string * Py.value)) (todo : list string) :
  fetch_and_analyze W self url d = L100 result todo ->
  Py.dict_get result "links" = Some (Py.VList (map Py.VStr todo))
  /\ forall link, In link todo -> is_valid_url W self link = Py.Ok true.
Proof.
  intros Hfa.
  destruct (fetch_and_analyze_cases Policy Soup W self url d)
    as [[e He] | (content & load_time & seo & perf & cm & links & _ & _ & _ & _ & Hlinks & Hok)].
  - rewrite He in Hfa. discriminate.
  - rewrite Hok in Hfa. injection Hfa as <- <-. split; [reflexivity|].
    intros link. apply (extract_links_valid _ _ _ _ Hlinks).
Qed.

(** Calls start at depth 0 and on the site; a call gets past line 71 only
    through the robots gate; what is left to submit passed [is_valid_url];
    and every fetch was made by such a call. *)
Lemma permitted_invariant (st : State) :
  reachable st ->
  (forall j u, threads st !! j = Some u ->
               (0 <= t_depth u)%Z /\ on_site (t_url u))
  /\ (forall j u, threads st !! j = Some u ->
                  Spec.about_to_fetch (t_pc u) = true -> robots_ok (t_url u))
  /\ (forall j u result todo, threads st !! j = Some u ->
                              t_pc u = L100 result todo ->
                              forall link, In link todo ->
                                           is_valid_url W self link = Py.Ok true)
  /\ (forall url d, In (url, d) (fetch_log st) ->
                    (0 <= d)%Z /\ on_site url /\ robots_ok url).
Proof.
  induction 1 as [|st st' i Hreach (IHt & IHr & IHl & IHf) Hstep].
  - repeat split.
    + destruct j; [|discriminate]. injection H as <-. cbn. lia.
    + destruct j; [|discriminate]. injection H as <-. left. reflexivity.
    + intros [|j] u Hj Hpc; [|discriminate]. injection Hj as <-. discriminate.
    + intros [|j] u result todo Hj Hpc; [|discriminate].
      injection Hj as <-. discriminate.
    + destruct H.
    + destruct H.
    + destruct H.
  - destruct (step_effect Policy Soup W self i st st' Hstep)
      as (t & p & v & l & new & Hl & He & ->).
    destruct (IHt i t Hl) as [Hdepth Hsite].
    cbn [threads fetch_log]. split; [|split; [|split]].
    + intros j u Hj.
      apply lookup_stepped in Hj; [|eapply lookup_lt_Some; exact Hl].
      destruct Hj as [[-> ->] | [[Hne Hj] | [Hin _]]].
      * cbn [set_pc t_depth t_url]. split; assumption.
      * apply (IHt j u Hj).
      * inversion He; subst; cbn in Hin; try contradiction.
        destruct Hin as [<- | []]. cbn [t_depth t_url]. split; [lia|].
        right.
        match goal with
        | Hpc : t_pc t = L100 ?result (?link :: ?todo) |- _ =>
            apply (IHl i t result (link :: todo) Hl Hpc); left; reflexivity
        end.
    + intros j u Hj Hpc.
      apply lookup_stepped in Hj; [|eapply lookup_lt_Some; exact Hl].
      destruct Hj as [[-> ->] | [[Hne Hj] | [Hin _]]].
      * cbn [set_pc t_url t_pc] in *.
        inversion He; subst; try discriminate.
        -- assumption.
        -- apply (IHr i t Hl).
           match goal with Hq : t_pc t = _ |- _ => rewrite Hq end. reflexivity.
        -- destruct (fetch_and_analyze_cases Policy Soup W self (t_url t) (t_depth t))
             as [[e Hfa] | (? & ? & ? & ? & ? & ? & _ & _ & _ & _ & _ & Hfa)];
             rewrite Hfa in Hpc; discriminate.
      * apply (IHr j u Hj Hpc).
      * inversion He; subst; cbn in Hin; try contradiction.
        destruct Hin as [<- | []]. discriminate.
    + intros j u result todo Hj Hpc link Hlink.
      apply lookup_stepped in Hj; [|eapply lookup_lt_Some; exact Hl].
      destruct Hj as [[-> ->] | [[Hne Hj] | [Hin _]]].
      * cbn [set_pc t_pc] in Hpc. subst p.
        inversion He; subst.
        -- match goal with
           | Hfa : fetch_and_analyze _ _ _ _ = L100 _ _ |- _ =>
               destruct (fetch_and_analyze_links _ _ _ _ Hfa) as [_ Hvalid]
           end.
           apply Hvalid, Hlink.
        -- match goal with
           | Hq : t_pc t = L100 _ _ |- _ => apply (IHl i t _ _ Hl Hq)
           end. right. exact Hlink.
        -- match goal with
           | Hq : t_pc t = L100 _ _ |- _ => apply (IHl i t _ _ Hl Hq)
           end. right. exact Hlink.
      * apply (IHl j u result todo Hj Hpc link Hlink).
      * inversion He; subst; cbn in Hin; try contradiction.
        destruct Hin as [<- | []]. discriminate.
    + intros url d Hin.
      inversion He; subst; try (apply (IHf url d Hin)).
      apply in_app_or in Hin as [Hin | [Heq | []]]; [apply (IHf url d Hin)|].
      injection Heq as <- <-. split; [exact Hdepth|]. split; [exact Hsite|].
      apply (IHr i t Hl).
      match goal with Hq : t_pc t = _ |- _ => rewrite Hq end. reflexivity.
Qed.

(** X15. Whatever the order the threads run in, every fetch the crawl
    makes is of the start URL or of a URL that passed [is_valid_url], at a
    depth from 0 to the configured maximum, of a URL the robots gate let
    through (or with [ignore_robots] set), and of a URL that is in
    [visited_urls] by then. *)
Theorem fetches_are_permitted (st : State) (url : string) (d : Z) :
  reachable st ->
  In (url, d) (fetch_log st) ->
  (0 <= d <= depth self)%Z
  /\ (url = base_url self \/ is_valid_url W self url = Py.Ok true)
  /\ (ignore_robots self = true
      \/ RobotsParser.can_fetch (match_entries W) (robots_parser self) url "*"
         = Py.Ok true)
  /\ url ∈ visited_urls st.
Proof.
  intros Hreach Hin.
  destruct (permitted_invariant st Hreach) as (_ & _ & _ & Hlog).
  destruct (Hlog url d Hin) as (Hd & Hsite & Hrobots).
  destruct (depth_invariant Policy Soup W self st Hreach) as [_ Hmax].
  destruct (fetch_after_insert Policy Soup W self st Hreach) as [_ Hvis].
  split; [split; [exact Hd | exact (Hmax url d Hin)]|].
  split; [exact Hsite|]. split; [exact Hrobots | exact (Hvis url d Hin)].
Qed.


Lemma held_result_kept (i : nat) (t : Thread) (st : State) (p : pc)
  (v : gset string) (l : list (string * Z)) (new : list Thread)
  (r : list (string * Py.value)) :
  effect i t st p v l new ->
  held_result (t_pc t) = Some r -> held_result p = Some r.
Proof.
  intros He Hr.
  inversion He; subst;
    match goal with Hq : t_pc t = _ |- _ => rewrite Hq in Hr end;
    try discriminate; exact Hr.
Qed.

Lemma lookup_after_step (l new : list Thread) (i j : nat) (x u : Thread) :
  l !! j = Some u ->
  (<[i := x]> l ++ new)%list !! j = Some (if Nat.eqb j i then x else u).
Proof.
  intros Hj. pose proof (lookup_lt_Some _ _ _ Hj) as Hlt.
  rewrite lookup_app_l by (rewrite length_insert; exact Hlt).
  destruct (Nat.eqb_spec j i) as [-> | Hne].
  - apply list_lookup_insert_eq. exact Hlt.
  - rewrite list_lookup_insert_ne by congruence. exact Hj.
Qed.

(** The calls form a tree: the call of [crawl] comes first, and every
    other call was submitted by an earlier call, one level up, that holds
    a record with the call's URL among its links. *)
Lemma tree_invariant (st : State) :
  reachable st ->
  (exists t0, threads st !! 0%nat = Some t0
              /\ t_url t0 = base_url self /\ t_depth t0 = 0%Z
              /\ t_parent t0 = None /\ t_pc t0 <> Queued)
  /\ (forall j u, threads st !! j = Some u -> j <> 0%nat ->
        exists q tq r,
          t_parent u = Some q /\ (q < j)%nat /\ threads st !! q = Some tq
          /\ t_depth u = (t_depth tq + 1)%Z
          /\ held_result (t_pc tq) = Some r
          /\ Spec.lists_link r (t_url u))
  /\ (forall j u result todo, threads st !! j = Some u ->
        t_pc u = L100 result todo ->
        forall link, In link todo -> Spec.lists_link result link).
Proof.
  induction 1 as [|st st' i Hreach (IHroot & IHchild & IHtodo) Hstep].
  - split; [|split].
    + eexists. split; [reflexivity|]. cbn. repeat split. discriminate.
    + intros [|j] u Hj Hne; [contradiction | discriminate].
    + intros [|j] u result todo Hj Hpc; [|discriminate].
      injection Hj as <-. discriminate.
  - destruct (step_effect Policy Soup W self i st st' Hstep)
      as (t & p & v & l & new & Hl & He & ->).
    pose proof (lookup_lt_Some _ _ _ Hl) as Hlt.
    cbn [threads]. split; [|split].
    + destruct IHroot as (t0 & H0 & Hurl & Hd & Hpar & Hq).
      rewrite (lookup_after_step _ new i 0 (set_pc t p) t0 H0).
      eexists. split; [reflexivity|].
      destruct (Nat.eqb_spec 0 i) as [<- | Hne]; [|auto].
      assert (t = t0) as -> by congruence.
      cbn [set_pc t_url t_depth t_parent t_pc]. repeat split; try assumption.
      inversion He; subst; try discriminate.
      destruct (fetch_and_analyze_cases Policy Soup W self (t_url t0) (t_depth t0))
        as [[e Hfa] | (? & ? & ? & ? & ? & ? & _ & _ & _ & _ & _ & Hfa)];
        rewrite Hfa; discriminate.
    + intros j u Hj Hne.
      assert (Hold : forall q tq r,
                 threads st !! q = Some tq ->
                 held_result (t_pc tq) = Some r ->
                 exists tq', (<[i := set_pc t p]> (threads st) ++ new)%list !! q
                             = Some tq'
                             /\ t_depth tq' = t_depth tq
                             /\ held_result (t_pc tq') = Some r).
      { intros q tq r Hq Hr.
        rewrite (lookup_after_step _ new i q (set_pc t p) tq Hq).
        eexists. split; [reflexivity|].
        destruct (Nat.eqb_spec q i) as [-> | Hqi]; [|auto].
        assert (t = tq) as -> by congruence.
        cbn [set_pc t_depth t_pc]. split; [reflexivity|].
        apply (held_result_kept _ _ _ _ _ _ _ _ He Hr). }
      apply lookup_stepped in Hj; [|exact Hlt].
      destruct Hj as [[-> ->] | [[Hnei Hj] | [Hin Hlen]]].
      * destruct (IHchild i t Hl Hne) as (q & tq & r & Hp & Hqi & Hq & Hd & Hr & Hlink).
        destruct (Hold q tq r Hq Hr) as (tq' & Hq' & Hd' & Hr').
        exists q, tq', r. cbn [set_pc t_parent t_depth t_url].
        repeat split; try assumption. congruence.
      * destruct (IHchild j u Hj Hne) as (q & tq & r & Hp & Hqi & Hq & Hd & Hr & Hlink).
        destruct (Hold q tq r Hq Hr) as (tq' & Hq' & Hd' & Hr').
        exists q, tq', r. repeat split; try assumption. congruence.
      * inversion He; subst; cbn in Hin; try contradiction.
        destruct Hin as [<- | []].
        match goal with
        | Hpc : t_pc t = L100 ?result (?link :: ?todo) |- _ =>
            exists i, (set_pc t (L100 result todo)), result;
            cbn [t_parent t_depth t_url set_pc t_pc held_result];
            repeat split; try reflexivity; try lia;
            [ rewrite (lookup_after_step _ _ i i _ t Hl), Nat.eqb_refl; reflexivity
            | apply (IHtodo i t result (link :: todo) Hl Hpc); left; reflexivity ]
        end.
    + intros j u result todo Hj Hpc link Hlink.
      apply lookup_stepped in Hj; [|exact Hlt].
      destruct Hj as [[-> ->] | [[Hnei Hj] | [Hin _]]].
      * cbn [set_pc t_pc] in Hpc. subst p.
        inversion He; subst.
        -- match goal with
           | Hfa : fetch_and_analyze _ _ _ _ = L100 _ _ |- _ =>
               destruct (fetch_and_analyze_links _ _ _ _ Hfa) as [Hget _]
           end.
           exists todo. split; assumption.
        -- match goal with
           | Hq : t_pc t = L100 _ _ |- _ => apply (IHtodo i t _ _ Hl Hq)
           end. right. exact Hlink.
        -- match goal with
           | Hq : t_pc t = L100 _ _ |- _ => apply (IHtodo i t _ _ Hl Hq)
           end. right. exact Hlink.
      * apply (IHtodo j u result todo Hj Hpc link Hlink).
      * inversion He; subst; cbn in Hin; try contradiction.
        destruct Hin as [<- | []]. discriminate.
Qed.

(** X16. The calls of a crawl form a tree. The first is the call
    [analyze_page(base_url, 0)] of [crawl]; every other call was submitted
    by an earlier call, is one level deeper than it, and is for a URL that
    passed [is_valid_url] and that the submitting call lists among the
    links of its record. *)
Theorem calls_form_a_tree (st : State) (j : nat) (u : Thread) :
  reachable st ->
  threads st !! j = Some u ->
  (j = 0%nat /\ t_url u = base_url self /\ t_depth u = 0%Z /\ t_parent u = None)
  \/ (j <> 0%nat
      /\ is_valid_url W self (t_url u) = Py.Ok true
      /\ exists q tq r,
           t_parent u = Some q /\ (q < j)%nat /\ threads st !! q = Some tq
           /\ t_depth u = (t_depth tq + 1)%Z
           /\ held_result (t_pc tq) = Some r
           /\ Py.dict_get r "url" = Some (Py.VStr (t_url tq))
           /\ Spec.lists_link r (t_url u)).
Proof.
  intros Hreach Hj.
  destruct (tree_invariant st Hreach) as ((t0 & H0 & Hurl & Hd & Hpar & _) & Hchild & _).
  destruct (Nat.eq_dec j 0) as [-> | Hne].
  - left. assert (u = t0) as -> by congruence. auto.
  - right. split; [exact Hne|].
    destruct (Hchild j u Hj Hne) as (q & tq & r & Hp & Hqj & Hq & Hdq & Hr & Hlink).
    split.
    + destruct (permitted_invariant st Hreach) as (Hsite & _).
      destruct (Hsite j u Hj) as [_ [Hbase | Hvalid]]; [|exact Hvalid].
      destruct Hlink as (links & Hget & Hin).
      pose proof (results_are_own Policy Soup W self st Hreach q tq r Hq Hr) as Hown.
      destruct Hown as [-> | [[e ->] | (c & lt & seo & perf & cm & found
                                       & _ & _ & _ & _ & Hfound & ->)]];
        try discriminate.
      cbn in Hget. injection Hget as Hmap.
      assert (Hinj : forall a b : list string,
                 map Py.VStr a = map Py.VStr b -> a = b).
      { induction a as [|x a IHa]; intros [|y b] E; try discriminate; [reflexivity|].
        cbn in E. injection E as -> E. f_equal. apply IHa, E. }
      apply Hinj in Hmap. subst links.
      apply (extract_links_valid _ _ _ _ Hfound Hin).
    + exists q, tq, r. repeat split; try assumption.
      pose proof (results_are_own Policy Soup W self st Hreach q tq r Hq Hr) as Hown.
      destruct Hlink as (links & Hget & Hin).
      destruct Hown as [-> | [[e ->] | (c & lt & seo & perf & cm & found
                                       & _ & _ & _ & _ & _ & ->)]];
        try discriminate.
      reflexivity.
Qed.

End CrawlerSafety.

Lemma chain_fetch_of_a_permitted :
  let st := Examples.state_after Examples.chain Examples.whole_chain in
  (0 <= 1 <= SEOCrawler.depth Examples.crawler)%Z
  /\ ("https://ex.com/a" = SEOCrawler.base_url Examples.crawler
      \/ SEOCrawler.is_valid_url (Examples.world Examples.chain) Examples.crawler
           "https://ex.com/a" = Py.Ok true)
  /\ (SEOCrawler.ignore_robots Examples.crawler = true
      \/ RobotsParser.can_fetch
           (SEOCrawler.match_entries (Examples.world Examples.chain))
           (SEOCrawler.robots_parser Examples.crawler) "https://ex.com/a" "*"
         = Py.Ok true)
  /\ "https://ex.com/a" ∈ SEOCrawler.visited_urls st.
Proof.
  apply (fetches_are_permitted unit (list string) (Examples.world Examples.chain)
           Examples.crawler
           (Examples.state_after Examples.chain Examples.whole_chain)
           "https://ex.com/a" 1).
  - apply state_after_reachable.
  - vm_compute. right. left. reflexivity.
Defined.

Lemma chain_call_on_a_submitted_by_home :
  let st := Examples.state_after Examples.chain Examples.whole_chain in
  let W := Examples.world Examples.chain in
  exists u,
    SEOCrawler.threads st !! 1%nat = Some u
    /\ ((1%nat = 0%nat /\ SEOCrawler.t_url u = SEOCrawler.base_url Examples.crawler
         /\ SEOCrawler.t_depth u = 0%Z /\ SEOCrawler.t_parent u = None)
        \/ (1%nat <> 0%nat
            /\ SEOCrawler.is_valid_url W Examples.crawler (SEOCrawler.t_url u)
               = Py.Ok true
            /\ exists q tq r,
                 SEOCrawler.t_parent u = Some q /\ (q < 1)%nat
                 /\ SEOCrawler.threads st !! q = Some tq
                 /\ SEOCrawler.t_depth u = (SEOCrawler.t_depth tq + 1)%Z
                 /\ SEOCrawler.held_result (SEOCrawler.t_pc tq) = Some r
                 /\ Py.dict_get r "url" = Some (Py.VStr (SEOCrawler.t_url tq))
                 /\ Spec.lists_link r (SEOCrawler.t_url u))).
Proof.
  intros st W.
  destruct (SEOCrawler.threads st !! 1%nat) as [u|] eqn:Hu;
    [|vm_compute in Hu; discriminate].
  exists u. split; [reflexivity|].
  apply (calls_form_a_tree unit (list string) W Examples.crawler st 1 u).
  - apply state_after_reachable.
  - exact Hu.
Defined.

(** ** The crawler: one fetch per page when the guard is not interleaved *)

Lemma run_exclusive_reachable (Policy Soup : Type)
  (W : SEOCrawler.World Policy Soup) (self : SEOCrawler.t Policy)
  (schedule : list nat) (st st' : SEOCrawler.State) :
  SEOCrawler.reachable_exclusive W self st ->
  SEOCrawler.run_exclusive W self schedule st = Some st' ->
  SEOCrawler.reachable_exclusive W self st'.
Proof.
  revert st. induction schedule as [|i schedule IH]; intros st Hst Hrun.
  - injection Hrun as <-. exact Hst.
  - cbn [SEOCrawler.run_exclusive] in Hrun.
    destruct (SEOCrawler.step_exclusive W self i st) as [st1|] eqn:Hstep;
      [|discriminate].
    apply (IH st1); [|exact Hrun].
    apply SEOCrawler.exclusive_step with (st := st) (i := i); assumption.
Qed.

Lemma state_after_exclusive_reachable (site : string -> Py.result (SEOCrawler.Response * Q))
  (schedule : list nat) :
  SEOCrawler.reachable_exclusive (Examples.world site) Examples.crawler
    (Examples.state_after_exclusive site schedule).
Proof.
  unfold Examples.state_after_exclusive.
  destruct (SEOCrawler.run_exclusive _ _ schedule _) as [st|] eqn:Hrun.
  - apply (run_exclusive_reachable _ _ _ _ schedule
             (SEOCrawler.crawl_start Examples.crawler) st);
      [constructor | exact Hrun].
  - constructor.
Qed.

Lemma count_le_one_of_NoDup (log : list (string * Z)) (url : string) :
  NoDup (map fst log) ->
  (length (List.filter (fun e => String.eqb (fst e) url) log) <= 1)%nat.
Proof.
  induction log as [|[u d] log IH]; intros Hnd; [cbn; lia|].
  cbn [map fst] in Hnd. apply NoDup_cons in Hnd as [Hu Hnd].
  cbn [List.filter fst]. destruct (String.eqb_spec u url) as [-> | Hne].
  - cbn [length].
    assert (Hnone : List.filter (fun e => String.eqb (fst e) url) log = []).
    { clear IH Hnd. induction log as [|[u' d'] log IH']; [reflexivity|].
      cbn [List.filter fst]. cbn [map fst] in Hu.
      apply not_elem_of_cons in Hu as [Hne Hu].
      destruct (String.eqb_spec u' url); [congruence | apply IH', Hu]. }
    rewrite Hnone. cbn. lia.
  - apply IH, Hnd.
Qed.

(** X17. In the runs in which no call's test of line 68 is run while
    another call stands between its own test and its insertion of line 75,
    no URL is fetched twice, and what was fetched is in [visited_urls]. *)
Theorem one_fetch_per_url_when_exclusive (Policy Soup : Type)
  (W : SEOCrawler.World Policy Soup) (self : SEOCrawler.t Policy)
  (st : SEOCrawler.State) (url : string) :
  SEOCrawler.reachable_exclusive W self st ->
  (SEOCrawler.fetch_count url st <= 1)%nat
  /\ (SEOCrawler.fetch_count url st = 1%nat -> url ∈ SEOCrawler.visited_urls st).
Proof.
  intros Hreach.
  pose proof (exclusive_inv_reachable Policy Soup W self st Hreach) as Hinv.
  unfold SEOCrawler.fetch_count. split.
  - apply count_le_one_of_NoDup, (SEOCrawler.inv_fetched_once st Hinv).
  - intros Hone. apply (SEOCrawler.inv_fetched_visited st Hinv).
    destruct (List.filter _ _) as [|[u d] rest] eqn:Hf; [discriminate|].
    assert (Hin : In (u, d) (List.filter (fun e => String.eqb (fst e) url)
                               (SEOCrawler.fetch_log st)))
      by (rewrite Hf; left; reflexivity).
    apply filter_In in Hin as [Hin Hu]. cbn [fst] in Hu.
    apply String.eqb_eq in Hu. subst u.
    apply in_map_iff. exists (url, d). split; [reflexivity | exact Hin].
Qed.

Lemma twice_linked_fetched_once_in_turn :
  let st := Examples.state_after_exclusive Examples.twice_linked
              Examples.one_after_the_other in
  (SEOCrawler.fetch_count "https://ex.com/a" st <= 1)%nat
  /\ (SEOCrawler.fetch_count "https://ex.com/a" st = 1%nat ->
      "https://ex.com/a" ∈ SEOCrawler.visited_urls st).
Proof.
  apply (one_fetch_per_url_when_exclusive unit (list string)
           (Examples.world Examples.twice_linked) Examples.crawler
           (Examples.state_after_exclusive Examples.twice_linked
              Examples.one_after_the_other)
           "https://ex.com/a").
  apply state_after_exclusive_reachable.
Defined.

(** ** The crawler: a page whose analysis fails *)



(** ** The parsed page: removing tags *)

(** Induction on a tree, with the property known for the children. *)
Lemma node_induction (P : Bs4.node -> Prop) :
  (forall s, P (Bs4.Text s)) ->
  (forall s, P (Bs4.Comment s)) ->
  (forall i name attrs contents,
      List.Forall P contents -> P (Bs4.Tag i name attrs contents)) ->
  forall n, P n.
Proof.
  intros Htext Hcomment Htag.
  fix IH 1. intros [s|s|i name attrs contents].
  - apply Htext.
  - apply Hcomment.
  - apply Htag. induction contents as [|c contents IHc].
    + constructor.
    + constructor; [apply IH | exact IHc].
Qed.

Lemma has_id_remove (k i : nat) (n : Bs4.node) :
  Bs4.has_id k (Bs4.remove i n) = Bs4.has_id k n.
Proof. destruct n; reflexivity. Qed.

Lemma has_id_remove_ids (k : nat) (ids : list nat) (n : Bs4.node) :
  Bs4.has_id k (Spec.remove_ids ids n) = Bs4.has_id k n.
Proof. destruct n; reflexivity. Qed.

Lemma named_prune (names : list string) (n : Bs4.node) :
  Spec.named names (Spec.prune names n) = Spec.named names n.
Proof. destruct n; reflexivity. Qed.

Lemma existsb_has_id_remove_ids (ids ids' : list nat) (n : Bs4.node) :
  existsb (fun i => Bs4.has_id i (Spec.remove_ids ids' n)) ids
  = existsb (fun i => Bs4.has_id i n) ids.
Proof.
  induction ids as [|i ids IH]; [reflexivity|].
  cbn [existsb]. rewrite has_id_remove_ids, IH. reflexivity.
Qed.

(** Removing one tag and then a set of tags removes the set with the tag
    added. *)
Lemma remove_ids_cons (i : nat) (ids : list nat) (n : Bs4.node) :
  Spec.remove_ids ids (Bs4.remove i n) = Spec.remove_ids (i :: ids) n.
Proof.
  induction n as [s|s|j name attrs contents IH] using node_induction;
    [reflexivity | reflexivity |].
  cbn [Bs4.remove Spec.remove_ids]. f_equal.
  induction contents as [|c contents IHc]; [reflexivity|].
  apply Forall_cons_iff in IH as [Hc IH]. specialize (IHc IH).
  cbn [map List.filter existsb].
  rewrite has_id_remove, has_id_remove_ids.
  destruct (Bs4.has_id i c) eqn:Hi; cbn [negb orb].
  - exact IHc.
  - cbn [map List.filter]. rewrite Hc, IHc.
    rewrite !existsb_has_id_remove_ids. reflexivity.
Qed.

Lemma remove_ids_nil (n : Bs4.node) : Spec.remove_ids [] n = n.
Proof.
  induction n as [s|s|j name attrs contents IH] using node_induction;
    [reflexivity | reflexivity |].
  cbn [Spec.remove_ids]. f_equal.
  induction contents as [|c contents IHc]; [reflexivity|].
  apply Forall_cons_iff in IH as [Hc IH].
  cbn [map List.filter].
  change (existsb (fun i => Bs4.has_id i (Spec.remove_ids [] c)) []) with false.
  cbn [negb]. rewrite Hc, (IHc IH). reflexivity.
Qed.

(** The loop of line 22 removes the tags it was given, by identity. *)
Lemma decompose_loop (found : list Bs4.node) (soup : Bs4.node) :
  fold_left (fun soup script => Bs4.decompose script soup) found soup
  = Spec.remove_ids (omap Bs4.id_of found) soup.
Proof.
  revert soup. induction found as [|t found IH]; intros soup.
  - cbn. rewrite remove_ids_nil. reflexivity.
  - cbn [fold_left]. rewrite IH. destruct t as [s|s|i name attrs contents].
    + reflexivity.
    + reflexivity.
    + cbn [Bs4.decompose omap Bs4.id_of]. apply remove_ids_cons.
Qed.

Lemma tags_are_tags (n t : Bs4.node) :
  In t (Bs4.tags n) -> exists i name attrs contents, t = Bs4.Tag i name attrs contents.
Proof.
  induction n as [s|s|j name attrs contents IH] using node_induction;
    [intros [] | intros [] |].
  cbn [Bs4.tags]. intros [<- | Hin]; [eauto|].
  apply in_flat_map in Hin as [c [Hc Hin]].
  rewrite List.Forall_forall in IH. apply (IH c Hc Hin).
Qed.

Lemma tags_self (n : Bs4.node) (i : nat) (name : string)
  (attrs : gmap string string) (contents : list Bs4.node) :
  n = Bs4.Tag i name attrs contents -> In n (Bs4.tags n).
Proof. intros ->. left. reflexivity. Qed.

Lemma tags_below (c t : Bs4.node) (contents : list Bs4.node) :
  In c contents -> In t (Bs4.tags c) -> In t (flat_map Bs4.tags contents).
Proof. intros Hc Ht. apply in_flat_map. exists c. split; assumption. Qed.

(** When the identities to remove are those of the tags with one of the
    names, removing by identity is pruning by name. *)
Lemma remove_ids_prune (names : list string) (ids : list nat) (n : Bs4.node) :
  (forall t, In t (flat_map Bs4.tags (Bs4.contents_of n)) ->
             existsb (fun i => Bs4.has_id i t) ids = Spec.named names t) ->
  Spec.remove_ids ids n = Spec.prune names n.
Proof.
  induction n as [s|s|j name attrs contents IH] using node_induction;
    [reflexivity | reflexivity |].
  cbn [Bs4.contents_of]. intros Hflag.
  cbn [Spec.remove_ids Spec.prune]. f_equal.
  induction contents as [|c contents IHc]; [reflexivity|].
  apply Forall_cons_iff in IH as [Hc IH].
  cbn [map List.filter].
  rewrite existsb_has_id_remove_ids, named_prune.
  assert (Hsame : Spec.remove_ids ids c = Spec.prune names c).
  { apply Hc. intros t Ht. apply Hflag. cbn [flat_map]. apply in_or_app. left.
    destruct c as [s|s|k cname cattrs ccontents]; [destruct Ht | destruct Ht |].
    right. exact Ht. }
  assert (Hrest : List.filter
                    (fun c0 => negb (existsb (fun i => Bs4.has_id i c0) ids))
                    (map (Spec.remove_ids ids) contents)
                  = List.filter (fun c0 => negb (Spec.named names c0))
                      (map (Spec.prune names) contents)).
  { apply IHc; [exact IH|]. intros t Ht. apply Hflag. cbn [flat_map].
    apply in_or_app. right. exact Ht. }
  assert (Hhead : existsb (fun i => Bs4.has_id i c) ids = Spec.named names c).
  { destruct c as [s|s|k cname cattrs ccontents].
    - clear. induction ids; [reflexivity | assumption].
    - clear. induction ids; [reflexivity | assumption].
    - apply Hflag. cbn [flat_map Bs4.tags]. left. reflexivity. }
  rewrite Hhead, Hsame, Hrest. reflexivity.
Qed.

Lemma same_id_same_tag (l : list Bs4.node) (x y : Bs4.node) (i : nat) :
  NoDup (omap Bs4.id_of l) ->
  In x l -> In y l -> Bs4.id_of x = Some i -> Bs4.id_of y = Some i -> x = y.
Proof.
  induction l as [|z l IH]; intros Hnd Hx Hy Hix Hiy; [destruct Hx|].
  cbn in Hnd.
  assert (Hmem : forall w, In w l -> Bs4.id_of w = Some i ->
                           i ∈ omap Bs4.id_of l).
  { intros w Hw Hiw. apply list_elem_of_omap. exists w.
    split; [apply list_elem_of_In, Hw | exact Hiw]. }
  destruct Hx as [-> | Hx], Hy as [-> | Hy].
  - reflexivity.
  - rewrite Hix in Hnd. cbn in Hnd. apply NoDup_cons in Hnd as [Hnot _].
    exfalso. apply Hnot. apply (Hmem y Hy Hiy).
  - rewrite Hiy in Hnd. cbn in Hnd. apply NoDup_cons in Hnd as [Hnot _].
    exfalso. apply Hnot. apply (Hmem x Hx Hix).
  - apply IH; try assumption.
    destruct (Bs4.id_of z); [|exact Hnd].
    cbn in Hnd. apply NoDup_cons in Hnd as [_ Hnd]. exact Hnd.
Qed.

(** With tags told apart by their identities, the identities of the tags
    [find_all] gives are those of the tags that bear the names. *)
Lemma found_ids_flag (names : list string) (soup t : Bs4.node) :
  NoDup (Spec.tag_ids soup) ->
  In t (Bs4.descendants soup) ->
  existsb (fun i => Bs4.has_id i t)
    (omap Bs4.id_of (Bs4.find_all names soup))
  = Spec.named names t.
Proof.
  intros Hnd Ht.
  destruct (proj1 (in_flat_map _ _ _) Ht) as [c [_ Htc]].
  destruct (tags_are_tags c t Htc) as (i & name & attrs & contents & ->).
  cbn [Spec.named].
  destruct (Url.mem name names) eqn:Hname.
  - apply existsb_exists. exists i. split; [|apply Nat.eqb_refl].
    apply list_elem_of_In, list_elem_of_omap.
    exists (Bs4.Tag i name attrs contents). split; [|reflexivity].
    apply list_elem_of_In. unfold Bs4.find_all. apply filter_In.
    split; [exact Ht | exact Hname].
  - apply not_true_is_false. intros Hex.
    apply existsb_exists in Hex as [k [Hk Hik]].
    cbn [Bs4.has_id] in Hik. apply Nat.eqb_eq in Hik. subst k.
    apply list_elem_of_In, list_elem_of_omap in Hk as [f [Hf Hif]].
    apply list_elem_of_In in Hf. unfold Bs4.find_all in Hf.
    apply filter_In in Hf as [Hf Hfname].
    assert (Heq : Bs4.Tag i name attrs contents = f).
    { apply (same_id_same_tag (Bs4.descendants soup) _ _ i Hnd Ht Hf);
        [reflexivity | exact Hif]. }
    subst f. cbn [Bs4.name_of] in Hfname. congruence.
Qed.

Lemma extract_text_content_soup (soup : Bs4.node) :
  NoDup (Spec.tag_ids soup) ->
  snd (ContentAnalyzer.extract_text_content soup)
  = Spec.prune ContentAnalyzer.removed_tags soup.
Proof.
  intros Hnd. unfold ContentAnalyzer.extract_text_content. cbn [snd].
  rewrite decompose_loop. apply remove_ids_prune.
  intros t Ht. apply found_ids_flag; assumption.
Qed.

Lemma name_of_prune (names : list string) (n : Bs4.node) :
  Bs4.name_of (Spec.prune names n) = Bs4.name_of n.
Proof. destruct n; reflexivity. Qed.

Lemma attrs_of_prune (names : list string) (n : Bs4.node) :
  Bs4.attrs_of (Spec.prune names n) = Bs4.attrs_of n.
Proof. destruct n; reflexivity. Qed.

(** The tags of the pruned tree are the tags kept, pruned. *)
Lemma tags_prune (names : list string) (n : Bs4.node) :
  Bs4.tags (Spec.prune names n) = map (Spec.prune names) (Spec.kept_tags names n).
Proof.
  induction n as [s|s|j name attrs contents IH] using node_induction;
    [reflexivity | reflexivity |].
  cbn [Spec.prune Bs4.tags Spec.kept_tags map]. f_equal.
  induction contents as [|c contents IHc]; [reflexivity|].
  apply Forall_cons_iff in IH as [Hc IH]. specialize (IHc IH).
  cbn [map List.filter flat_map]. rewrite named_prune.
  destruct (Spec.named names c); cbn [negb].
  - exact IHc.
  - cbn [flat_map]. rewrite map_app, Hc, IHc. reflexivity.
Qed.

Lemma descendants_prune (names : list string) (soup : Bs4.node) :
  Bs4.descendants (Spec.prune names soup)
  = map (Spec.prune names) (Spec.kept_descendants names soup).
Proof.
  unfold Bs4.descendants, Spec.kept_descendants.
  destruct soup as [s|s|j name attrs contents]; [reflexivity | reflexivity |].
  cbn [Spec.prune Bs4.contents_of].
  induction contents as [|c contents IHc]; [reflexivity|].
  cbn [map List.filter flat_map]. rewrite named_prune.
  destruct (Spec.named names c); cbn [negb].
  - exact IHc.
  - cbn [flat_map]. rewrite map_app, tags_prune, IHc. reflexivity.
Qed.

Lemma omap_step {A B : Type} (f : A -> option B) (x : A) (l : list A) :
  omap f (x :: l)
  = match f x with Some y => y :: omap f l | None => omap f l end.
Proof. reflexivity. Qed.

Lemma omap_filter_filter {A B : Type} (p : A -> bool) (f : A -> option B)
  (l : list A) :
  omap f (List.filter (fun x => match f x with Some _ => true | None => false end)
            (List.filter p l))
  = omap (fun x => if p x then f x else None) l.
Proof.
  induction l as [|x l IH]; [reflexivity|].
  rewrite (omap_step (fun x => if p x then f x else None)).
  cbn [List.filter]. destruct (p x) eqn:Hp.
  - cbn [List.filter]. destruct (f x) eqn:Hf.
    + rewrite omap_step, Hf, IH. reflexivity.
    + exact IH.
  - exact IH.
Qed.

Lemma anchor_hrefs_omap (soup : Bs4.node) :
  SEOAnalyzer.anchor_hrefs soup
  = omap Spec.anchor_href (Bs4.descendants soup).
Proof.
  exact (omap_filter_filter (fun tag => Url.mem (Bs4.name_of tag) ["a"])
           (fun tag => Bs4.attrs_of tag !! "href") (Bs4.descendants soup)).
Qed.

Lemma anchor_href_prune_one (names : list string) (t : Bs4.node) :
  Spec.anchor_href (Spec.prune names t) = Spec.anchor_href t.
Proof.
  unfold Spec.anchor_href. rewrite name_of_prune, attrs_of_prune. reflexivity.
Qed.

Lemma anchor_href_prune (names : list string) (l : list Bs4.node) :
  omap Spec.anchor_href (map (Spec.prune names) l) = omap Spec.anchor_href l.
Proof.
  induction l as [|t l IH]; [reflexivity|].
  cbn [map]. rewrite !omap_step, anchor_href_prune_one, IH. reflexivity.
Qed.

(** The kept tags of a tree, its root apart, bear none of the names. *)
Lemma kept_tags_not_named (names : list string) (n t : Bs4.node) :
  In t (Spec.kept_tags names n) -> t = n \/ Spec.named names t = false.
Proof.
  induction n as [s|s|j name attrs contents IH] using node_induction;
    [intros [] | intros [] |].
  cbn [Spec.kept_tags]. intros [<- | Hin]; [left; reflexivity|]. right.
  apply in_flat_map in Hin as [c [Hc Hin]].
  destruct (Spec.named names c) eqn:Hnamed; [destruct Hin|].
  rewrite List.Forall_forall in IH.
  destruct (IH c Hc Hin) as [-> | Hn]; assumption.
Qed.

Lemma kept_descendants_not_named (names : list string) (soup t : Bs4.node) :
  In t (Spec.kept_descendants names soup) -> Spec.named names t = false.
Proof.
  unfold Spec.kept_descendants. intros Hin.
  apply in_flat_map in Hin as [c [Hc Hin]].
  destruct (Spec.named names c) eqn:Hnamed; [destruct Hin|].
  destruct (kept_tags_not_named names c t Hin) as [-> | Hn]; assumption.
Qed.

Lemma kept_tags_sublist (names : list string) (n : Bs4.node) :
  sublist (Spec.kept_tags names n) (Bs4.tags n).
Proof.
  induction n as [s|s|j name attrs contents IH] using node_induction;
    [reflexivity | reflexivity |].
  cbn [Spec.kept_tags Bs4.tags]. apply sublist_skip.
  induction contents as [|c contents IHc]; [reflexivity|].
  apply Forall_cons_iff in IH as [Hc IH]. specialize (IHc IH).
  cbn [flat_map]. destruct (Spec.named names c).
  - apply sublist_inserts_l. exact IHc.
  - apply sublist_app; assumption.
Qed.

Lemma kept_descendants_sublist (names : list string) (soup : Bs4.node) :
  sublist (Spec.kept_descendants names soup) (Bs4.descendants soup).
Proof.
  unfold Spec.kept_descendants, Bs4.descendants.
  induction (Bs4.contents_of soup) as [|c contents IHc]; [reflexivity|].
  cbn [flat_map]. destruct (Spec.named names c).
  - apply sublist_inserts_l. exact IHc.
  - apply sublist_app; [apply kept_tags_sublist | exact IHc].
Qed.

Lemma omap_sublist {A B : Type} (f : A -> option B) (l k : list A) :
  sublist l k -> sublist (omap f l) (omap f k).
Proof.
  induction 1 as [|x l k _ IH|x l k _ IH].
  - constructor.
  - rewrite !omap_step. destruct (f x); [apply sublist_skip|]; exact IH.
  - rewrite omap_step. destruct (f x); [apply sublist_cons|]; exact IH.
Qed.

Lemma no_removed_tag_kept (l : list Bs4.node) :
  (forall u, In u l -> Spec.named ContentAnalyzer.removed_tags u = false) ->
  List.filter (fun tag => Url.mem (Bs4.name_of tag) ContentAnalyzer.removed_tags)
    (map (Spec.prune ContentAnalyzer.removed_tags) l)
  = [].
Proof.
  induction l as [|u l IH]; intros Hall; [reflexivity|].
  cbn [map List.filter]. rewrite name_of_prune.
  assert (Hu : Url.mem (Bs4.name_of u) ContentAnalyzer.removed_tags = false).
  { specialize (Hall u (or_introl eq_refl)).
    destruct u; [reflexivity | reflexivity | exact Hall]. }
  rewrite Hu. apply IH. intros w Hw. apply Hall. right. exact Hw.
Qed.

(** X19. The loop of line 22 in [extract_text_content] leaves the soup
    without any [script], [style], [nav], [header] or [footer] tag and
    without what was under them, and with everything else in place: tags
    nested in one another are no obstacle, although the loop runs over the
    tags found before anything was removed. The soup is the caller's
    object, so the anchors found in it afterwards are those outside such
    tags only, in document order. *)
Theorem decomposed_tags_are_gone (soup : Bs4.node) :
  NoDup (Spec.tag_ids soup) ->
  let after := snd (ContentAnalyzer.extract_text_content soup) in
  after = Spec.prune ContentAnalyzer.removed_tags soup
  /\ Bs4.find_all ContentAnalyzer.removed_tags after = []
  /\ SEOAnalyzer.anchor_hrefs after
     = omap Spec.anchor_href
         (Spec.kept_descendants ContentAnalyzer.removed_tags soup)
  /\ sublist (SEOAnalyzer.anchor_hrefs after) (SEOAnalyzer.anchor_hrefs soup).
Proof.
  intros Hnd after. subst after.
  rewrite (extract_text_content_soup soup Hnd).
  split; [reflexivity|].
  assert (Hhrefs : SEOAnalyzer.anchor_hrefs
                     (Spec.prune ContentAnalyzer.removed_tags soup)
                   = omap Spec.anchor_href
                       (Spec.kept_descendants ContentAnalyzer.removed_tags soup)).
  { rewrite anchor_hrefs_omap, descendants_prune. apply anchor_href_prune. }
  split; [|split; [exact Hhrefs|]].
  - unfold Bs4.find_all. rewrite descendants_prune.
    apply no_removed_tag_kept. intros u Hu.
    apply (kept_descendants_not_named _ soup u Hu).
  - rewrite Hhrefs, anchor_hrefs_omap.
    apply omap_sublist, kept_descendants_sublist.
Qed.

Lemma navigation_page_after_extraction :
  let after := snd (ContentAnalyzer.extract_text_content
                      Examples.page_with_navigation) in
  after = Spec.prune ContentAnalyzer.removed_tags Examples.page_with_navigation
  /\ Bs4.find_all ContentAnalyzer.removed_tags after = []
  /\ SEOAnalyzer.anchor_hrefs after
     = omap Spec.anchor_href
         (Spec.kept_descendants ContentAnalyzer.removed_tags
            Examples.page_with_navigation)
  /\ sublist (SEOAnalyzer.anchor_hrefs after)
       (SEOAnalyzer.anchor_hrefs Examples.page_with_navigation).
Proof.
  apply (decomposed_tags_are_gone Examples.page_with_navigation).
  apply (bool_decide_unpack _). vm_compute. reflexivity.
Defined.

(** ** The content analyzer on a parsed page *)

Lemma readability_returns (text : string) :
  exists r, ContentAnalyzer.analyze_readability text = Py.Ok r.
Proof.
  unfold ContentAnalyzer.analyze_readability.
  destruct (sum_syllables_nonempty _ (findall_words_nonempty text ""))
    as [n [Hn _]].
  unfold ContentAnalyzer._split_into_words, Py.findall_words.
  rewrite Hn. cbn [Py.bind]. eexists. reflexivity.
Qed.

Lemma analyze_soup_after (soup : Bs4.node) :
  snd (ContentAnalyzer.analyze soup)
  = snd (ContentAnalyzer.extract_text_content soup).
Proof.
  unfold ContentAnalyzer.analyze.
  destruct (ContentAnalyzer.extract_text_content soup). reflexivity.
Qed.

Lemma content_analyze_returns (soup : Bs4.node) :
  let text := fst (ContentAnalyzer.extract_text_content soup) in
  let after := snd (ContentAnalyzer.extract_text_content soup) in
  exists readability keywords,
    ContentAnalyzer.analyze_readability text = Py.Ok readability
    /\ ContentAnalyzer.analyze_keyword_density text = Py.Ok keywords
    /\ fst (ContentAnalyzer.analyze soup)
       = Py.Ok
           {| ContentAnalyzer.readability := readability;
              ContentAnalyzer.keyword_analysis := keywords;
              ContentAnalyzer.content_structure :=
                ContentAnalyzer.analyze_content_structure (Bs4.find_all ["p"])
                  (Bs4.find_all ["ul"; "ol"]) Bs4.get_text after;
              ContentAnalyzer.word_count :=
                length (ContentAnalyzer._split_into_words text);
              ContentAnalyzer.sufficient_content :=
                (ContentAnalyzer.min_word_count
                 <=? Z.of_nat (length (ContentAnalyzer._split_into_words text)))%Z |}.
Proof.
  cbn zeta. unfold ContentAnalyzer.analyze.
  destruct (ContentAnalyzer.extract_text_content soup) as [text after].
  cbn [fst snd].
  destruct (readability_returns text) as [readability Hr].
  assert (Hk : exists keywords,
             ContentAnalyzer.analyze_keyword_density text = Py.Ok keywords).
  { unfold ContentAnalyzer.analyze_keyword_density.
    rewrite keyword_density_returns. cbn [Py.bind]. eexists. reflexivity. }
  destruct Hk as [keywords Hk].
  exists readability, keywords. rewrite Hr, Hk. cbn [Py.bind].
  repeat split; reflexivity.
Qed.

(** X20. The content analysis of a parsed page never raises. Its word
    count is the number of words of the extracted text, and the content
    counts as sufficient from 300 words on; the paragraphs and lists it
    reports are those left in the soup by the text extraction, so that
    what stands under a [header], [footer] or [nav] tag is not counted. *)
Theorem content_analysis_returns (soup : Bs4.node) :
  NoDup (Spec.tag_ids soup) ->
  let pruned := Spec.prune ContentAnalyzer.removed_tags soup in
  exists r,
    fst (ContentAnalyzer.analyze soup) = Py.Ok r
    /\ snd (ContentAnalyzer.analyze soup) = pruned
    /\ ContentAnalyzer.word_count r
       = length (ContentAnalyzer._split_into_words
                   (fst (ContentAnalyzer.extract_text_content soup)))
    /\ (ContentAnalyzer.sufficient_content r = true
        <-> (300 <= ContentAnalyzer.word_count r)%nat)
    /\ ContentAnalyzer.paragraph_count (ContentAnalyzer.content_structure r)
       = length (Bs4.find_all ["p"] pruned)
    /\ ContentAnalyzer.list_count (ContentAnalyzer.content_structure r)
       = length (Bs4.find_all ["ul"; "ol"] pruned).
Proof.
  intros Hnd pruned.
  destruct (content_analyze_returns soup) as (readability & keywords & _ & _ & Hr).
  cbn zeta in Hr. rewrite Hr. eexists. split; [reflexivity|].
  rewrite analyze_soup_after, (extract_text_content_soup soup Hnd).
  cbn [ContentAnalyzer.word_count ContentAnalyzer.sufficient_content
       ContentAnalyzer.content_structure].
  split; [reflexivity|]. split; [reflexivity|]. split.
  - unfold ContentAnalyzer.min_word_count. rewrite Z.leb_le. lia.
  - unfold ContentAnalyzer.analyze_content_structure.
    cbn [ContentAnalyzer.paragraph_count ContentAnalyzer.list_count].
    split; reflexivity.
Qed.

Lemma navigation_page_content_analysis :
  let soup := Examples.page_with_navigation in
  let pruned := Spec.prune ContentAnalyzer.removed_tags soup in
  exists r,
    fst (ContentAnalyzer.analyze soup) = Py.Ok r
    /\ snd (ContentAnalyzer.analyze soup) = pruned
    /\ ContentAnalyzer.word_count r
       = length (ContentAnalyzer._split_into_words
                   (fst (ContentAnalyzer.extract_text_content soup)))
    /\ (ContentAnalyzer.sufficient_content r = true
        <-> (300 <= ContentAnalyzer.word_count r)%nat)
    /\ ContentAnalyzer.paragraph_count (ContentAnalyzer.content_structure r)
       = length (Bs4.find_all ["p"] pruned)
    /\ ContentAnalyzer.list_count (ContentAnalyzer.content_structure r)
       = length (Bs4.find_all ["ul"; "ol"] pruned).
Proof.
  apply (content_analysis_returns Examples.page_with_navigation).
  apply (bool_decide_unpack _). vm_compute. reflexivity.
Defined.

(** ** The crawler with the repository's analyzers *)

Section RepoWorld.

Import SEOCrawler.

Variable Policy : Type.
Variable lib : Url.Lib.
Variable opener : string -> Py.result (RobotsParser.Answer Policy).
Variable matcher : Policy -> string -> string -> Py.result bool.
Variable validators : string -> bool.
Variable fetch : string -> Py.result (Response * Q).
Variable parse : string -> Bs4.node.
Variable self : SEOCrawler.t Policy.

Local Abbreviation W := (repo_world lib opener matcher validators fetch parse).

(** X21. The links a call submits are read from the soup after the
    content analyzer has taken the [script], [style], [nav], [header] and
    [footer] tags out of it: the loop of [extract_links] runs over the
    [href] values of the anchors outside such tags, and of no other. When
    it returns, it returns the resolved URLs of those anchors that
    [is_valid_url] accepts, in document order; it raises when one of those
    values cannot be resolved or tested. A link that stands only in a
    navigation bar is never followed. The link census of the SEO analysis
    ran on the same soup before: it counts the anchors of the whole
    page. *)
Theorem links_under_navigation_not_followed (soup : Bs4.node) (url : string) :
  NoDup (Spec.tag_ids soup) ->
  let kept := omap Spec.anchor_href
                (Spec.kept_descendants ContentAnalyzer.removed_tags soup) in
  extract_links W self soup url = extract_loop W self url [] kept
  /\ (forall links, extract_links W self soup url = Py.Ok links ->
        exists resolved,
          Forall2 (fun href a => Url.urljoin lib url href = Py.Ok a) kept resolved
          /\ links = List.filter (Spec.accepted W self) resolved)
  /\ (forall e, extract_links W self soup url = Py.Raise e ->
        exists href,
          In href kept
          /\ (Url.urljoin lib url href = Py.Raise e
              \/ exists a, Url.urljoin lib url href = Py.Ok a
                           /\ is_valid_url W self a = Py.Raise e))
  /\ (forall seo, SEOAnalyzer.analyze_soup soup url = Py.Ok seo ->
        SEOAnalyzer.total_links (SEOAnalyzer.links seo)
        = length (omap Spec.anchor_href (Bs4.descendants soup))).
Proof.
  intros Hnd kept.
  assert (Hloop : extract_links W self soup url = extract_loop W self url [] kept).
  { unfold extract_links. cbn [find_all_a_href repo_world].
    rewrite analyze_soup_after, (extract_text_content_soup soup Hnd).
    rewrite anchor_hrefs_omap, descendants_prune, anchor_href_prune.
    reflexivity. }
  split; [exact Hloop|]. split; [|split].
  - intros links Hlinks. rewrite Hloop in Hlinks.
    destruct (extract_loop_ok Policy Bs4.node W self _ _ _ _ Hlinks)
      as (resolved & Hres & _ & ->).
    exists resolved. split; [exact Hres | reflexivity].
  - intros e He. rewrite Hloop in He.
    exact (extract_loop_raises Policy Bs4.node W self _ _ _ _ He).
  - intros seo Hseo. unfold SEOAnalyzer.analyze_soup, SEOAnalyzer.analyze in Hseo.
    destruct (SEOAnalyzer.analyze_headings _) as [headings|e]; [|discriminate].
    cbn [Py.bind] in Hseo.
    destruct (SEOAnalyzer.analyze_images _) as [images|e]; [|discriminate].
    cbn [Py.bind] in Hseo. injection Hseo as <-. cbn [SEOAnalyzer.links].
    destruct (analyze_links_counts (SEOAnalyzer.anchor_hrefs soup) url) as [Ht _].
    cbn zeta in Ht. rewrite Ht, anchor_hrefs_omap. reflexivity.
Qed.



End RepoWorld.

Lemma navigation_page_links :
  let W := Examples.bare_image_world in
  let kept := omap Spec.anchor_href
                (Spec.kept_descendants ContentAnalyzer.removed_tags
                   Examples.page_with_navigation) in
  SEOCrawler.extract_links W Examples.crawler Examples.page_with_navigation
    "https://ex.com/"
  = SEOCrawler.extract_loop W Examples.crawler "https://ex.com/" [] kept
  /\ (forall links,
        SEOCrawler.extract_links W Examples.crawler Examples.page_with_navigation
          "https://ex.com/" = Py.Ok links ->
        exists resolved,
          Forall2 (fun href a =>
                     Url.urljoin Examples.plain_urls "https://ex.com/" href = Py.Ok a)
            kept resolved
          /\ links = List.filter (Spec.accepted W Examples.crawler) resolved)
  /\ (forall e,
        SEOCrawler.extract_links W Examples.crawler Examples.page_with_navigation
          "https://ex.com/" = Py.Raise e ->
        exists href,
          In href kept
          /\ (Url.urljoin Examples.plain_urls "https://ex.com/" href = Py.Raise e
              \/ exists a,
                   Url.urljoin Examples.plain_urls "https://ex.com/" href = Py.Ok a
                   /\ SEOCrawler.is_valid_url W Examples.crawler a = Py.Raise e))
  /\ (forall seo,
        SEOAnalyzer.analyze_soup Examples.page_with_navigation "https://ex.com/"
        = Py.Ok seo ->
        SEOAnalyzer.total_links (SEOAnalyzer.links seo)
        = length (omap Spec.anchor_href
                    (Bs4.descendants Examples.page_with_navigation))).
Proof.
  apply (links_under_navigation_not_followed unit Examples.plain_urls
           Examples.no_robots Examples.allow_all
           Examples.accept_http Examples.bare_image_site Examples.parse
           Examples.crawler Examples.page_with_navigation "https://ex.com/").
  apply (bool_decide_unpack _). vm_compute. reflexivity.
Defined.

(** On that page the loop runs over [/story] alone, and the census counts
    two links. *)
Example navigation_page_links_computed :
  SEOCrawler.extract_links Examples.bare_image_world Examples.crawler
    Examples.page_with_navigation "https://ex.com/"
  = Py.Ok ["https://ex.com/story"]
  /\ omap Spec.anchor_href (Bs4.descendants Examples.page_with_navigation)
     = ["/menu"; "/story"].
Proof. split; vm_compute; reflexivity. Qed.


(** A home page with a link that [urljoin] refuses: the whole page is
    given up, the link before the broken one is not followed either. *)
Example home_page_with_broken_link_dropped :
  let W := Examples.broken_link_world in
  let st := match SEOCrawler.run W Examples.crawler [0; 0; 0; 0]%nat
                    (SEOCrawler.crawl_start Examples.crawler) with
            | Some st => st
            | None => SEOCrawler.crawl_start Examples.crawler
            end in
  Url.urljoin Examples.plain_urls "https://ex.com/" "//[x"
  = Py.Raise "Invalid IPv6 URL"
  /\ SEOCrawler.crawl_result st
     = Some [("url", Py.VStr "https://ex.com/");
             ("error", Py.VStr "Invalid IPv6 URL")]
  /\ length (SEOCrawler.threads st) = 1%nat
  /\ SEOCrawler.fetch_log st = [("https://ex.com/", 0%Z)].
Proof.
  intros W st. split; [vm_compute; reflexivity|].
  split; [vm_compute; reflexivity|].
  split; vm_compute; reflexivity.
Qed.

(** ** Where robots.txt is looked for *)

Lemma all_chars_app (p : ascii -> bool) (a b : string) :
  Url.all_chars p (a ++ b) = Url.all_chars p a && Url.all_chars p b.
Proof.
  induction a as [|c a IH]; [reflexivity|].
  change (String c a ++ b) with (String c (a ++ b)).
  cbn [Url.all_chars]. rewrite IH, andb_assoc. reflexivity.
Qed.

(** What [remove_unsafe] returns holds no tab, carriage return or line
    feed, and a text that holds none is left as it is. *)
Lemma remove_unsafe_clean (s : string) :
  Url.all_chars (fun c => negb (Url.unsafe_char c)) (Url.remove_unsafe s) = true.
Proof.
  induction s as [|c s IH]; [reflexivity|].
  cbn [Url.remove_unsafe]. destruct (Url.unsafe_char c) eqn:Hc; [exact IH|].
  cbn [Url.all_chars]. rewrite Hc, IH. reflexivity.
Qed.

Lemma remove_unsafe_id (s : string) :
  Url.all_chars (fun c => negb (Url.unsafe_char c)) s = true ->
  Url.remove_unsafe s = s.
Proof.
  induction s as [|c s IH]; [reflexivity|].
  cbn [Url.all_chars Url.remove_unsafe]. intros H.
  apply andb_true_iff in H as [Hc Hs].
  apply negb_true_iff in Hc. rewrite Hc, (IH Hs). reflexivity.
Qed.

Lemma cut_app (sep : ascii) (s a b : string) :
  Py.cut sep s = Some (a, b) -> s = a ++ String sep b.
Proof.
  revert a. induction s as [|c s IH]; intros a; [discriminate|].
  cbn [Py.cut]. destruct (Ascii.eqb_spec c sep) as [-> | Hne].
  - intros [= <- <-]. reflexivity.
  - destruct (Py.cut sep s) as [[a' b']|]; [|discriminate].
    intros [= <- <-]. rewrite (IH a' eq_refl). reflexivity.
Qed.

(** What is left after the scheme is the end of the text. *)
Lemma split_scheme_suffix (default url sch rest : string) :
  Url.split_scheme default url = (sch, rest) -> exists pre, url = pre ++ rest.
Proof.
  unfold Url.split_scheme.
  destruct (Py.cut ":" url) as [[[|c0 rest0] after]|] eqn:Hcut;
    try (intros [= <- <-]; exists ""; reflexivity).
  destruct (_ && _).
  - intros [= <- <-]. exists (String c0 rest0 ++ ":").
    rewrite (cut_app _ _ _ _ Hcut), str_app_assoc. reflexivity.
  - intros [= <- <-]. exists "". reflexivity.
Qed.

(** The authority is the beginning of the text, up to the first [/], [?]
    or [#]. *)
Lemma splitnetloc_spec (s n r : string) :
  Url.splitnetloc s = (n, r) ->
  s = n ++ r /\ Url.all_chars (fun c => negb (Py.char_in c "/?#")) n = true.
Proof.
  revert n. induction s as [|c s IH]; intros n.
  - intros [= <- <-]. split; reflexivity.
  - cbn [Url.splitnetloc]. destruct (Py.char_in c "/?#") eqn:Hc.
    + intros [= <- <-]. split; reflexivity.
    + destruct (Url.splitnetloc s) as [n' r']. intros [= <- <-].
      destruct (IH n' eq_refl) as [-> Hn']. split; [reflexivity|].
      cbn [Url.all_chars]. rewrite Hc, Hn'. reflexivity.
Qed.

Lemma splitnetloc_app (n : string) (c : ascii) (r : string) :
  Url.all_chars (fun c => negb (Py.char_in c "/?#")) n = true ->
  Py.char_in c "/?#" = true ->
  Url.splitnetloc (n ++ String c r) = (n, String c r).
Proof.
  intros Hn Hc. induction n as [|x n IH].
  - change ("" ++ String c r) with (String c r).
    cbn [Url.splitnetloc]. rewrite Hc. reflexivity.
  - change (String x n ++ String c r) with (String x (n ++ String c r)).
    cbn [Url.all_chars] in Hn. apply andb_true_iff in Hn as [Hx Hn].
    apply negb_true_iff in Hx. cbn [Url.splitnetloc]. rewrite Hx, (IH Hn).
    reflexivity.
Qed.

(** A text begins with [//] or takes the other branch of the test
    [url[:2] == '//']. *)
Lemma double_slash_cases (url : string) :
  (exists rest, url = String "/" (String "/" rest))
  \/ (forall (A : Type) (f : string -> A) (d : A),
        match url with
        | String "/" (String "/" rest) => f rest
        | _ => d
        end = d).
Proof.
  destruct url as [|c1 [|c2 rest]]; try (right; reflexivity).
  - right. intros A f d. destruct c1 as [[] [] [] [] [] [] [] []]; reflexivity.
  - destruct c1 as [[] [] [] [] [] [] [] []];
      try (right; intros A f d; reflexivity).
    destruct c2 as [[] [] [] [] [] [] [] []];
      try (right; intros A f d; reflexivity).
    left. exists rest. reflexivity.
Qed.

(** The authority [urlsplit] returns has passed its tests. *)
Lemma urlsplit_netloc (lib : Url.Lib) (url default : string) (r : Url.SplitResult) :
  Url.urlsplit lib url default = Py.Ok r ->
  Url.netloc r <> "" ->
  Url.all_chars (fun c => negb (Url.unsafe_char c)) (Url.netloc r) = true
  /\ Url.all_chars (fun c => negb (Py.char_in c "/?#")) (Url.netloc r) = true
  /\ Url.check_brackets lib (Url.netloc r) = Py.Ok tt
  /\ Url._checknetloc lib (Url.netloc r) = Py.Ok tt.
Proof.
  unfold Url.urlsplit.
  pose proof (remove_unsafe_clean (Url.lstrip_c0 url)) as Hclean.
  destruct (Url.split_scheme _ (Url.remove_unsafe (Url.lstrip_c0 url)))
    as [sch url1] eqn:Hscheme.
  destruct (split_scheme_suffix _ _ _ _ Hscheme) as [pre Hpre].
  rewrite Hpre, all_chars_app in Hclean.
  apply andb_true_iff in Hclean as [_ Hclean].
  assert (Hempty : forall u : string,
             Py.bind (Py.Ok (EmptyString, u))
               (fun '(net, url2) =>
                  let '(url3, frag) :=
                    match Py.cut "#" url2 with
                    | Some (a, b) => (a, b)
                    | None => (url2, EmptyString)
                    end in
                  let '(url4, qry) :=
                    match Py.cut "?" url3 with
                    | Some (a, b) => (a, b)
                    | None => (url3, EmptyString)
                    end in
                  Py.bind (Url._checknetloc lib net) (fun _ =>
                  Py.Ok (Url.mkSplit sch net url4 qry frag))) = Py.Ok r ->
             Url.netloc r <> "" -> False).
  { intros u. cbn [Py.bind].
    destruct (Py.cut "#" u) as [[a b]|]; destruct (Py.cut "?" _) as [[a' b']|];
      cbn; intros [= <-] Hne; apply Hne; reflexivity. }
  destruct (double_slash_cases url1) as [[rest ->] | Hno];
    [|rewrite Hno; intros H1 H2; exfalso; exact (Hempty _ H1 H2)].
  destruct (Url.splitnetloc rest) as [net url2] eqn:Hnet.
  destruct (splitnetloc_spec _ _ _ Hnet) as [Hrest Hdelims].
  destruct (Url.check_brackets lib net) as [[]|e] eqn:Hbr; [|discriminate].
  cbn [Py.bind].
  destruct (Py.cut "#" url2) as [[a b]|]; destruct (Py.cut "?" _) as [[a' b']|];
    destruct (Url._checknetloc lib net) as [[]|e] eqn:Hck; try discriminate;
    cbn [Py.bind]; intros [= <-] _; cbn [Url.netloc];
    (split; [|split; [exact Hdelims|split; [exact Hbr | exact Hck]]]);
    change (String "/" (String "/" rest)) with ("//" ++ rest) in Hclean;
    rewrite Hrest, !all_chars_app in Hclean;
    apply andb_true_iff in Hclean as [_ Hclean];
    apply andb_true_iff in Hclean as [Hclean _]; exact Hclean.
Qed.

Lemma remove_unsafe_app (a b : string) :
  Url.remove_unsafe (a ++ b) = Url.remove_unsafe a ++ Url.remove_unsafe b.
Proof.
  induction a as [|c a IH]; [reflexivity|].
  change (String c a ++ b) with (String c (a ++ b)).
  cbn [Url.remove_unsafe]. destruct (Url.unsafe_char c); [exact IH|].
  rewrite IH. reflexivity.
Qed.

(** An http or https URL made of an authority that [urlsplit] has
    returned and of the path [/robots.txt] is split into these parts. *)
Lemma urlsplit_rebuilt (lib : Url.Lib) (sch n : string) :
  sch = "http" \/ sch = "https" ->
  Url.all_chars (fun c => negb (Url.unsafe_char c)) n = true ->
  Url.all_chars (fun c => negb (Py.char_in c "/?#")) n = true ->
  Url.check_brackets lib n = Py.Ok tt ->
  Url._checknetloc lib n = Py.Ok tt ->
  Url.urlsplit lib (sch ++ "://" ++ n ++ "/robots.txt") ""
  = Py.Ok (Url.mkSplit sch n "/robots.txt" "" "").
Proof.
  intros Hsch Hsafe Hdelims Hbr Hck.
  assert (Hclean : Url.remove_unsafe (n ++ "/robots.txt") = n ++ "/robots.txt").
  { apply remove_unsafe_id. rewrite all_chars_app, Hsafe. reflexivity. }
  assert (Hnet : Url.splitnetloc (n ++ "/robots.txt") = (n, "/robots.txt"))
    by (apply splitnetloc_app; [exact Hdelims | reflexivity]).
  assert (Hrest : forall sch' : string,
             Py.bind
               (let '(net, url2) := Url.splitnetloc (n ++ "/robots.txt") in
                Py.bind (Url.check_brackets lib net) (fun _ => Py.Ok (net, url2)))
               (fun '(net, url2) =>
                  let '(url3, frag) :=
                    match Py.cut "#" url2 with
                    | Some (a, b) => (a, b)
                    | None => (url2, EmptyString)
                    end in
                  let '(url4, qry) :=
                    match Py.cut "?" url3 with
                    | Some (a, b) => (a, b)
                    | None => (url3, EmptyString)
                    end in
                  Py.bind (Url._checknetloc lib net) (fun _ =>
                  Py.Ok (Url.mkSplit sch' net url4 qry frag)))
             = Py.Ok (Url.mkSplit sch' n "/robots.txt" "" "")).
  { intros sch'. rewrite Hnet, Hbr. cbn [Py.bind Py.cut]. rewrite Hck.
    reflexivity. }
  unfold Url.urlsplit.
  destruct Hsch as [-> | ->].
  - change (Url.lstrip_c0 ("http" ++ "://" ++ n ++ "/robots.txt"))
      with ("http://" ++ (n ++ "/robots.txt")).
    rewrite remove_unsafe_app, Hclean.
    change (Url.split_scheme _ _)
      with ("http", String "/" (String "/" (n ++ "/robots.txt"))).
    exact (Hrest "http").
  - change (Url.lstrip_c0 ("https" ++ "://" ++ n ++ "/robots.txt"))
      with ("https://" ++ (n ++ "/robots.txt")).
    rewrite remove_unsafe_app, Hclean.
    change (Url.split_scheme _ _)
      with ("https", String "/" (String "/" (n ++ "/robots.txt"))).
    exact (Hrest "https").
Qed.

(** X22. [initialize_parser] asks for [robots.txt] at the root of the host
    of [base_url]: for an http or https [base_url] with a host, the URL it
    reads is the scheme and the host of [base_url] followed by
    [/robots.txt], whatever the path, the parameters, the query and the
    fragment of [base_url] are; [set_url] accepts that URL, so the parser
    is the one [read] leaves, or [None] when opening the URL raised. For a
    [base_url] that [urlparse] refuses, nothing is opened and
    [self.parser] is [None]. *)
Theorem robots_url_at_host_root (Policy : Type) (lib : Url.Lib)
  (urlopen : string -> Py.result (RobotsParser.Answer Policy))
  (base_url : string) :
  (forall b,
     Url.urlparse lib base_url "" = Py.Ok b ->
     Url.p_scheme b = "http" \/ Url.p_scheme b = "https" ->
     Url.p_netloc b <> "" ->
     let robots_url := Url.p_scheme b ++ "://" ++ Url.p_netloc b ++ "/robots.txt" in
     Url.urljoin lib base_url "/robots.txt" = Py.Ok robots_url
     /\ RobotsParser.set_url lib robots_url = Py.Ok tt
     /\ RobotsParser.initialize_parser lib urlopen base_url
        = match RobotsParser.read urlopen RobotsParser.new robots_url with
          | Py.Ok p => Py.Ok (Some p)
          | Py.Raise _ => Py.Ok None
          end)
  /\ (forall e,
        Url.urlparse lib base_url "" = Py.Raise e ->
        Url.urljoin lib base_url "/robots.txt" = Py.Raise e
        /\ RobotsParser.initialize_parser lib urlopen base_url = Py.Ok None).
Proof.
  split.
  - intros b Hparse Hscheme Hnet robots_url.
    assert (Hbase : Url.nonempty base_url = true).
    { destruct base_url; [|reflexivity]. exfalso. apply Hnet.
      revert Hparse. vm_compute. intros [= <-]. reflexivity. }
    assert (Hnonempty : Url.nonempty (Url.p_netloc b) = true).
    { destruct (Url.p_netloc b); [congruence | reflexivity]. }
    assert (Hjoin : Url.urljoin lib base_url "/robots.txt" = Py.Ok robots_url).
    { unfold Url.urljoin. rewrite Hbase. cbn [negb Url.nonempty].
      rewrite Hparse. cbn [Py.bind]. subst robots_url.
      destruct Hscheme as [Hs | Hs]; rewrite Hs.
      - change (Url.urlparse lib "/robots.txt" "http")
          with (Py.Ok (Url.mkParse "http" "" "/robots.txt" "" "" "")).
        cbn [Py.bind Url.p_scheme Url.p_netloc Url.p_path Url.p_params
             Url.p_query Url.p_fragment].
        vm_compute Url.mem. cbn [String.eqb Ascii.eqb Bool.eqb negb andb orb
                                 Url.nonempty].
        unfold Url.urlunparse, Url.urlunsplit.
        cbn [Url.p_scheme Url.p_netloc Url.p_path Url.p_params Url.p_query
             Url.p_fragment Url.scheme Url.netloc Url.path Url.query
             Url.fragment Url.nonempty].
        rewrite Hnonempty. reflexivity.
      - change (Url.urlparse lib "/robots.txt" "https")
          with (Py.Ok (Url.mkParse "https" "" "/robots.txt" "" "" "")).
        cbn [Py.bind Url.p_scheme Url.p_netloc Url.p_path Url.p_params
             Url.p_query Url.p_fragment].
        vm_compute Url.mem. cbn [String.eqb Ascii.eqb Bool.eqb negb andb orb
                                 Url.nonempty].
        unfold Url.urlunparse, Url.urlunsplit.
        cbn [Url.p_scheme Url.p_netloc Url.p_path Url.p_params Url.p_query
             Url.p_fragment Url.scheme Url.netloc Url.path Url.query
             Url.fragment Url.nonempty].
        rewrite Hnonempty. reflexivity. }
    assert (Hset : RobotsParser.set_url lib robots_url = Py.Ok tt).
    { unfold Url.urlparse in Hparse.
      destruct (Url.urlsplit lib base_url "") as [r|e] eqn:Hsplit; [|discriminate].
      cbn [Py.bind] in Hparse.
      assert (Hb : Url.p_scheme b = Url.scheme r /\ Url.p_netloc b = Url.netloc r).
      { destruct (Url.mem _ _ && _); [destruct (Url._splitparams (Url.path r))|];
          injection Hparse as <-; split; reflexivity. }
      destruct Hb as [Hbs Hbn].
      assert (Hnet' : Url.netloc r <> "") by congruence.
      destruct (urlsplit_netloc lib _ _ r Hsplit Hnet')
        as (Hsafe & Hdelims & Hbr & Hck).
      unfold RobotsParser.set_url, Url.urlparse. subst robots_url.
      rewrite Hbs, Hbn in *.
      rewrite (urlsplit_rebuilt lib _ _ Hscheme Hsafe Hdelims Hbr Hck).
      cbn [Py.bind Url.path Url.scheme].
      replace (Py.char_in ";" "/robots.txt") with false by reflexivity.
      rewrite andb_false_r. reflexivity. }
    split; [exact Hjoin|]. split; [exact Hset|].
    unfold RobotsParser.initialize_parser. rewrite Hjoin. cbn [Py.bind].
    rewrite Hset. cbn [Py.bind].
    destruct (RobotsParser.read urlopen RobotsParser.new robots_url); reflexivity.
  - intros e Hparse.
    assert (Hbase : Url.nonempty base_url = true).
    { destruct base_url; [|reflexivity]. revert Hparse. vm_compute. discriminate. }
    assert (Hjoin : Url.urljoin lib base_url "/robots.txt" = Py.Raise e).
    { unfold Url.urljoin. rewrite Hbase, Hparse. reflexivity. }
    split; [exact Hjoin|].
    unfold RobotsParser.initialize_parser. rewrite Hjoin. reflexivity.
Qed.

Lemma robots_url_of_blog_page :
  let urlopen := fun url : string =>
    if String.eqb url "https://ex.com/robots.txt"
    then Py.Ok (RobotsParser.Parsed tt)
    else Py.Ok (RobotsParser.HTTPError 404) in
  let base_url := "https://ex.com/blog/post;v=1?page=2#top" in
  Url.urljoin Examples.plain_urls base_url "/robots.txt"
  = Py.Ok "https://ex.com/robots.txt"
  /\ RobotsParser.set_url Examples.plain_urls "https://ex.com/robots.txt" = Py.Ok tt
  /\ RobotsParser.initialize_parser Examples.plain_urls urlopen base_url
     = Py.Ok (Some (RobotsParser.mkRobotFileParser false false (Some tt))).
Proof.
  intros urlopen base_url.
  destruct (robots_url_at_host_root unit Examples.plain_urls urlopen base_url)
    as [Hroot _].
  apply (Hroot (Url.mkParse "https" "ex.com" "/blog/post" "v=1" "page=2" "top")).
  - reflexivity.
  - right. reflexivity.
  - discriminate.
Defined.

(** A [base_url] with a bracket that is not closed: nothing is opened. *)
Example robots_of_unparsable_base :
  let urlopen := fun url : string => Py.Ok (RobotsParser.Parsed tt) in
  Url.urljoin Examples.plain_urls "http://[::1/x" "/robots.txt"
  = Py.Raise "Invalid IPv6 URL"
  /\ RobotsParser.initialize_parser Examples.plain_urls urlopen "http://[::1/x"
     = Py.Ok None.
Proof. split; reflexivity. Qed.

(** ** The crawler: what [crawl] returns *)

Section CrawlResult.

Import SEOCrawler.

Variable Policy : Type.
Variable Soup : Type.
Variable W : World Policy Soup.
Variable self : SEOCrawler.t Policy.

Local Abbreviation step := (SEOCrawler.step W self).
Local Abbreviation effect := (SEOCrawler.effect W self).
Local Abbreviation reachable := (SEOCrawler.reachable W self).

Lemma can_fetch_returns (url user_agent : string) :
  exists b,
    RobotsParser.can_fetch (match_entries W) (robots_parser self) url user_agent
    = Py.Ok b.
Proof.
  unfold RobotsParser.can_fetch.
  destruct (RobotsParser.parser (robots_parser self)) as [p|]; [|eauto].
  destruct (RobotsParser.lib_can_fetch (match_entries W) p user_agent url);
    cbn [Py.try_except]; eauto.
Qed.

(** When the gate of a crawler that [__init__] has made answers [False],
    robots.txt was answered with an error status that is 401, 403 or
    outside 400-499, or it was read and its entries forbid the URL. *)
Lemma gate_false_after_init (url user_agent : string) :
  RobotsParser.init (url_lib W) (urlopen W) (base_url self)
  = Py.Ok (robots_parser self) ->
  RobotsParser.can_fetch (match_entries W) (robots_parser self) url user_agent
  = Py.Ok false ->
  Spec.robots_forbid W (base_url self) url user_agent.
Proof.
  unfold RobotsParser.init, Spec.robots_forbid.
  destruct (initialize_parser_cases Policy (url_lib W) (urlopen W) (base_url self))
    as [[_ ->] | (robots_url & p & Hjoin & _ & Hread & ->)];
    cbn [Py.bind]; intros [= <-]; unfold RobotsParser.can_fetch;
    cbn [RobotsParser.parser]; [discriminate|].
  intros Hfalse. exists robots_url. split; [exact Hjoin|].
  revert Hread Hfalse. unfold RobotsParser.read, RobotsParser.lib_can_fetch.
  destruct (urlopen W robots_url) as [[code|entries]|e]; cbn [Py.bind];
    [| |discriminate].
  - destruct ((code =? 401)%Z || (code =? 403)%Z) eqn:Hdeny.
    + intros [= <-] _. left. exists code. split; [reflexivity|].
      apply orb_true_iff in Hdeny as [H|H]; apply Z.eqb_eq in H; auto.
    + destruct ((400 <=? code)%Z && (code <? 500)%Z) eqn:Hin.
      * intros [= <-]. cbn. discriminate.
      * intros [= <-] _. left. exists code. split; [reflexivity|].
        apply andb_false_iff in Hin as [H|H].
        -- apply Z.leb_gt in H. auto.
        -- apply Z.ltb_ge in H. auto.
  - intros [= <-]. cbn [RobotsParser.disallow_all RobotsParser.allow_all
                        RobotsParser.parsed RobotsParser.new].
    intros Hfalse. right. exists entries. split; [reflexivity|].
    destruct (match_entries W entries user_agent url) as [[|]|];
      cbn [Py.try_except] in Hfalse; congruence.
Qed.

(** No call ends with an exception, and a call that is submitting its
    tasks or waiting for them holds the record of its own page. *)
Lemma calls_invariant (st : State) :
  reachable st ->
  forall j u, threads st !! j = Some u ->
    (forall e, t_pc u <> Raised e)
    /\ (forall r, (exists todo, t_pc u = L100 r todo) \/ t_pc u = L105 r ->
          exists seo perf cm links,
            r = page_record (t_url u) (t_depth u) seo perf cm links).
Proof.
  induction 1 as [|st st' i Hreach IH Hstep].
  - intros [|j] u Hj; [|discriminate]. injection Hj as <-. split.
    + discriminate.
    + intros r [[todo Hpc] | Hpc]; discriminate.
  - destruct (step_effect Policy Soup W self i st st' Hstep)
      as (t & p & v & l & new & Hl & He & ->).
    cbn [threads]. intros j u Hj.
    apply lookup_stepped in Hj; [|eapply lookup_lt_Some; exact Hl].
    destruct Hj as [[-> ->] | [[Hne Hj] | [Hin _]]].
    + destruct (IH i t Hl) as [_ IHr].
      cbn [set_pc t_pc t_url t_depth]. split.
      * intros e Hp. subst p. inversion He; subst.
        -- destruct (can_fetch_returns (t_url t) "*") as [b Hb]. congruence.
        -- destruct (fetch_and_analyze_cases Policy Soup W self (t_url t) (t_depth t))
             as [[e' Hfa] | (? & ? & ? & ? & ? & ? & _ & _ & _ & _ & _ & Hfa)];
             congruence.
      * intros r [[todo Hp] | Hp]; subst p; inversion He; subst.
        -- destruct (fetch_and_analyze_cases Policy Soup W self (t_url t) (t_depth t))
             as [[e' Hfa] | (? & ? & seo & perf & cm & links & _ & _ & _ & _ & _ & Hfa)];
             [congruence|].
           match goal with
           | H : fetch_and_analyze _ _ _ _ = L100 _ _ |- _ =>
               rewrite Hfa in H; injection H as <- _
           end.
           eauto.
        -- apply IHr. left. eauto.
        -- apply IHr. left. eauto.
        -- destruct (fetch_and_analyze_cases Policy Soup W self (t_url t) (t_depth t))
             as [[e' Hfa] | (? & ? & ? & ? & ? & ? & _ & _ & _ & _ & _ & Hfa)];
             congruence.
        -- apply IHr. left. eauto.
    + apply (IH j u Hj).
    + inversion He; subst; cbn in Hin; try contradiction.
      destruct Hin as [<- | []]. cbn [t_pc]. split; [discriminate|].
      intros r [[todo' Hp] | Hp]; discriminate.
Qed.

(** While the call of [crawl] stands at its guard nothing is visited and
    no other call exists; it returns the empty dict only through the depth
    test or the robots gate. *)
Lemma root_invariant (st : State) :
  reachable st ->
  exists t0,
    threads st !! 0%nat = Some t0
    /\ t_url t0 = base_url self /\ t_depth t0 = 0%Z
    /\ (t_pc t0 = L68 -> visited_urls st = ∅ /\ length (threads st) = 1%nat)
    /\ (t_pc t0 = L71 -> length (threads st) = 1%nat)
    /\ (t_pc t0 = Returned [] ->
        (depth self < 0)%Z
        \/ (ignore_robots self = false
            /\ RobotsParser.can_fetch (match_entries W) (robots_parser self)
                 (base_url self) "*" = Py.Ok false)).
Proof.
  induction 1 as [|st st' i Hreach IH Hstep].
  - eexists. split; [reflexivity|]. cbn. repeat split; try discriminate.
  - destruct IH as (t0 & H0 & Hurl & Hd & H68 & H71 & Hempty).
    destruct (step_effect Policy Soup W self i st st' Hstep)
      as (t & p & v & l & new & Hl & He & ->).
    pose proof (lookup_lt_Some _ _ _ Hl) as Hlt.
    cbn [threads visited_urls].
    rewrite (lookup_after_step _ new i 0 (set_pc t p) t0 H0).
    eexists. split; [reflexivity|].
    destruct (Nat.eqb_spec 0 i) as [<- | Hne].
    + assert (t = t0) as -> by congruence.
      cbn [set_pc t_url t_depth t_pc].
      split; [exact Hurl|]. split; [exact Hd|].
      destruct (calls_invariant st Hreach 0%nat t0 H0) as [_ Hrec].
      assert (Hq0 : t_pc t0 <> Queued).
      { destruct (tree_invariant Policy Soup W self st Hreach)
          as ((t0' & H0' & _ & _ & _ & Hq) & _).
        congruence. }
      assert (Hfa : forall q,
                 fetch_and_analyze W self (t_url t0) (t_depth t0) = q ->
                 q <> L68 /\ q <> L71 /\ q <> Returned []).
      { intros q <-.
        destruct (fetch_and_analyze_cases Policy Soup W self (t_url t0) (t_depth t0))
          as [[e' Hfa'] | (? & ? & ? & ? & ? & ? & _ & _ & _ & _ & _ & Hfa')];
          rewrite Hfa'; repeat split; discriminate. }
      inversion He; subst; (split; [|split]); intros Hp;
        try discriminate Hp;
        try (exfalso; apply Hq0; assumption);
        try (destruct (Hfa _ Hp) as (? & ? & ?); congruence).
      * left. rewrite <- Hd.
        match goal with Hq : t_pc t0 = L68 |- _ => destruct (H68 Hq) as [Hv _] end.
        match goal with
        | Hg : _ \/ _ ∈ _ |- _ =>
            destruct Hg as [Hdeep | Hseen];
            [exact Hdeep | rewrite Hv in Hseen; set_solver]
        end.
      * rewrite length_app, length_insert. cbn [length].
        match goal with Hq : t_pc t0 = L68 |- _ => destruct (H68 Hq) as [_ Hlen] end.
        lia.
      * right. rewrite <- Hurl. split; assumption.
      * match goal with
        | Hq : t_pc t0 = L105 ?r |- _ =>
            destruct (Hrec r (or_intror Hq)) as (seo & perf & cm & links & Hpage)
        end.
        rewrite Hpage in Hp. discriminate.
    + assert (Hbusy : t_pc t0 <> L68 /\ t_pc t0 <> L71).
      { split; intros Hq; [destruct (H68 Hq) as [_ Hlen] | pose proof (H71 Hq) as Hlen];
          rewrite Hlen in Hlt; lia. }
      split; [exact Hurl|]. split; [exact Hd|].
      split; [intros Hq; destruct Hbusy; contradiction|].
      split; [intros Hq; destruct Hbusy; contradiction | exact Hempty].
Qed.

(** X23. No call of [analyze_page] ends with an exception: the robots
    gate answers on every URL and everything after it is inside the [try].
    What the first [crawl] of a crawler that [__init__] has made returns
    is the empty dict only when the configured depth is negative or the
    robots gate answers [False] on the start URL: robots.txt was answered
    with an error status that is 401, 403 or outside 400-499, or it was
    read and its entries forbid the start URL. Otherwise [crawl] returns
    the error record of the start URL, or the record of the start page at
    depth 0 with the links extracted from it. *)
Theorem crawl_returns_start_page (st : State) :
  SEOCrawler.init W (base_url self) (depth self) (ignore_robots self)
  = Py.Ok self ->
  reachable st ->
  (forall j u e, threads st !! j = Some u -> t_pc u <> Raised e)
  /\ (forall r, crawl_result st = Some r ->
        (r = []
         /\ ((depth self < 0)%Z
             \/ (ignore_robots self = false
                 /\ Spec.robots_forbid W (base_url self) (base_url self) "*")))
        \/ (exists e, r = error_record (base_url self) e)
        \/ (exists content load_time seo perf cm links,
              get_page_content W (base_url self) = Py.Ok (content, load_time)
              /\ seo_analyze W (BeautifulSoup W content) (base_url self) = Py.Ok seo
              /\ performance_analyze W load_time content = Py.Ok perf
              /\ content_analyze W (BeautifulSoup W content) = Py.Ok cm
              /\ extract_links W self (BeautifulSoup W content) (base_url self)
                 = Py.Ok links
              /\ r = page_record (base_url self) 0 seo perf cm links)).
Proof.
  intros Hinit Hreach. split.
  - intros j u e Hj. apply (calls_invariant st Hreach j u Hj).
  - intros r Hr. unfold crawl_result in Hr.
    destruct (root_invariant st Hreach) as (t0 & H0 & Hurl & Hd & _ & _ & Hempty).
    rewrite H0 in Hr. destruct t0 as [url d parent pc0]. cbn in Hurl, Hd, Hempty.
    subst url d. destruct pc0; try discriminate. injection Hr as ->.
    pose proof (results_are_own Policy Soup W self st Hreach 0%nat _ r H0 eq_refl)
      as Hown.
    destruct Hown as [-> | [[e ->] | Hpage]].
    + left. split; [reflexivity|].
      destruct (Hempty eq_refl) as [Hdepth | [Hignore Hgate]]; [left; exact Hdepth|].
      right. split; [exact Hignore|].
      apply gate_false_after_init; [|exact Hgate].
      unfold SEOCrawler.init in Hinit.
      destruct (RobotsParser.init _ _ _) as [rp|e]; [|discriminate].
      cbn [Py.bind] in Hinit. injection Hinit as Hself.
      rewrite <- Hself. reflexivity.
    + right. left. exists e. reflexivity.
    + right. right. exact Hpage.
Qed.

End CrawlResult.

Lemma whole_chain_returns_home_record :
  let st := Examples.state_after Examples.chain Examples.whole_chain in
  let W := Examples.world Examples.chain in
  (forall j u e, SEOCrawler.threads st !! j = Some u ->
                 SEOCrawler.t_pc u <> SEOCrawler.Raised e)
  /\ (forall r, SEOCrawler.crawl_result st = Some r ->
        (r = []
         /\ ((SEOCrawler.depth Examples.crawler < 0)%Z
             \/ (SEOCrawler.ignore_robots Examples.crawler = false
                 /\ Spec.robots_forbid W
                      (SEOCrawler.base_url Examples.crawler)
                      (SEOCrawler.base_url Examples.crawler) "*")))
        \/ (exists e,
              r = SEOCrawler.error_record (SEOCrawler.base_url Examples.crawler) e)
        \/ (exists content load_time seo perf cm links,
              SEOCrawler.get_page_content W (SEOCrawler.base_url Examples.crawler)
              = Py.Ok (content, load_time)
              /\ SEOCrawler.seo_analyze W (SEOCrawler.BeautifulSoup W content)
                   (SEOCrawler.base_url Examples.crawler) = Py.Ok seo
              /\ SEOCrawler.performance_analyze W load_time content = Py.Ok perf
              /\ SEOCrawler.content_analyze W (SEOCrawler.BeautifulSoup W content)
                 = Py.Ok cm
              /\ SEOCrawler.extract_links W Examples.crawler
                   (SEOCrawler.BeautifulSoup W content)
                   (SEOCrawler.base_url Examples.crawler) = Py.Ok links
              /\ r = SEOCrawler.page_record (SEOCrawler.base_url Examples.crawler)
                       0 seo perf cm links)).
Proof.
  apply (crawl_returns_start_page unit (list string)
           (Examples.world Examples.chain) Examples.crawler
           (Examples.state_after Examples.chain Examples.whole_chain)).
  - reflexivity.
  - apply state_after_reachable.
Defined.

(** A site whose server answers 503 when asked for robots.txt: the
    crawler that [__init__] makes keeps a parser that has read nothing,
    the gate answers [False] on the start URL, and [crawl] returns the
    empty dict without a fetch. *)
Example crawl_of_site_without_robots_is_empty :
  let W := Examples.world_with_robots (fun _ => Py.Ok (RobotsParser.HTTPError 503))
             Examples.chain in
  exists self st,
    SEOCrawler.init W "https://ex.com/" 1 false = Py.Ok self
    /\ RobotsParser.parser (SEOCrawler.robots_parser self)
       = Some RobotsParser.new
    /\ SEOCrawler.run W self [0; 0]%nat (SEOCrawler.crawl_start self) = Some st
    /\ SEOCrawler.crawl_result st = Some []
    /\ SEOCrawler.fetch_log st = [].
Proof.
  intros W. eexists. eexists. split; [reflexivity|].
  split; [reflexivity|]. split; [reflexivity|]. split; reflexivity.
Qed.

(** ** The crawler: the crawl goes on until [crawl] returns *)

Lemma first_index {A : Type} (P : A -> bool) (l : list A) :
  existsb P l = true ->
  exists c x, l !! c = Some x /\ P x = true
              /\ forallb (fun y => negb (P y)) (take c l) = true.
Proof.
  induction l as [|a l IH]; [discriminate|].
  cbn [existsb]. destruct (P a) eqn:Ha.
  - intros _. exists 0%nat, a. repeat split; assumption.
  - cbn [orb]. intros Hex. destruct (IH Hex) as (c & x & Hc & Hx & Hall).
    exists (S c), x. split; [exact Hc|]. split; [exact Hx|].
    cbn [take forallb]. rewrite Ha, Hall. reflexivity.
Qed.

Lemma existsb_lookup {A : Type} (P : A -> bool) (l : list A) :
  existsb P l = true -> exists c x, l !! c = Some x /\ P x = true.
Proof.
  intros Hex. destruct (first_index P l Hex) as (c & x & Hc & Hx & _). eauto.
Qed.

Section Progress.

Import SEOCrawler.

Variable Policy : Type.
Variable Soup : Type.
Variable W : World Policy Soup.
Variable self : SEOCrawler.t Policy.

Local Abbreviation step := (SEOCrawler.step W self).
Local Abbreviation reachable := (SEOCrawler.reachable W self).

(** A call that a worker is running and that is not waiting for its tasks
    can run its next statement. *)
Lemma running_call_steps (st : State) (j : nat) (u : Thread) :
  threads st !! j = Some u ->
  active (t_pc u) = true ->
  (forall r, t_pc u <> L105 r) ->
  exists st', step j st = Some st'.
Proof.
  intros Hj Hact Hwait. unfold SEOCrawler.step. rewrite Hj.
  destruct (t_pc u) as [| | | | |result todo|result|r|e] eqn:Hpc;
    try discriminate.
  - destruct (_ || _); eauto.
  - destruct (negb (ignore_robots self)); [|eauto].
    destruct (RobotsParser.can_fetch _ _ _ _) as [[|]|e]; eauto.
  - eauto.
  - eauto.
  - destruct todo as [|link todo]; [eauto|].
    destruct (bool_decide _); eauto.
  - exfalso. apply (Hwait result). reflexivity.
Qed.

(** Below a call that a worker is running, some call can run its next
    statement: the call itself, one of its tasks that is running, or the
    first of its tasks still in the queue. *)
Lemma active_call_progress (st : State) :
  reachable st ->
  forall m j u,
    (length (threads st) - j <= m)%nat ->
    threads st !! j = Some u ->
    active (t_pc u) = true ->
    exists k st', step k st = Some st'.
Proof.
  intros Hreach.
  destruct (tree_invariant Policy Soup W self st Hreach) as (_ & Hchild & _).
  assert (Hbelow : forall c uc, threads st !! c = Some uc ->
                     forall j, child_of j uc = true -> (j < c)%nat).
  { intros c uc Hc j Hcj. unfold child_of in Hcj.
    destruct (t_parent uc) as [q|] eqn:Hq; [|discriminate].
    apply Nat.eqb_eq in Hcj. subst q.
    destruct c as [|c].
    - destruct (tree_invariant Policy Soup W self st Hreach)
        as ((t0 & H0 & _ & _ & Hpar & _) & _).
      congruence.
    - destruct (Hchild (S c) uc Hc ltac:(lia)) as (q & _ & _ & Hq' & Hlt & _).
      congruence. }
  induction m as [|m IH]; intros j u Hm Hj Hact.
  - pose proof (lookup_lt_Some _ _ _ Hj). lia.
  - destruct (t_pc u) as [| | | | |result todo|result|r|e] eqn:Hpc;
      try discriminate;
      try (destruct (running_call_steps st j u Hj) as [st' Hst'];
           [rewrite Hpc; reflexivity | rewrite Hpc; discriminate | eauto]).
    destruct (children_done j (threads st)) eqn:Hdone.
    { exists j. unfold SEOCrawler.step. rewrite Hj, Hpc, Hdone. eauto. }
    destruct (existsb (fun w => child_of j w && active (t_pc w)) (threads st))
      eqn:Hrunning.
    + destruct (existsb_lookup _ _ Hrunning) as (c & uc & Hc & Huc).
      apply andb_true_iff in Huc as [Hcj Hcact].
      pose proof (Hbelow c uc Hc j Hcj) as Hlt.
      apply (IH c uc); [lia | exact Hc | exact Hcact].
    + assert (Hqueued : existsb (fun w => child_of j w && is_queued (t_pc w))
                          (threads st) = true).
      { unfold children_done in Hdone.
        apply not_true_iff_false in Hdone.
        destruct (existsb (fun w => child_of j w && is_queued (t_pc w))
                    (threads st)) eqn:Hex; [reflexivity|].
        exfalso. apply Hdone. apply forallb_forall. intros w Hw.
        assert (Hnq : child_of j w && is_queued (t_pc w) = false).
        { destruct (child_of j w && is_queued (t_pc w)) eqn:E; [|reflexivity].
          assert (existsb (fun w0 => child_of j w0 && is_queued (t_pc w0))
                    (threads st) = true)
            by (apply existsb_exists; exists w; split; assumption).
          congruence. }
        assert (Hna : child_of j w && active (t_pc w) = false).
        { destruct (child_of j w && active (t_pc w)) eqn:E; [|reflexivity].
          assert (existsb (fun w0 => child_of j w0 && active (t_pc w0))
                    (threads st) = true)
            by (apply existsb_exists; exists w; split; assumption).
          congruence. }
        unfold active in Hna.
        destruct (child_of j w), (is_queued (t_pc w)), (finished (t_pc w));
          cbn in *; congruence. }
      destruct (first_index _ _ Hqueued) as (c & uc & Hc & Huc & Hfirst).
      apply andb_true_iff in Huc as [Hcj Hcq].
      exists c. unfold SEOCrawler.step. rewrite Hc.
      destruct (t_pc uc) eqn:Hpcc; try discriminate.
      assert (Hstart : may_start c uc (threads st) = true).
      { unfold may_start. unfold child_of in Hcj.
        destruct (t_parent uc) as [q|]; [|discriminate].
        apply Nat.eqb_eq in Hcj. subst q.
        apply andb_true_iff. split; [exact Hfirst|].
        assert (Hnone : List.filter (fun w => child_of j w && active (t_pc w))
                          (threads st) = []).
        { clear - Hrunning. induction (threads st) as [|w ths IHt]; [reflexivity|].
          cbn [existsb] in Hrunning. apply orb_false_iff in Hrunning as [Hw Hrest].
          cbn [List.filter]. rewrite Hw. apply IHt, Hrest. }
        rewrite Hnone. reflexivity. }
      rewrite Hstart. eauto.
Qed.

(** X24. A crawl never gets stuck: in every state it can reach, either
    the call of [crawl] has returned, or some call of [analyze_page] can
    run its next statement. A call that waits at the end of its [with]
    block has a task that is running or one that a worker of its own
    executor can take. *)
Theorem crawl_never_stuck (st : State) :
  reachable st ->
  (exists r, crawl_result st = Some r)
  \/ (exists i st', step i st = Some st').
Proof.
  intros Hreach.
  destruct (tree_invariant Policy Soup W self st Hreach)
    as ((t0 & H0 & _ & _ & _ & Hq) & _).
  destruct (calls_invariant Policy Soup W self st Hreach 0%nat t0 H0) as [Hraise _].
  destruct (active (t_pc t0)) eqn:Hact.
  - right. apply (active_call_progress st Hreach (length (threads st)) 0 t0);
      [lia | exact H0 | exact Hact].
  - left. unfold crawl_result. rewrite H0.
    destruct t0 as [url d parent pc0]. cbn in *.
    destruct pc0; try discriminate; try (exfalso; apply Hq; reflexivity).
    + eauto.
    + exfalso. apply (Hraise e). reflexivity.
Qed.

End Progress.

Lemma chain_crawl_goes_on :
  let st := Examples.state_after Examples.chain Examples.down_the_chain in
  (exists r, SEOCrawler.crawl_result st = Some r)
  \/ (exists i st',
        SEOCrawler.step (Examples.world Examples.chain) Examples.crawler i st
        = Some st').
Proof.
  apply (crawl_never_stuck unit (list string) (Examples.world Examples.chain)
           Examples.crawler
           (Examples.state_after Examples.chain Examples.down_the_chain)).
  apply state_after_reachable.
Defined.

(** ** The crawler: [crawl] returns last *)

Section Join.

Import SEOCrawler.

Variable Policy : Type.
Variable Soup : Type.
Variable W : World Policy Soup.
Variable self : SEOCrawler.t Policy.

Local Abbreviation step := (SEOCrawler.step W self).
Local Abbreviation effect := (SEOCrawler.effect W self).
Local Abbreviation reachable := (SEOCrawler.reachable W self).

Lemma parent_below (st : State) (c q : nat) (uc : Thread) :
  reachable st ->
  threads st !! c = Some uc -> child_of q uc = true -> (q < c)%nat.
Proof.
  intros Hreach Hc Hcq. unfold child_of in Hcq.
  destruct (t_parent uc) as [q'|] eqn:Hq; [|discriminate].
  apply Nat.eqb_eq in Hcq. subst q'.
  destruct (tree_invariant Policy Soup W self st Hreach)
    as ((t0 & H0 & _ & _ & Hpar & _) & Hchild & _).
  destruct c as [|c]; [congruence|].
  destruct (Hchild (S c) uc Hc ltac:(lia)) as (q' & _ & _ & Hq' & Hlt & _).
  congruence.
Qed.

Lemma children_done_lookup (ths : list Thread) (q c : nat) (uc : Thread) :
  children_done q ths = true ->
  ths !! c = Some uc -> child_of q uc = true -> finished (t_pc uc) = true.
Proof.
  unfold children_done. intros Hdone Hc Hcq.
  rewrite forallb_forall in Hdone.
  specialize (Hdone uc ltac:(apply list_elem_of_In, list_elem_of_lookup; eauto)).
  rewrite Hcq in Hdone. exact Hdone.
Qed.

(** A call has tasks only once it has reached the comprehension of lines
    100-103, and it finishes only after its tasks have. *)
Lemma join_invariant (st : State) :
  reachable st ->
  forall q tq c uc,
    threads st !! q = Some tq -> threads st !! c = Some uc ->
    child_of q uc = true ->
    Spec.before_submitting (t_pc tq) = false
    /\ (finished (t_pc tq) = true -> finished (t_pc uc) = true).
Proof.
  induction 1 as [|st st' i Hreach IH Hstep].
  - intros [|q] tq [|c] uc Hq Hc Hcq; try discriminate.
    injection Hc as <-. discriminate.
  - assert (Hreach' : reachable st')
      by (apply reachable_step with (st := st) (i := i); assumption).
    destruct (step_effect Policy Soup W self i st st' Hstep)
      as (t & p & v & l & new & Hl & He & ->).
    pose proof (lookup_lt_Some _ _ _ Hl) as Hlt.
    cbn [threads] in *. intros q tq c uc Hq Hc Hcq.
    pose proof (parent_below _ c q uc Hreach' Hc Hcq) as Hqc.
    apply lookup_stepped in Hq; [|exact Hlt].
    apply lookup_stepped in Hc; [|exact Hlt].
    assert (Hidle : forall w, finished (t_pc w) = true -> threads st !! i = Some w ->
                              False).
    { intros w Hfin Hw. assert (w = t) as -> by congruence.
      inversion He; subst;
        match goal with Hpc : t_pc t = _ |- _ => rewrite Hpc in Hfin end;
        discriminate. }
    destruct Hq as [[-> ->] | [[Hqi Hq] | [Hqnew Hqlen]]].
    + (* the call that submitted is the one that moved *)
      cbn [set_pc t_pc].
      destruct Hc as [[-> _] | [[Hci Hc] | [Hcnew Hclen]]]; [lia | |].
      * destruct (IH i t c uc Hl Hc Hcq) as [Hsub Hfin].
        inversion He; subst;
          match goal with Hpc : t_pc t = _ |- _ => rewrite Hpc in Hsub, Hfin end;
          try discriminate; split; try reflexivity; try discriminate.
        intros _.
        match goal with
        | Hd : children_done _ _ = true |- _ =>
            apply (children_done_lookup _ _ _ _ Hd Hc Hcq)
        end.
      * inversion He; subst; cbn in Hcnew; try contradiction.
        destruct Hcnew as [<- | []]. cbn [t_pc]. split; [reflexivity | discriminate].
    + destruct Hc as [[-> ->] | [[Hci Hc] | [Hcnew Hclen]]].
      * (* a task moved *)
        change (child_of q (set_pc t p)) with (child_of q t) in Hcq.
        destruct (IH q tq i t Hq Hl Hcq) as [Hsub Hfin].
        split; [exact Hsub|]. intros Hfq. exfalso.
        apply (Hidle t (Hfin Hfq) Hl).
      * apply (IH q tq c uc Hq Hc Hcq).
      * inversion He; subst; cbn in Hcnew; try contradiction.
        destruct Hcnew as [<- | []]. cbn [child_of t_parent] in Hcq.
        apply Nat.eqb_eq in Hcq. contradiction.
    + (* a task just submitted has no task of its own *)
      destruct Hc as [[-> _] | [[Hci Hc] | [Hcnew Hclen]]].
      * lia.
      * pose proof (lookup_lt_Some _ _ _ Hc). lia.
      * inversion He; subst; cbn in Hcnew, Hqnew; try contradiction.
        destruct Hcnew as [<- | []]. cbn [child_of t_parent] in Hcq.
        apply Nat.eqb_eq in Hcq. lia.
Qed.

(** X25. [crawl] returns last: in a state in which the call of [crawl]
    has returned, every call of [analyze_page] of the crawl has finished,
    so that no page is fetched or analysed after [crawl] has handed back
    its result. More generally a call has finished only if all the tasks
    it submitted have. *)
Theorem crawl_returns_last (st : State) :
  reachable st ->
  (forall q tq c uc,
      threads st !! q = Some tq -> threads st !! c = Some uc ->
      t_parent uc = Some q ->
      finished (t_pc tq) = true -> finished (t_pc uc) = true)
  /\ (forall r, crawl_result st = Some r ->
        forall j u, threads st !! j = Some u ->
                    finished (t_pc u) = true /\ step j st = None).
Proof.
  intros Hreach.
  assert (Hjoin : forall q tq c uc,
             threads st !! q = Some tq -> threads st !! c = Some uc ->
             t_parent uc = Some q ->
             finished (t_pc tq) = true -> finished (t_pc uc) = true).
  { intros q tq c uc Hq Hc Hpar.
    apply (join_invariant st Hreach q tq c uc Hq Hc).
    unfold child_of. rewrite Hpar. apply Nat.eqb_refl. }
  split; [exact Hjoin|].
  intros r Hr.
  assert (Hall : forall n j u, (j < n)%nat -> threads st !! j = Some u ->
                               finished (t_pc u) = true).
  { induction n as [|n IHn]; intros j u Hjn Hj; [lia|].
    destruct (tree_invariant Policy Soup W self st Hreach)
      as ((t0 & H0 & _) & Hchild & _).
    destruct j as [|j].
    - unfold crawl_result in Hr. rewrite Hj in Hr.
      destruct u as [url d parent pc0]. cbn [t_pc].
      destruct pc0; try discriminate. reflexivity.
    - destruct (Hchild (S j) u Hj ltac:(lia))
        as (q & tq & _ & Hpar & Hlt & Hq & _).
      apply (Hjoin q tq (S j) u Hq Hj Hpar).
      apply (IHn q tq); [lia | exact Hq]. }
  intros j u Hj.
  assert (Hfin : finished (t_pc u) = true) by (apply (Hall (S j) j u); [lia | exact Hj]).
  split; [exact Hfin|].
  unfold SEOCrawler.step. rewrite Hj.
  destruct (t_pc u); try discriminate; reflexivity.
Qed.

End Join.

Lemma whole_chain_all_finished :
  let st := Examples.state_after Examples.chain Examples.whole_chain in
  (forall q tq c uc,
      SEOCrawler.threads st !! q = Some tq -> SEOCrawler.threads st !! c = Some uc ->
      SEOCrawler.t_parent uc = Some q ->
      SEOCrawler.finished (SEOCrawler.t_pc tq) = true ->
      SEOCrawler.finished (SEOCrawler.t_pc uc) = true)
  /\ (forall r, SEOCrawler.crawl_result st = Some r ->
        forall j u, SEOCrawler.threads st !! j = Some u ->
                    SEOCrawler.finished (SEOCrawler.t_pc u) = true
                    /\ SEOCrawler.step (Examples.world Examples.chain)
                         Examples.crawler j st = None).
Proof.
  apply (crawl_returns_last unit (list string) (Examples.world Examples.chain)
           Examples.crawler
           (Examples.state_after Examples.chain Examples.whole_chain)).
  apply state_after_reachable.
Defined.

(** ** The content analyzer: the text that is analysed *)

Lemma space_not_word (c : ascii) :
  Py.is_space c = true -> Py.is_word_char c = false.
Proof.
  destruct c as [[] [] [] [] [] [] [] []]; vm_compute; congruence.
Qed.

Lemma line_break_not_word (c : ascii) :
  Py.is_line_break c = true -> Py.is_word_char c = false.
Proof.
  destruct c as [[] [] [] [] [] [] [] []]; vm_compute; congruence.
Qed.

Lemma str_app_cons (c : ascii) (s t : string) :
  String c s ++ t = String c (s ++ t).
Proof. reflexivity. Qed.

Lemma str_app_snoc (cur : string) (c : ascii) (s : string) :
  (cur ++ String c "") ++ s = cur ++ String c s.
Proof. rewrite str_app_assoc. reflexivity. Qed.

(** The words of a text that holds a character that is no word character:
    those before it, then those after it. *)
Lemma words_app_sep (s : string) (cur : string) (c : ascii) (t : string) :
  Py.is_word_char c = false ->
  Py.findall_words_from cur (s ++ String c t)
  = (Py.findall_words_from cur s ++ Py.findall_words_from "" t)%list.
Proof.
  intros Hc. revert cur. induction s as [|x s IH]; intros cur.
  - change ("" ++ String c t) with (String c t).
    cbn [Py.findall_words_from]. rewrite Hc. destruct cur; reflexivity.
  - rewrite str_app_cons. cbn [Py.findall_words_from].
    destruct (Py.is_word_char x); [apply IH|].
    destruct cur; rewrite IH; reflexivity.
Qed.

Lemma words_skip (c : ascii) (s : string) :
  Py.is_word_char c = false ->
  Py.findall_words_from "" (String c s) = Py.findall_words_from "" s.
Proof. intros Hc. cbn [Py.findall_words_from]. rewrite Hc. reflexivity. Qed.

Lemma words_join (chunks : list string) :
  Py.findall_words (Py.join " " chunks) = flat_map Py.findall_words chunks.
Proof.
  unfold Py.findall_words.
  induction chunks as [|w chunks IH]; [reflexivity|].
  destruct chunks as [|w2 chunks].
  - cbn [Py.join flat_map]. rewrite app_nil_r. reflexivity.
  - change (Py.join " " (w :: w2 :: chunks))
      with (w ++ String " " (Py.join " " (w2 :: chunks))).
    rewrite words_app_sep by reflexivity. rewrite IH. reflexivity.
Qed.

Lemma words_lstrip (s : string) :
  Py.findall_words (Py.lstrip s) = Py.findall_words s.
Proof.
  unfold Py.findall_words. induction s as [|c s IH]; [reflexivity|].
  cbn [Py.lstrip]. destruct (Py.is_space c) eqn:Hc; [|reflexivity].
  rewrite IH, (words_skip c s (space_not_word c Hc)). reflexivity.
Qed.

Lemma findall_step (cur : string) (c : ascii) (s : string) :
  Py.findall_words_from cur (String c s)
  = if Py.is_word_char c
    then Py.findall_words_from (cur ++ String c "") s
    else match cur with
         | EmptyString => Py.findall_words_from "" s
         | _ => cur :: Py.findall_words_from "" s
         end.
Proof. reflexivity. Qed.

Lemma words_rstrip (s cur : string) :
  Py.findall_words_from cur (Py.rstrip s) = Py.findall_words_from cur s.
Proof.
  revert cur. induction s as [|c s IH]; intros cur; [reflexivity|].
  cbn [Py.rstrip]. destruct (Py.rstrip s) as [|r0 r] eqn:Hr.
  - destruct (Py.is_space c) eqn:Hc.
    + rewrite findall_step, (space_not_word c Hc), <- IH.
      destruct cur; reflexivity.
    + rewrite (findall_step cur c ""), (findall_step cur c s), <- !IH.
      reflexivity.
  - rewrite (findall_step cur c (String r0 r)), (findall_step cur c s), !IH.
    reflexivity.
Qed.

Lemma words_strip (s : string) :
  Py.findall_words (Py.strip s) = Py.findall_words s.
Proof.
  unfold Py.strip, Py.findall_words.
  rewrite words_rstrip. apply words_lstrip.
Qed.

Lemma words_split_double_space_upto (n : nat) (s cur : string) :
  (String.length s <= n)%nat ->
  flat_map Py.findall_words (Py.split_double_space_from cur s)
  = Py.findall_words (cur ++ s).
Proof.
  revert s cur. induction n as [|n IH]; intros s cur Hn.
  - destruct s; [|cbn in Hn; lia].
    cbn [Py.split_double_space_from flat_map].
    rewrite app_nil_r, str_app_empty_r. reflexivity.
  - destruct s as [|c s].
    + cbn [Py.split_double_space_from flat_map].
      rewrite app_nil_r, str_app_empty_r. reflexivity.
    + cbn [String.length] in Hn.
      assert (Hstep : flat_map Py.findall_words
                        (Py.split_double_space_from (cur ++ String c "") s)
                      = Py.findall_words (cur ++ String c s))
        by (rewrite IH by lia; rewrite str_app_snoc; reflexivity).
      cbn [Py.split_double_space_from].
      destruct c as [[] [] [] [] [] [] [] []]; try exact Hstep.
      destruct s as [|c2 s2]; [exact Hstep|].
      destruct c2 as [[] [] [] [] [] [] [] []]; try exact Hstep.
      clear Hstep. cbn [flat_map String.length] in *.
      rewrite (IH s2 "") by lia.
      unfold Py.findall_words.
      rewrite (words_app_sep cur "" " " (String " " s2)) by reflexivity.
      rewrite (words_skip " " s2) by reflexivity.
      reflexivity.
Qed.

Lemma words_split_double_space (s : string) :
  flat_map Py.findall_words (Py.split_double_space s) = Py.findall_words s.
Proof.
  unfold Py.split_double_space.
  apply (words_split_double_space_upto (String.length s)). lia.
Qed.

Lemma words_splitlines_upto (n : nat) (s cur : string) :
  (String.length s <= n)%nat ->
  flat_map Py.findall_words (Py.splitlines_from cur s)
  = Py.findall_words (cur ++ s).
Proof.
  revert s cur. induction n as [|n IH]; intros s cur Hn.
  - destruct s; [|cbn in Hn; lia].
    cbn [Py.splitlines_from]. rewrite str_app_empty_r.
    destruct cur; [reflexivity|]. cbn [flat_map]. apply app_nil_r.
  - destruct s as [|c s].
    + cbn [Py.splitlines_from]. rewrite str_app_empty_r.
      destruct cur; [reflexivity|]. cbn [flat_map]. apply app_nil_r.
    + cbn [String.length] in Hn. cbn [Py.splitlines_from].
      destruct (Py.is_line_break c) eqn:Hc.
      * pose proof (line_break_not_word c Hc) as Hw.
        cbn [flat_map]. unfold Py.findall_words at 3.
        rewrite (words_app_sep cur "" c s Hw).
        f_equal.
        assert (Hplain : flat_map Py.findall_words (Py.splitlines_from "" s)
                         = Py.findall_words_from "" s)
          by (rewrite IH by lia; reflexivity).
        destruct c as [[] [] [] [] [] [] [] []]; try exact Hplain.
        destruct s as [|c2 s2]; [exact Hplain|].
        destruct c2 as [[] [] [] [] [] [] [] []]; exact Hplain.
      * rewrite IH by lia. rewrite str_app_snoc. reflexivity.
Qed.

Lemma words_splitlines (s : string) :
  flat_map Py.findall_words (Py.splitlines s) = Py.findall_words s.
Proof.
  unfold Py.splitlines. apply (words_splitlines_upto (String.length s)). lia.
Qed.

Lemma flat_map_words_strip (l : list string) :
  flat_map Py.findall_words (map Py.strip l) = flat_map Py.findall_words l.
Proof.
  induction l as [|x l IH]; [reflexivity|].
  cbn [map flat_map]. rewrite words_strip, IH. reflexivity.
Qed.

Lemma flat_map_words_nonempty (l : list string) :
  flat_map Py.findall_words (List.filter Url.nonempty l)
  = flat_map Py.findall_words l.
Proof.
  induction l as [|x l IH]; [reflexivity|].
  cbn [List.filter]. destruct x; cbn [Url.nonempty flat_map]; rewrite IH; reflexivity.
Qed.

Lemma flat_map_words_split (l : list string) :
  flat_map Py.findall_words (flat_map Py.split_double_space l)
  = flat_map Py.findall_words l.
Proof.
  induction l as [|x l IH]; [reflexivity|].
  cbn [flat_map]. rewrite flat_map_app, words_split_double_space, IH. reflexivity.
Qed.

Lemma lower_word_char (c : ascii) :
  Py.is_word_char (Py.lower_char c) = Py.is_word_char c.
Proof. destruct c as [[] [] [] [] [] [] [] []]; reflexivity. Qed.

Lemma lower_app (a b : string) : Py.lower (a ++ b) = Py.lower a ++ Py.lower b.
Proof.
  induction a as [|x a IH]; [reflexivity|].
  rewrite str_app_cons. cbn [Py.lower]. rewrite str_app_cons, IH. reflexivity.
Qed.

(** The words of the lowercased text are the words of the text,
    lowercased. *)
Lemma words_lower (s cur : string) :
  Py.findall_words_from (Py.lower cur) (Py.lower s)
  = map Py.lower (Py.findall_words_from cur s).
Proof.
  revert cur. induction s as [|c s IH]; intros cur.
  - cbn [Py.lower Py.findall_words_from]. destruct cur; reflexivity.
  - cbn [Py.lower]. rewrite !findall_step, lower_word_char.
    destruct (Py.is_word_char c).
    + rewrite <- IH, lower_app. reflexivity.
    + specialize (IH ""). cbn [Py.lower] in IH. rewrite IH.
      destruct cur; reflexivity.
Qed.

Lemma words_lower_text (t : string) :
  Py.findall_words (Py.lower t) = map Py.lower (Py.findall_words t).
Proof. exact (words_lower t ""). Qed.

(** X26. The text that [extract_text_content] hands to the analyses has
    the words of the page's text, in order: taking the lines apart,
    stripping them, splitting at double blanks and joining the pieces with
    one blank changes no word and adds none. The words counted, and the
    lowercased words that are no stop words, are those of the text left
    in the soup. *)
Theorem extracted_text_keeps_words (soup : Bs4.node) :
  let text := fst (ContentAnalyzer.extract_text_content soup) in
  let after := snd (ContentAnalyzer.extract_text_content soup) in
  ContentAnalyzer._split_into_words text
  = ContentAnalyzer._split_into_words (Bs4.get_text after)
  /\ ContentAnalyzer.keyword_words text
     = ContentAnalyzer.keyword_words (Bs4.get_text after).
Proof.
  cbn zeta. unfold ContentAnalyzer.extract_text_content. cbn [fst snd].
  set (after := fold_left _ _ soup).
  assert (Hwords : forall t,
             Py.findall_words
               (Py.join " "
                  (List.filter Url.nonempty
                     (map Py.strip
                        (flat_map Py.split_double_space
                           (map Py.strip (Py.splitlines t))))))
             = Py.findall_words t).
  { intros t. rewrite words_join, flat_map_words_nonempty, flat_map_words_strip,
      flat_map_words_split, flat_map_words_strip. apply words_splitlines. }
  split; [apply Hwords|].
  unfold ContentAnalyzer.keyword_words, ContentAnalyzer._split_into_words.
  f_equal. rewrite !words_lower_text. f_equal. apply Hwords.
Qed.

(** ** The report *)

Lemma dict_get_str_map (d : list (string * string)) (k : string) :
  Py.dict_get (map (fun kv => (fst kv, Py.VStr (snd kv))) d) k
  = option_map Py.VStr (Py.lookup d k).
Proof.
  induction d as [|[k' v] d IH]; [reflexivity|].
  cbn [map Py.dict_get Py.lookup fst snd]. rewrite (String.eqb_sym k k').
  destruct (String.eqb k' k); [reflexivity | exact IH].
Qed.

Lemma no_record_in_str_dict (d : list (string * string)) :
  flat_map (fun kv => SEOCrawler.records_inside (snd kv))
    (map (fun kv => (fst kv, Py.VStr (snd kv))) d) = [].
Proof. induction d as [|kv d IH]; [reflexivity | exact IH]. Qed.

Lemma no_record_in_ints (l : list Z) :
  flat_map SEOCrawler.records_inside (map Py.VInt l) = [].
Proof. induction l as [|x l IH]; [reflexivity | exact IH]. Qed.

(** A dict whose values are no strings is no page record. *)
Lemma no_record_in_dict (d : list (string * Py.value)) :
  Forall (fun kv => (forall s, snd kv <> Py.VStr s)
                    /\ SEOCrawler.records_inside (snd kv) = []) d ->
  SEOCrawler.records_inside (Py.VDict d) = [].
Proof.
  intros Hd. cbn [SEOCrawler.records_inside]. unfold SEOCrawler.is_page_record.
  assert (Hboth : match Py.dict_get d "url" with
                  | Some (Py.VStr _) => true
                  | _ => false
                  end = false
                  /\ flat_map (fun kv => SEOCrawler.records_inside (snd kv)) d = []).
  { induction Hd as [|[k v] d [Hv Hr] _ [IH1 IH2]]; [split; reflexivity|].
    cbn [snd] in Hv, Hr. cbn [Py.dict_get flat_map snd]. rewrite Hr, IH2. split.
    - destruct (String.eqb "url" k); [|exact IH1].
      destruct v; try reflexivity. exfalso. exact (Hv _ eq_refl).
    - reflexivity. }
  destruct Hboth as [-> ->]. reflexivity.
Qed.

Lemma no_record_in_float_dict (d : list (string * Q)) :
  SEOCrawler.records_inside
    (Py.VDict (map (fun kv => (fst kv, Py.VFloat (snd kv))) d)) = [].
Proof.
  apply no_record_in_dict. apply List.Forall_forall. intros kv Hkv.
  apply in_map_iff in Hkv. destruct Hkv as (x & <- & _).
  split; [discriminate | reflexivity].
Qed.

Lemma no_record_in_keywords (l : list (string * Z)) :
  flat_map SEOCrawler.records_inside
    (map (fun kv => Py.VList [Py.VStr (fst kv); Py.VInt (snd kv)]) l) = [].
Proof. induction l as [|kv l IH]; [reflexivity | exact IH]. Qed.

Lemma no_record_in_heading_count (hc : gmap string nat) (levels : list nat) :
  SEOCrawler.records_inside
    (Py.VDict
       (omap (fun i => match hc !! SEOAnalyzer.h i with
                       | Some n => Some (SEOAnalyzer.h i, Py.VInt (Z.of_nat n))
                       | None => None
                       end) levels)) = [].
Proof.
  apply no_record_in_dict. apply List.Forall_forall. intros kv Hkv.
  apply list_elem_of_In, list_elem_of_omap in Hkv. destruct Hkv as (i & _ & Hi).
  destruct (hc !! SEOAnalyzer.h i); [|discriminate Hi]. injection Hi as <-.
  split; [discriminate | reflexivity].
Qed.

(** The SEO report of the analyzer holds no page record. *)
Lemma no_record_in_seo (soup : Bs4.node) (url : string) (r : SEOAnalyzer.SEO) :
  SEOAnalyzer.analyze_soup soup url = Py.Ok r ->
  SEOCrawler.records_inside (SEOAnalyzer.to_value r) = [].
Proof.
  intros Hr. unfold SEOAnalyzer.analyze_soup, SEOAnalyzer.analyze in Hr.
  destruct (SEOAnalyzer.analyze_headings _) as [headings|e]; [|discriminate].
  cbn [Py.bind] in Hr.
  destruct (SEOAnalyzer.analyze_images _) as [images|e]; [|discriminate].
  cbn [Py.bind] in Hr. injection Hr as <-.
  unfold SEOAnalyzer.to_value.
  cbn [SEOAnalyzer.meta_tags SEOAnalyzer.headings SEOAnalyzer.images
       SEOAnalyzer.links SEOAnalyzer.title].
  set (metas := map Bs4.attrs_of (Bs4.find_all ["meta"] soup)).
  assert (Hpresent : SEOCrawler.records_inside
            (Py.VDict (map (fun kv => (fst kv, Py.VStr (snd kv)))
                         (SEOAnalyzer.meta_tags_present
                            (SEOAnalyzer.analyze_meta_tags metas)))) = []).
  { cbn [SEOCrawler.records_inside]. unfold SEOCrawler.is_page_record.
    rewrite dict_get_str_map, no_record_in_str_dict.
    unfold SEOAnalyzer.analyze_meta_tags. cbn [SEOAnalyzer.meta_tags_present].
    rewrite meta_lookup_fold. reflexivity. }
  pose proof (no_record_in_heading_count
                (SEOAnalyzer.heading_count headings) (seq 1 6)) as Hcount.
  cbn [SEOCrawler.records_inside SEOCrawler.is_page_record Py.dict_get
       flat_map snd app String.eqb Ascii.eqb Bool.eqb] in *.
  rewrite Hpresent, Hcount, !no_record_in_links. reflexivity.
Qed.

Lemma no_record_in_performance (r : PerformanceAnalyzer.Performance) :
  SEOCrawler.records_inside (PerformanceAnalyzer.to_value r) = [].
Proof.
  unfold PerformanceAnalyzer.to_value.
  set (breakdown := PerformanceAnalyzer.resource_breakdown _).
  assert (Hb : SEOCrawler.records_inside
                 (Py.VDict (map (fun kv => (fst kv, Py.VList (map Py.VInt (snd kv))))
                              breakdown)) = []).
  { apply no_record_in_dict. apply List.Forall_forall. intros kv Hkv.
    apply in_map_iff in Hkv. destruct Hkv as (x & <- & _).
    split; [discriminate|]. cbn [snd SEOCrawler.records_inside].
    apply no_record_in_ints. }
  cbn [SEOCrawler.records_inside SEOCrawler.is_page_record Py.dict_get
       flat_map snd app String.eqb Ascii.eqb Bool.eqb] in *.
  rewrite Hb. reflexivity.
Qed.

Lemma no_record_in_content (r : ContentAnalyzer.Content) :
  SEOCrawler.records_inside (ContentAnalyzer.to_value r) = [].
Proof.
  unfold ContentAnalyzer.to_value.
  pose proof (no_record_in_float_dict
                (ContentAnalyzer.keyword_densities
                   (ContentAnalyzer.keyword_analysis r))) as Hd.
  pose proof (no_record_in_keywords
                (ContentAnalyzer.top_keywords
                   (ContentAnalyzer.keyword_analysis r))) as Hk.
  destruct (Qeq_bool _ 0);
    destruct (ContentAnalyzer.paragraph_count (ContentAnalyzer.content_structure r));
    cbn [SEOCrawler.records_inside SEOCrawler.is_page_record Py.dict_get
         flat_map snd app String.eqb Ascii.eqb Bool.eqb] in *;
    rewrite Hd, Hk, !no_record_in_links; reflexivity.
Qed.

Section Report.

Import SEOCrawler.

Variable Policy : Type.
Variable lib : Url.Lib.
Variable opener : string -> Py.result (RobotsParser.Answer Policy).
Variable matcher : Policy -> string -> string -> Py.result bool.
Variable validators : string -> bool.
Variable fetch : string -> Py.result (Response * Q).
Variable parse : string -> Bs4.node.
Variable self : SEOCrawler.t Policy.

Local Abbreviation W := (repo_world lib opener matcher validators fetch parse).

(** X27. With the repository's analyzers, what [crawl] returns and keeps
    in [self.results] holds the record of the start page and of no other
    page: it is the empty dict, or one record whose [url] is the start
    URL, with no record of a crawled page anywhere in its metrics or
    links. The records of the pages crawled below the start page are in
    no part of it. *)
Theorem report_holds_start_page_only (st : State)
  (r : list (string * Py.value)) :
  SEOCrawler.reachable W self st ->
  crawl_result st = Some r ->
  records_inside (Py.VDict r) = match r with [] => [] | _ => [r] end
  /\ (r <> [] -> Py.dict_get r "url" = Some (Py.VStr (base_url self))).
Proof.
  intros Hreach Hr. unfold crawl_result in Hr.
  destruct (tree_invariant Policy Bs4.node W self st Hreach)
    as ((t0 & H0 & Hurl & _) & _).
  rewrite H0 in Hr. destruct t0 as [url d parent pc0]. cbn [t_url] in Hurl.
  subst url. destruct pc0; try discriminate. injection Hr as ->.
  pose proof (results_are_own Policy Bs4.node W self st Hreach 0%nat _ r H0 eq_refl)
    as Hown.
  cbn [t_url t_depth] in Hown.
  destruct Hown as [-> | [[e ->] | (content & load_time & seo & perf & cm & links
                                    & Hget & Hs & Hp & Hc & Hlinks & ->)]].
  - split; [reflexivity | congruence].
  - split; reflexivity.
  - split; [|reflexivity].
    cbn [seo_analyze performance_analyze content_analyze BeautifulSoup
         repo_world t_url t_depth] in *.
    destruct (SEOAnalyzer.analyze_soup (parse content) (base_url self))
      as [seo_r|e] eqn:Hseo; [|discriminate].
    cbn [Py.bind] in Hs. injection Hs as <-.
    injection Hp as <-.
    destruct (fst (ContentAnalyzer.analyze (parse content))) as [cm_r|e];
      [|discriminate].
    cbn [Py.bind] in Hc. injection Hc as <-.
    unfold page_record.
    cbn [records_inside is_page_record Py.dict_get String.eqb Ascii.eqb Bool.eqb
         flat_map snd].
    rewrite (no_record_in_seo _ _ _ Hseo), no_record_in_content,
      no_record_in_links.
    rewrite no_record_in_performance. reflexivity.
Qed.

End Report.

Lemma story_report :
  let W := Examples.story_world in
  let st := match SEOCrawler.run W Examples.crawler Examples.whole_story
                    (SEOCrawler.crawl_start Examples.crawler) with
            | Some st => st
            | None => SEOCrawler.crawl_start Examples.crawler
            end in
  let r := match SEOCrawler.crawl_result st with Some r => r | None => [] end in
  SEOCrawler.crawl_result st = Some r
  /\ map fst (SEOCrawler.fetch_log st) = ["https://ex.com/"; "https://ex.com/story"]
  /\ SEOCrawler.records_inside (Py.VDict r) = match r with [] => [] | _ => [r] end
  /\ (r <> [] ->
      Py.dict_get r "url" = Some (Py.VStr (SEOCrawler.base_url Examples.crawler))).
Proof.
  intros W st r.
  assert (Hr : SEOCrawler.crawl_result st = Some r) by (vm_compute; reflexivity).
  split; [exact Hr|]. split; [vm_compute; reflexivity|].
  apply (report_holds_start_page_only unit Examples.plain_urls
           Examples.no_robots Examples.allow_all
           Examples.accept_http Examples.story_site Examples.parse
           Examples.crawler st r); [|exact Hr].
  subst st.
  destruct (SEOCrawler.run W Examples.crawler Examples.whole_story
              (SEOCrawler.crawl_start Examples.crawler)) as [st|] eqn:Hrun.
  - apply (run_reachable unit Bs4.node W Examples.crawler _ st Hrun).
  - constructor.
Defined.
